(** * bokeh.io.export: exporting layouts to PNG and SVG through a web driver

    A shallow embedding of [bokeh/io/export.py].  The module is glue around
    collaborators that live outside it: a selenium web driver, the pillow
    image library, bokeh's own HTML embedding, and the operating system's
    lookup of file names.  They are taken as parameters (record
    [Collaborators]); everything the module itself does (temporary file life
    cycle, the two polling phases, exception handling, file naming) is
    written out as state passing over a [World]. *)

From Stdlib Require Import ZArith String Ascii List Lia DecimalString.
From stdpp Require Import gmap strings list.

Set Warnings "-register-all".
Local Open Scope string_scope.
Local Open Scope Z_scope.

(** ** Python values and exceptions *)

Inductive exn :=
| ValueError (msg : string)
| RuntimeError (msg : string)
| TypeError (msg : string)
| OSError (msg : string)
| TimeoutException
| NoSuchElementException
| WebDriverException (msg : string)
| OtherError (msg : string).

Inductive Result (A : Type) :=
| Ok (a : A)
| Raise (e : exn).
Arguments Ok {A} a.
Arguments Raise {A} e.

(** What [driver.execute_script] hands back: a JSON value. *)
Inductive JsVal :=
| JNull
| JBool (b : bool)
| JNum (n : Z)
| JStr (s : string)
| JArr (l : list JsVal).

(** Python truthiness, as used by [if value:] in [WebDriverWait.until]. *)
Definition truthy (v : JsVal) : bool :=
  match v with
  | JNull => false
  | JBool b => b
  | JNum n => negb (n =? 0)
  | JStr s => negb (String.length s =? 0)%nat
  | JArr l => negb (length l =? 0)%nat
  end.

(** ** The layout object *)

Record Plot := mkPlot {
  plot_height : option Z;
  plot_width : option Z;
  plot_attrs : gmap string string
}.

Inductive LayoutDOM :=
| APlot (p : Plot)
| NotAPlot (kind : string).

Record Image := mkImage {
  img_width : Z;
  img_height : Z;
  img_data : list Byte.byte
}.

(** ** Collaborators *)

Inductive Handle := Supplied | Controlled.

Inductive Command :=
| ExecuteScript (script : string)
| GetLog (kind : string)
| Get (url : string)
| MaximizeWindow
| SetWindowSize (w h : JsVal)
| GetScreenshotAsPng.

Inductive Event :=
| Called (h : Handle) (c : Command)
| Slept (ms : Z).

(** [D] is the state of one browser session.  Every driver method may fail;
    [drv_duration] is the wall-clock time (ms) the last command took and
    [drv_idle] lets the page run while Python sleeps. *)
Record Collaborators (D : Type) := mkCollaborators {
  drv_execute_script : string -> D -> Result JsVal * D;
  drv_get_log : string -> D -> Result (list (gmap string string)) * D;
  drv_get : string -> gmap string string -> D -> Result unit * D;
  drv_maximize_window : D -> Result unit * D;
  drv_set_window_size : JsVal -> JsVal -> D -> Result unit * D;
  drv_get_screenshot_as_png : D -> Result (list Byte.byte) * D;
  drv_duration : D -> N;
  drv_idle : Z -> D -> D;
  (* ..embed.file_html, with the fixed template and keyword arguments *)
  file_html : LayoutDOM -> Result string;
  (* .util.default_filename *)
  default_filename : string -> string;
  (* PIL: Image.open(io.BytesIO(png)).convert("RGBA") *)
  image_open : list Byte.byte -> Result Image;
  (* PIL, behind image.save: the format registered for the extension of a
     file name (ValueError when there is none), and the encoder of a format:
     what it writes to the file, and the exception it ends with if it fails *)
  image_format : string -> Result string;
  image_encode : Image -> string -> string * option exn;
  (* whether image.save, when the encoder fails, removes the file if the
     save itself had created it (newer versions of PIL do) *)
  image_save_cleans_up : bool;
  (* tempfile.mkstemp's choice of name, and os.getcwd() *)
  mkstemp_name : string -> string -> gmap string string -> string;
  getcwd : string;
  (* The operating system's name lookup for a path that is opened for
     writing: the canonical name of the file the path denotes (the file need
     not exist yet), or the OSError of the open (an empty name, a missing
     directory, a directory, no permission).  Two paths denote one file
     exactly when their canonical names are equal.  The module creates no
     directory, so the lookup is the same throughout a call. *)
  lookup_w : string -> Result string;
  (* mkstemp returns the canonical name of the file it created *)
  mkstemp_canonical :
    forall prefix suffix fs,
      lookup_w (mkstemp_name prefix suffix fs) = Ok (mkstemp_name prefix suffix fs)
}.
Arguments drv_execute_script {D} _ _ _.
Arguments drv_get_log {D} _ _ _.
Arguments drv_get {D} _ _ _ _.
Arguments drv_maximize_window {D} _ _.
Arguments drv_set_window_size {D} _ _ _ _.
Arguments drv_get_screenshot_as_png {D} _ _.
Arguments drv_duration {D} _ _.
Arguments drv_idle {D} _ _ _.
Arguments file_html {D} _ _.
Arguments default_filename {D} _ _.
Arguments image_open {D} _ _.
Arguments image_format {D} _ _.
Arguments image_encode {D} _ _ _.
Arguments image_save_cleans_up {D} _.
Arguments mkstemp_name {D} _ _ _ _.
Arguments getcwd {D} _.
Arguments lookup_w {D} _ _.
Arguments mkstemp_canonical {D} _ _ _ _.

(** ** The world the module runs in

    [files] is the disk: the content of every file, under its canonical
    name.  [obj] is the one layout object every function of the module is
    handed a reference to; [supplied] and [controlled] are the sessions
    behind a driver passed by the caller and behind
    [webdriver_control.get()]. *)
Record World (D : Type) := mkWorld {
  files : gmap string string;
  open_fds : gset nat;
  log : list string;
  py_warnings : list string;
  obj : LayoutDOM;
  supplied : D;
  controlled : D;
  now : Z;
  trace : list Event
}.
Arguments mkWorld {D} _ _ _ _ _ _ _ _ _.
Arguments files {D} _.
Arguments open_fds {D} _.
Arguments log {D} _.
Arguments py_warnings {D} _.
Arguments obj {D} _.
Arguments supplied {D} _.
Arguments controlled {D} _.
Arguments now {D} _.
Arguments trace {D} _.

Section World.
Context {D : Type}.

Definition set_files (f : gmap string string) (w : World D) : World D :=
  mkWorld f (open_fds w) (log w) (py_warnings w) (obj w)
          (supplied w) (controlled w) (now w) (trace w).
Definition set_open_fds (s : gset nat) (w : World D) : World D :=
  mkWorld (files w) s (log w) (py_warnings w) (obj w)
          (supplied w) (controlled w) (now w) (trace w).
Definition set_log (l : list string) (w : World D) : World D :=
  mkWorld (files w) (open_fds w) l (py_warnings w) (obj w)
          (supplied w) (controlled w) (now w) (trace w).
Definition set_py_warnings (l : list string) (w : World D) : World D :=
  mkWorld (files w) (open_fds w) (log w) l (obj w)
          (supplied w) (controlled w) (now w) (trace w).
Definition set_obj (o : LayoutDOM) (w : World D) : World D :=
  mkWorld (files w) (open_fds w) (log w) (py_warnings w) o
          (supplied w) (controlled w) (now w) (trace w).

Definition session (h : Handle) (w : World D) : D :=
  match h with Supplied => supplied w | Controlled => controlled w end.

(** The effect of one driver command on the world: the session moves on,
    the clock advances by what the command took, the trace grows. *)
Definition after_call (h : Handle) (c : Command) (d' : D) (took : N)
           (w : World D) : World D :=
  mkWorld (files w) (open_fds w) (log w) (py_warnings w) (obj w)
          (match h with Supplied => d' | Controlled => supplied w end)
          (match h with Supplied => controlled w | Controlled => d' end)
          (now w + Z.of_N took) (trace w ++ [Called h c]).

Definition after_sleep (idle : D -> D) (ms : Z) (w : World D) : World D :=
  mkWorld (files w) (open_fds w) (log w) (py_warnings w) (obj w)
          (idle (supplied w)) (idle (controlled w))
          (now w + ms) (trace w ++ [Slept ms]).
End World.

(** ** A state-and-exception monad *)

Definition M (D A : Type) : Type := World D -> Result A * World D.

Section Monad.
Context {D : Type}.

Definition ret {A} (a : A) : M D A := fun w => (Ok a, w).
Definition raise {A} (e : exn) : M D A := fun w => (Raise e, w).
Definition bind {A B} (m : M D A) (k : A -> M D B) : M D B :=
  fun w => match m w with
           | (Ok a, w1) => k a w1
           | (Raise e, w1) => (Raise e, w1)
           end.

(** [try: m  except <classes selected by handler>: ...] *)
Definition try_except {A} (m : M D A) (handler : exn -> option (M D A)) : M D A :=
  fun w => match m w with
           | (Ok a, w1) => (Ok a, w1)
           | (Raise e, w1) =>
               match handler e with
               | Some h => h w1
               | None => (Raise e, w1)
               end
           end.

(** [try: m  finally: cleanup]: the cleanup always runs; if it raises, its
    exception replaces whatever [m] produced. *)
Definition try_finally {A} (m : M D A) (cleanup : M D unit) : M D A :=
  fun w => let '(r, w1) := m w in
           match cleanup w1 with
           | (Ok _, w2) => (r, w2)
           | (Raise e, w2) => (Raise e, w2)
           end.
End Monad.

Notation "x <- m ;; k" := (bind m (fun x => k))
  (at level 100, m at next level, right associativity).
Notation "m ;;; k" := (bind m (fun _ => k))
  (at level 100, right associativity).

(** ** Python strings

    A string is the sequence of its characters, one [ascii] per character;
    positions and lengths count characters, as Python's do. *)

Module PyStr.

Fixpoint take (n : nat) (s : string) : string :=
  match n, s with
  | S n', String c s' => String c (take n' s')
  | _, _ => EmptyString
  end.

Fixpoint drop (n : nat) (s : string) : string :=
  match n, s with
  | S n', String _ s' => drop n' s'
  | _, _ => s
  end.

(** [find_from i sub s]: position of the first occurrence of [sub] in [s],
    counted from [i]. *)
Fixpoint find_from (i : nat) (sub s : string) : option nat :=
  if String.prefix sub s then Some i
  else match s with
       | EmptyString => None
       | String _ s' => find_from (S i) sub s'
       end.

(** [s.find(sub)]: the lowest index, or -1. *)
Definition find (s sub : string) : Z :=
  match find_from 0 sub s with
  | Some i => Z.of_nat i
  | None => -1
  end.

(** Slice bounds: a negative index counts from the end, and the result is
    clipped to [0, len]. *)
Definition clip (s : string) (i : Z) : nat :=
  let len := Z.of_nat (String.length s) in
  let j := if i <? 0 then i + len else i in
  Z.to_nat (Z.min (Z.max j 0) len).

(** [s[:i]] and [s[i:]] *)
Definition slice_to (s : string) (i : Z) : string := take (clip s i) s.
Definition slice_from (s : string) (i : Z) : string := drop (clip s i) s.

(** ["{}".format(i)] for a non-negative int *)
Definition format_int (i : nat) : string :=
  NilEmpty.string_of_uint (Nat.to_uint i).

Definition startswith (s pre : string) : bool := String.prefix pre s.

Fixpoint endswith_char (s : string) (c : ascii) : bool :=
  match s with
  | EmptyString => false
  | String a EmptyString => Ascii.eqb a c
  | String _ s' => endswith_char s' c
  end.

(** [s.endswith(suf)] *)
Definition endswith (s suf : string) : bool :=
  (String.length suf <=? String.length s)%nat
  && String.eqb (drop (String.length s - String.length suf) s) suf.

(** [s.split(c)] for a one-character separator *)
Fixpoint split (c : ascii) (s : string) : list string :=
  match s with
  | EmptyString => [EmptyString]
  | String a s' =>
      if Ascii.eqb a c then EmptyString :: split c s'
      else match split c s' with
           | h :: t => String a h :: t
           | [] => [String a EmptyString]
           end
  end.

Fixpoint repeat_str (n : nat) (s : string) : string :=
  match n with
  | O => EmptyString
  | S n' => s +:+ repeat_str n' s
  end.

End PyStr.

(** ** os.path (POSIX flavour) *)

Module posixpath.

Definition sep : string := "/".

Definition isabs (s : string) : bool := PyStr.startswith s sep.

(** [join(a, b)] for two components *)
Definition join (a b : string) : string :=
  if PyStr.startswith b sep then b
  else if (String.length a =? 0)%nat || PyStr.endswith_char a "/"%char
       then a +:+ b
       else a +:+ sep +:+ b.

(** One round of the loop over the components in [normpath]. *)
Definition norm_step (initial_slashes : nat) (new_comps : list string)
           (comp : string) : list string :=
  if String.eqb comp EmptyString || String.eqb comp "." then new_comps
  else if negb (String.eqb comp "..")
          || ((initial_slashes =? 0)%nat && (length new_comps =? 0)%nat)
          || (negb (length new_comps =? 0)%nat
              && String.eqb (List.last new_comps EmptyString) "..")
       then new_comps ++ [comp]
       else if negb (length new_comps =? 0)%nat
            then List.removelast new_comps
            else new_comps.

Definition normpath (path : string) : string :=
  if (String.length path =? 0)%nat then "."
  else
    let initial_slashes :=
      if PyStr.startswith path sep then
        if PyStr.startswith path (PyStr.repeat_str 2 sep)
           && negb (PyStr.startswith path (PyStr.repeat_str 3 sep))
        then 2%nat else 1%nat
      else 0%nat in
    let comps := PyStr.split "/"%char path in
    let new_comps := fold_left (norm_step initial_slashes) comps [] in
    let path := String.concat sep new_comps in
    let path := PyStr.repeat_str initial_slashes sep +:+ path in
    if (String.length path =? 0)%nat then "." else path.

Definition abspath (cwd path : string) : string :=
  normpath (if isabs path then path else join cwd path).

End posixpath.

(** ** The scripts sent to the browser *)

Definition dq : string := String (ascii_of_nat 34) EmptyString.
Definition nl : string := String (ascii_of_nat 10) EmptyString.

Definition _IS_LOADED_SCRIPT : string :=
  nl +:+ "            return typeof Bokeh !== " +:+ dq +:+ "undefined" +:+ dq
  +:+ " && Bokeh.documents != null && Bokeh.documents.length != 0"
  +:+ nl +:+ "        ".

Definition _IS_RENDER_COMPLETE_SCRIPT : string :=
  "return window._bokeh_render_complete;".

Definition _WAIT_SCRIPT : string :=
  nl +:+ "// add private window prop to check that render is complete"
  +:+ nl +:+ "window._bokeh_render_complete = false;"
  +:+ nl +:+ "function done() {"
  +:+ nl +:+ "  window._bokeh_render_complete = true;"
  +:+ nl +:+ "}"
  +:+ nl
  +:+ nl +:+ "var doc = window.Bokeh.documents[0];"
  +:+ nl
  +:+ nl +:+ "if (doc.is_idle)"
  +:+ nl +:+ "  done();"
  +:+ nl +:+ "else"
  +:+ nl +:+ "  doc.idle.connect(done);"
  +:+ nl.

Definition _SVG_SCRIPT : string :=
  nl +:+ "var serialized_svgs = [];"
  +:+ nl +:+ "var svgs = document.getElementsByClassName('bk-root')[0].getElementsByTagName("
  +:+ dq +:+ "svg" +:+ dq +:+ ");"
  +:+ nl +:+ "for (var i = 0; i < svgs.length; i++) {"
  +:+ nl +:+ "    var source = (new XMLSerializer()).serializeToString(svgs[i]);"
  +:+ nl +:+ "    serialized_svgs.push(source);"
  +:+ nl +:+ "};"
  +:+ nl +:+ "return serialized_svgs"
  +:+ nl.

Definition _CALCULATE_WINDOW_SIZE : string :=
  "        const root = document.getElementsByClassName(" +:+ dq +:+ "bk-root" +:+ dq
  +:+ ")[0]"
  +:+ nl +:+ "        const {width, height} = root.children[0].getBoundingClientRect()"
  +:+ nl +:+ "        return ["
  +:+ nl +:+ "            window.outerWidth - window.innerWidth + width,"
  +:+ nl +:+ "            window.outerHeight - window.innerHeight + height,"
  +:+ nl +:+ "        ]"
  +:+ nl +:+ "    ".

(** ** Primitives: logging, the file system, the driver, the clock *)

Section Primitives.
Context {D : Type} (ext : Collaborators D).

(** [log.warning(msg)] *)
Definition log_warning (msg : string) : M D unit :=
  fun w => (Ok tt, set_log (log w ++ [msg]) w).

(** [warnings.warn(msg)] *)
Definition warnings_warn (msg : string) : M D unit :=
  fun w => (Ok tt, set_py_warnings (py_warnings w ++ [msg]) w).

(** A value that must not be [None] where Python uses it. *)
Definition not_none {A} (o : option A) : M D A :=
  match o with
  | Some a => ret a
  | None => raise (TypeError "NoneType")
  end.

(** [mkstemp(prefix, suffix)]: creates the (empty) file, under its
    canonical name, and opens it. *)
Definition mkstemp (prefix suffix : string) : M D (nat * string) :=
  fun w =>
    let path := mkstemp_name ext prefix suffix (files w) in
    let fd := fresh (open_fds w) in
    (Ok (fd, path),
     set_open_fds ({[fd]} ∪ open_fds w) (set_files (<[path := EmptyString]> (files w)) w)).

(** [os.close(fd)] *)
Definition os_close (fd : nat) : M D unit :=
  fun w => if decide (fd ∈ open_fds w)
           then (Ok tt, set_open_fds (open_fds w ∖ {[fd]}) w)
           else (Raise (OSError "Bad file descriptor"), w).

(** [os.unlink(path)], for a canonical name (the module unlinks only what
    [mkstemp] returned). *)
Definition os_unlink (path : string) : M D unit :=
  fun w => match files w !! path with
           | Some _ => (Ok tt, set_files (delete path (files w)) w)
           | None => (Raise (OSError "No such file or directory"), w)
           end.

(** [io.open(path, mode="w", encoding="utf-8")]: the file the path denotes
    is created, or emptied when it exists; when the lookup fails so does the
    open, and nothing is touched.  The canonical name of the file stands for
    the file object. *)
Definition io_open_w (path : string) : M D string :=
  fun w => match lookup_w ext path with
           | Ok name => (Ok name, set_files (<[name := EmptyString]> (files w)) w)
           | Raise e => (Raise e, w)
           end.

(** [f.write(text)] on a file just opened, and the close that follows. *)
Definition file_write (name text : string) : M D unit :=
  fun w => (Ok tt, set_files (<[name := text]> (files w)) w).

(** [os.path.exists(path)], asked about a path that is to be written as a
    file. *)
Definition os_path_exists (path : string) : M D bool :=
  fun w => (Ok match lookup_w ext path with
               | Ok name => bool_decide (is_Some (files w !! name))
               | Raise _ => false
               end, w).

(** [with io.open(path, mode="w", encoding="utf-8") as f: f.write(text)] *)
Definition write_text (path text : string) : M D unit :=
  f <- io_open_w path;;
  file_write f text.

(** One driver command on the session behind [h]. *)
Definition call {A} (h : Handle) (c : Command)
           (method : World D -> D -> Result A * D) : M D A :=
  fun w => let '(r, d') := method w (session h w) in
           (r, after_call h c d' (drv_duration ext d') w).

Definition execute_script (h : Handle) (script : string) : M D JsVal :=
  call h (ExecuteScript script) (fun _ => drv_execute_script ext script).
Definition get_log (h : Handle) (kind : string) : M D (list (gmap string string)) :=
  call h (GetLog kind) (fun _ => drv_get_log ext kind).
Definition get (h : Handle) (url : string) : M D unit :=
  call h (Get url) (fun w => drv_get ext url (files w)).
Definition maximize_window (h : Handle) : M D unit :=
  call h MaximizeWindow (fun _ => drv_maximize_window ext).
Definition set_window_size (h : Handle) (width height : JsVal) : M D unit :=
  call h (SetWindowSize width height) (fun _ => drv_set_window_size ext width height).
Definition driver_get_screenshot_as_png (h : Handle) : M D (list Byte.byte) :=
  call h GetScreenshotAsPng (fun _ => drv_get_screenshot_as_png ext).

(** [time.sleep(ms)] and [time.time()] *)
Definition time_sleep (ms : Z) : M D unit :=
  fun w => (Ok tt, after_sleep (drv_idle ext ms) ms w).
Definition time_time : M D Z := fun w => (Ok (now w), w).

(** *** selenium.webdriver.support.ui.WebDriverWait.until

    The loop of the library: call the method, return its value when
    truthy, swallow [NoSuchElementException], sleep [poll], stop once the
    clock has passed [end_time].  Each round sleeps [poll > 0], so
    [until_rounds] rounds always suffice (lemma [until_loop_enough]). *)
Fixpoint until_loop (rounds : nat) (poll end_time : Z) (method : M D JsVal)
  : M D JsVal :=
  match rounds with
  | O => raise TimeoutException
  | S rounds' =>
      fun w =>
        let continue w1 :=
          match time_sleep poll w1 with
          | (_, w2) =>
              if end_time <? now w2 then (Raise TimeoutException, w2)
              else until_loop rounds' poll end_time method w2
          end in
        match method w with
        | (Ok value, w1) => if truthy value then (Ok value, w1) else continue w1
        | (Raise NoSuchElementException, w1) => continue w1
        | (Raise e, w1) => (Raise e, w1)
        end
  end.

Definition until_rounds (timeout_ms poll : Z) : nat :=
  S (Z.to_nat (timeout_ms / poll)).

(** [WebDriverWait(driver, timeout, poll_frequency).until(method)], with
    [timeout] in seconds and the clock in milliseconds. *)
Definition WebDriverWait_until (timeout poll : Z) (method : M D JsVal) : M D JsVal :=
  fun w =>
    let end_time := now w + 1000 * timeout in
    until_loop (until_rounds (1000 * timeout) poll) poll end_time method w.

(** [poll_frequency=0.1] *)
Definition poll_frequency : Z := 100.

End Primitives.

(** ** The module *)

Section ExportPy.
Context {D : Type} (ext : Collaborators D).

Local Abbreviation M := (M D).

(** *** class _TempFile *)

Record _TempFile := mk_TempFile {
  fd : option nat;
  path : option string;
  _closed : bool
}.

(** [__init__]: [self.fd, self.path = mkstemp(prefix=prefix, suffix=suffix)] *)
Definition __init__ (prefix suffix : string) : M _TempFile :=
  r <- mkstemp ext prefix suffix;;
  ret (mk_TempFile (Some (fst r)) (Some (snd r)) false).

Definition except_OSError (e : exn) : option (M unit) :=
  match e with
  | OSError _ => Some (ret tt)
  | _ => None
  end.

Definition close (self : _TempFile) : M _TempFile :=
  if _closed self then ret self
  else
    try_except (n <- not_none (fd self);; os_close n) except_OSError;;;
    let self := mk_TempFile None (path self) (_closed self) in
    try_except (p <- not_none (path self);; os_unlink p) except_OSError;;;
    let self := mk_TempFile (fd self) None (_closed self) in
    ret (mk_TempFile (fd self) (path self) true).

Definition __enter__ (self : _TempFile) : M _TempFile := ret self.
Definition __exit__ (self : _TempFile) : M unit := close self;;; ret tt.
Definition __del__ (self : _TempFile) : M unit := close self;;; ret tt.

Definition _tmp_html : M _TempFile := __init__ "bokeh" ".html".

(** [with ctx as tmp: body]; [__exit__] returns [None], so an exception
    of the body is never suppressed. *)
Definition with_ {A} (ctx : M _TempFile) (body : _TempFile -> M A) : M A :=
  mgr <- ctx;;
  tmp <- __enter__ mgr;;
  try_finally (body tmp) (__exit__ mgr).

(** *** _log_console *)

Definition levels : gset string := {[ "WARNING"; "ERROR"; "SEVERE" ]}.

(** [log.get('level') in levels]; a missing key gives [None], which is not
    in the set. *)
Definition level_in_levels (entry : gmap string string) : bool :=
  match entry !! "level" with
  | Some l => bool_decide (l ∈ levels)
  | None => false
  end.

(** What logging prints for [log.get("message")]. *)
Definition py_str (o : option string) : string :=
  match o with
  | Some s => s
  | None => "None"
  end.

Fixpoint for_each {A} (l : list A) (body : A -> M unit) : M unit :=
  match l with
  | [] => ret tt
  | x :: l' => body x;;; for_each l' body
  end.

Definition console_messages (logs : list (gmap string string)) : list (option string) :=
  map (fun entry => entry !! "message") (List.filter level_in_levels logs).

Definition console_header : string :=
  "There were browser warnings and/or errors that may have affected your export".

Definition _log_console (driver : Handle) : M unit :=
  logs <- get_log ext driver "browser";;
  let messages := console_messages logs in
  if (0 <? length messages)%nat then
    log_warning console_header;;;
    for_each messages (fun message => log_warning (py_str message))
  else ret tt.

(** *** wait_until_render_complete *)

Definition is_bokeh_loaded (driver : Handle) : M JsVal :=
  execute_script ext driver _IS_LOADED_SCRIPT.

Definition is_bokeh_render_complete (driver : Handle) : M JsVal :=
  execute_script ext driver _IS_RENDER_COMPLETE_SCRIPT.

Definition not_loaded_msg : string :=
  "Bokeh was not loaded in time. Something may have gone wrong.".

Definition not_idle_msg : string :=
  "The webdriver raised a TimeoutException while waiting for "
  +:+ "a 'bokeh:idle' event to signify that the layout has rendered. "
  +:+ "Something may have gone wrong.".

(** [WebDriverWait(driver, timeout, poll_frequency=0.1).until(condition)] *)
Definition wait_for (driver : Handle) (timeout : Z) (condition : Handle -> M JsVal)
  : M JsVal :=
  WebDriverWait_until ext timeout poll_frequency (condition driver).

Definition load_phase (driver : Handle) (timeout : Z) : M JsVal :=
  try_except
    (wait_for driver timeout is_bokeh_loaded)
    (fun e => match e with
              | TimeoutException =>
                  Some (_log_console driver;;; raise (RuntimeError not_loaded_msg))
              | _ => None
              end).

Definition render_phase (driver : Handle) (timeout : Z) : M unit :=
  try_finally
    (try_except
       (wait_for driver timeout is_bokeh_render_complete;;;
        ret tt)
       (fun e => match e with
                 | TimeoutException => Some (log_warning not_idle_msg)
                 | _ => None
                 end))
    (_log_console driver).

Definition wait_until_render_complete (driver : Handle) (timeout : Z) : M unit :=
  load_phase driver timeout;;;
  execute_script ext driver _WAIT_SCRIPT;;;
  render_phase driver timeout.

(** *** get_layout_html *)

(** [kwargs.get(k)] and [kwargs.get(k, d)]: the value may itself be [None]. *)
Definition kwargs_get (kwargs : gmap string (option Z)) (k : string) : option Z :=
  match kwargs !! k with
  | Some v => v
  | None => None
  end.
Definition kwargs_get_default (kwargs : gmap string (option Z)) (k : string)
           (d : option Z) : option Z :=
  match kwargs !! k with
  | Some v => v
  | None => d
  end.

Definition is_not_none {A} (o : option A) : bool :=
  match o with Some _ => true | None => false end.

Definition set_plot_height (v : option Z) : M unit :=
  fun w => match obj w with
           | APlot p => (Ok tt, set_obj (APlot (mkPlot v (plot_width p) (plot_attrs p))) w)
           | NotAPlot _ => (Raise (OtherError "AttributeError"), w)
           end.
Definition set_plot_width (v : option Z) : M unit :=
  fun w => match obj w with
           | APlot p => (Ok tt, set_obj (APlot (mkPlot (plot_height p) v (plot_attrs p))) w)
           | NotAPlot _ => (Raise (OtherError "AttributeError"), w)
           end.

Definition non_plot_msg : string :=
  "Export method called with height or width kwargs on a non-Plot layout. "
  +:+ "The size values will be ignored.".

(** The local variables [resize], [old_height], [old_width]: [Some] of the
    saved sizes exactly when [resize] is [True]. *)
Definition begin_resize (kwargs : gmap string (option Z))
  : M (option (option Z * option Z)) :=
  if is_not_none (kwargs_get kwargs "height") || is_not_none (kwargs_get kwargs "width")
  then
    fun w =>
      match obj w with
      | NotAPlot _ => (warnings_warn non_plot_msg;;; ret None) w
      | APlot p =>
          let old_height := plot_height p in
          let old_width := plot_width p in
          (set_plot_height (kwargs_get_default kwargs "height" old_height);;;
           set_plot_width (kwargs_get_default kwargs "width" old_width);;;
           ret (Some (old_height, old_width))) w
      end
  else ret None.

Definition end_resize (resize : option (option Z * option Z)) : M unit :=
  match resize with
  | Some (old_height, old_width) =>
      set_plot_height old_height;;; set_plot_width old_width
  | None => ret tt
  end.

Definition get_layout_html (kwargs : gmap string (option Z)) : M string :=
  resize <- begin_resize kwargs;;
  try_finally (fun w => (file_html ext (obj w), w)) (end_resize resize).

(** *** _maximize_viewport *)

(** Iterating over a value that came back from the browser. *)
Definition py_iter (v : JsVal) : M (list JsVal) :=
  match v with
  | JArr l => ret l
  | JStr s => ret (map (fun c => JStr (String c EmptyString)) (list_ascii_of_string s))
  | _ => raise (TypeError "object is not iterable")
  end.

Definition _maximize_viewport (web_driver : Handle) : M unit :=
  size <- execute_script ext web_driver _CALCULATE_WINDOW_SIZE;;
  items <- py_iter size;;
  match items with
  | [width; height] => set_window_size ext web_driver width height
  | _ => raise (ValueError "wrong number of values to unpack")
  end.

(** *** get_screenshot_as_png and get_svgs *)

Definition webdriver_control_get : M Handle := ret Controlled.

Definition pick_driver (driver : option Handle) : M Handle :=
  match driver with
  | Some d => ret d
  | None => webdriver_control_get
  end.

Definition get_screenshot_as_png (driver : option Handle) (timeout : Z)
           (kwargs : gmap string (option Z)) : M Image :=
  png <- with_ _tmp_html (fun tmp =>
           html <- get_layout_html kwargs;;
           p <- not_none (path tmp);;
           write_text ext p html;;;
           web_driver <- pick_driver driver;;
           maximize_window ext web_driver;;;
           get ext web_driver ("file:///" +:+ p);;;
           wait_until_render_complete web_driver timeout;;;
           _maximize_viewport web_driver;;;
           driver_get_screenshot_as_png ext web_driver);;
  fun w => (image_open ext png, w).

Definition get_svgs (driver : option Handle) (timeout : Z)
           (kwargs : gmap string (option Z)) : M JsVal :=
  with_ _tmp_html (fun tmp =>
    html <- get_layout_html kwargs;;
    p <- not_none (path tmp);;
    write_text ext p html;;;
    web_driver <- pick_driver driver;;
    get ext web_driver ("file:///" +:+ p);;;
    wait_until_render_complete web_driver timeout;;;
    execute_script ext web_driver _SVG_SCRIPT).

(** *** export_png *)

Definition size_kwargs (height width : option Z) : gmap string (option Z) :=
  <["height" := height]> (<["width" := width]> ∅).

(** [image.save(filename)] (PIL's [Image.save] given a file name): the
    format is looked up from the extension of the name before the file is
    touched; the file is then opened with mode "w+b", which creates or
    empties it; the encoder of the format writes to it.  When the encoder
    fails, a file that existed before stays with what was written, and so
    does a file the save created unless the library removes it again. *)
Definition image_save (image : Image) (filename : string) : M unit :=
  format <- (fun w => (image_format ext filename, w));;
  existed <- os_path_exists ext filename;;
  f <- io_open_w ext filename;;
  file_write f (fst (image_encode ext image format));;;
  match snd (image_encode ext image format) with
  | Some e =>
      (if image_save_cleans_up ext && negb existed then os_unlink f else ret tt);;;
      raise e
  | None => ret tt
  end.

Definition export_png (filename : option string) (height width : option Z)
           (webdriver : option Handle) (timeout : Z) : M string :=
  image <- get_screenshot_as_png webdriver timeout (size_kwargs height width);;
  let filename := match filename with
                  | None => default_filename ext "png"
                  | Some f => f
                  end in
  if (img_width image =? 0) || (img_height image =? 0)
  then raise (ValueError "unable to save an empty image")
  else
    image_save image filename;;;
    ret (posixpath.abspath (getcwd ext) filename).

(** *** export_svgs *)

Definition py_len (v : JsVal) : M nat :=
  match v with
  | JArr l => ret (length l)
  | JStr s => ret (String.length s)
  | _ => raise (TypeError "object has no len()")
  end.

(** [with io.open(filename, mode="w", encoding="utf-8") as f: f.write(svg)]:
    the file is created (or emptied) by the open; writing anything but a
    string is a [TypeError]. *)
Definition write_svg (filename : string) (svg : JsVal) : M unit :=
  f <- io_open_w ext filename;;
  match svg with
  | JStr s => file_write f s
  | _ => raise (TypeError "write() argument must be str")
  end.

(** The file name used for the [i]-th SVG, from the one used before. *)
Definition next_filename (i : nat) (filename : string) : string :=
  if (i =? 0)%nat then filename
  else
    let idx := PyStr.find filename ".svg" in
    PyStr.slice_to filename idx +:+ ("_" +:+ PyStr.format_int i)
      +:+ PyStr.slice_from filename idx.

(** [for i, svg in enumerate(svgs): ...], carrying [filename] and
    [filenames]. *)
Fixpoint export_svgs_loop (i : nat) (svgs : list JsVal) (filename : string)
         (filenames : list string) : M (list string) :=
  match svgs with
  | [] => ret filenames
  | svg :: svgs' =>
      let filename := next_filename i filename in
      write_svg filename svg;;;
      export_svgs_loop (S i) svgs' filename (filenames ++ [filename])
  end.

(** The result is [None] (a bare [return]) or the list [filenames]. *)
Definition export_svgs (filename : option string) (height width : option Z)
           (webdriver : option Handle) (timeout : Z) : M (option (list string)) :=
  svgs <- get_svgs webdriver timeout (size_kwargs height width);;
  n <- py_len svgs;;
  if (n =? 0)%nat then
    log_warning "No SVG Plots were found.";;;
    ret None
  else
    let filename := match filename with
                    | None => default_filename ext "svg"
                    | Some f => f
                    end in
    items <- py_iter svgs;;
    filenames <- export_svgs_loop 0 items filename [];;
    ret (Some filenames).

End ExportPy.

(** ** A scripted browser and a small disk, to run the module on concrete
    inputs *)

Module Demo.

(** The page answers "loaded" after [load_polls] negative answers and
    "render complete" after [render_polls]; [console] is what the browser
    log holds, [svg_nodes] the SVG elements of the page. *)
Record Browser := mkBrowser {
  load_polls : nat;
  render_polls : nat;
  console : list (gmap string string);
  console_fails : bool;
  svg_nodes : list string;
  shot : list Byte.byte
}.

Definition answer (n : nat) : JsVal := JBool (n =? 0)%nat.

Definition run_script (script : string) (b : Browser) : Result JsVal * Browser :=
  if String.eqb script _IS_LOADED_SCRIPT then
    (Ok (answer (load_polls b)),
     mkBrowser (pred (load_polls b)) (render_polls b) (console b)
               (console_fails b) (svg_nodes b) (shot b))
  else if String.eqb script _IS_RENDER_COMPLETE_SCRIPT then
    (Ok (answer (render_polls b)),
     mkBrowser (load_polls b) (pred (render_polls b)) (console b)
               (console_fails b) (svg_nodes b) (shot b))
  else if String.eqb script _SVG_SCRIPT then
    (Ok (JArr (map JStr (svg_nodes b))), b)
  else if String.eqb script _CALCULATE_WINDOW_SIZE then
    (Ok (JArr [JNum 800; JNum 600]), b)
  else (Ok JNull, b).

Definition read_log (kind : string) (b : Browser)
  : Result (list (gmap string string)) * Browser :=
  if console_fails b then (Raise (WebDriverException "unknown command"), b)
  else (Ok (console b),
        mkBrowser (load_polls b) (render_polls b) [] (console_fails b)
                  (svg_nodes b) (shot b)).

Definition decode (png : list Byte.byte) : Result Image :=
  Ok (mkImage (Z.of_nat (length png)) (Z.of_nat (length png)) png).

(** Two image formats; an image with an alpha channel cannot be written as
    JPEG, and the encoder finds out only once the file is open. *)
Definition format_of (filename : string) : Result string :=
  if PyStr.endswith filename ".png" then Ok "PNG"
  else if PyStr.endswith filename ".jpg" then Ok "JPEG"
  else Raise (ValueError "unknown file extension").

Definition encode (image : Image) (format : string) : string * option exn :=
  if String.eqb format "PNG" then ("PNG", None)
  else (EmptyString, Some (OSError "cannot write mode RGBA as JPEG")).

(** The directory tree: the directories that exist, each by its components
    from the root.  There are no symbolic links. *)
Definition directories : list (list string) :=
  [ []; ["home"]; ["home"; "user"]; ["home"; "user"; "a.svg"];
    ["home"; "user"; "a_1.svg"]; ["tmp"] ].

Definition is_directory (d : list string) : bool := bool_decide (d ∈ directories).

(** Name lookup, one component at a time, from the directory [cur]. *)
Fixpoint walk (cur comps : list string) : Result (list string) :=
  match comps with
  | [] => Raise (OSError "Is a directory")
  | comp :: rest =>
      let next := if String.eqb comp EmptyString || String.eqb comp "." then cur
                  else if String.eqb comp ".." then removelast cur
                  else (cur ++ [comp])%list in
      match rest with
      | [] => if is_directory next then Raise (OSError "Is a directory") else Ok next
      | _ => if is_directory next then walk next rest
             else Raise (OSError "No such file or directory")
      end
  end.

Fixpoint begins (pre s : string) {struct pre} : bool :=
  match pre, s with
  | EmptyString, _ => true
  | String a pre', String b s' => Ascii.eqb a b && begins pre' s'
  | String _ _, EmptyString => false
  end.

(** Every name under [/tmp/] is taken as the name of a file in [/tmp]; all
    other paths are walked, relative ones from the working directory. *)
Definition lookup (path : string) : Result string :=
  if String.eqb path EmptyString then Raise (OSError "No such file or directory")
  else if begins "/tmp/" path then Ok path
  else match walk (if posixpath.isabs path then [] else ["home"; "user"])
                  (PyStr.split "/"%char path) with
       | Ok comps => Ok ("/" +:+ String.concat "/" comps)
       | Raise e => Raise e
       end.

Definition tmp_name (prefix suffix : string) (fs : gmap string string) : string :=
  "/tmp/" +:+ prefix +:+ "0" +:+ suffix.

Definition ext : Collaborators Browser :=
  mkCollaborators Browser
    run_script
    read_log
    (fun _ _ b => (Ok tt, b))
    (fun b => (Ok tt, b))
    (fun _ _ b => (Ok tt, b))
    (fun b => (Ok (shot b), b))
    (fun _ => 5%N)
    (fun _ b => b)
    (fun o => match o with
              | APlot p => Ok "<html>plot</html>"
              | NotAPlot _ => Ok "<html>layout</html>"
              end)
    (fun e => "/home/user/plot." +:+ e)
    decode
    format_of
    encode
    false
    tmp_name
    "/home/user"
    lookup
    (fun _ _ _ => eq_refl).

Definition entry (level message : string) : gmap string string :=
  <["level" := level]> (<["message" := message]> ∅).

Definition browser (load render : nat) (svgs : list string)
           (png : list Byte.byte) : Browser :=
  mkBrowser load render
            [entry "INFO" "hello"; entry "SEVERE" "boom"; entry "WARNING" "careful"]
            false svgs png.

Definition a_plot : Plot := mkPlot (Some 600) (Some 400) ∅.

Definition world (b : Browser) : World Browser :=
  mkWorld ∅ ∅ [] [] (APlot a_plot) b b 0 [].

End Demo.

(** The same browser with an HTML generator that fails, and with a driver
    that fails on one script. *)
Module DemoFailing.

Definition ext : Collaborators Demo.Browser :=
  mkCollaborators Demo.Browser
    Demo.run_script
    Demo.read_log
    (fun _ _ b => (Ok tt, b))
    (fun b => (Ok tt, b))
    (fun _ _ b => (Ok tt, b))
    (fun b => (Ok (Demo.shot b), b))
    (fun _ => 5%N)
    (fun _ b => b)
    (fun _ => Raise (OtherError "cannot render"))
    (fun e => "/home/user/plot." +:+ e)
    Demo.decode
    Demo.format_of
    Demo.encode
    true
    Demo.tmp_name
    "/home/user"
    Demo.lookup
    (fun _ _ _ => eq_refl).

(** A driver that fails on the script [bad] and answers like [Demo]
    otherwise. *)
Definition ext_failing_on (bad : string) : Collaborators Demo.Browser :=
  mkCollaborators Demo.Browser
    (fun script b =>
       if String.eqb script bad
       then (Raise (WebDriverException "session lost"), b)
       else Demo.run_script script b)
    Demo.read_log
    (fun _ _ b => (Ok tt, b))
    (fun b => (Ok tt, b))
    (fun _ _ b => (Ok tt, b))
    (fun b => (Ok (Demo.shot b), b))
    (fun _ => 5%N)
    (fun _ b => b)
    (fun o => Ok "<html></html>")
    (fun e => "/home/user/plot." +:+ e)
    Demo.decode
    Demo.format_of
    Demo.encode
    true
    Demo.tmp_name
    "/home/user"
    Demo.lookup
    (fun _ _ _ => eq_refl).

End DemoFailing.

(** * Vocabulary of the properties *)

Section Vocabulary.
Context {D : Type} (ext : Collaborators D).
Implicit Types w : World D.

(** A relation between the world before and after, kept by a computation
    whatever its outcome. *)
Definition keeps {A} (R : World D -> World D -> Prop) (m : M D A) : Prop :=
  forall w, R w (snd (m w)).

(** The size a plot has while the HTML is generated. *)
Definition size_during (kwargs : gmap string (option Z)) (p : Plot) : Plot :=
  if is_not_none (kwargs_get kwargs "height") || is_not_none (kwargs_get kwargs "width")
  then mkPlot (kwargs_get_default kwargs "height" (plot_height p))
              (kwargs_get_default kwargs "width" (plot_width p))
              (plot_attrs p)
  else p.

(** Same disk, except possibly at [p]. *)
Definition files_off (p : string) (w w' : World D) : Prop :=
  delete p (files w') = delete p (files w).

(** The name [mkstemp] picks for a call started in [w]. *)
Definition tmp_html_path w : string := mkstemp_name ext "bokeh" ".html" (files w).

(** One unsuccessful round: the condition is evaluated, then Python sleeps
    for the poll interval. *)
Definition poll_round (h : Handle) (script : string) (poll : Z) : list Event :=
  [Called h (ExecuteScript script); Slept poll].

(** [k] unsuccessful rounds, followed (when [answered]) by one last
    evaluation that ended the wait. *)
Definition polls (h : Handle) (script : string) (poll : Z) (k : nat)
           (answered : bool) : list Event :=
  concat (replicate k (poll_round h script poll))
  ++ (if answered then [Called h (ExecuteScript script)] else []).




(** The world right after [driver.get_log('browser')]. *)
Definition console_read (h : Handle) w : World D :=
  let d := snd (drv_get_log ext "browser" (session h w)) in
  after_call h (GetLog "browser") d (drv_duration ext d) w.

(** What [_log_console] writes to the log for the entries [logs]. *)
Definition console_report (logs : list (gmap string string)) : list string :=
  if (0 <? length (console_messages logs))%nat
  then console_header :: map py_str (console_messages logs)
  else [].

(** Waiting only talks to the browser and lets time pass. *)
Definition browser_only (w w' : World D) : Prop :=
  files w' = files w /\ open_fds w' = open_fds w /\ log w' = log w
  /\ py_warnings w' = py_warnings w /\ obj w' = obj w.

(** [s] splits as [a], then [sub], then [b], and [sub] does not start
    earlier in [s]. *)
Definition first_occurrence (sub s a b : string) : Prop :=
  s = a +:+ sub +:+ b
  /\ forall a' b', s = a' +:+ sub +:+ b' -> (String.length a <= String.length a')%nat.

(** The names the loop uses for [n] SVGs, starting at index [i] with
    [filename] the name used last. *)
Fixpoint svg_names (i n : nat) (filename : string) : list string :=
  match n with
  | O => []
  | S n' =>
      let filename := next_filename i filename in
      filename :: svg_names (S i) n' filename
  end.

(** Writing the SVGs to the files of these names, in order. *)
Fixpoint write_all (names svgs : list string) (fs : gmap string string)
  : gmap string string :=
  match names, svgs with
  | name :: names', svg :: svgs' => write_all names' svgs' (<[name := svg]> fs)
  | _, _ => fs
  end.

Definition contains (sub s : string) : Prop := exists a b, s = a +:+ sub +:+ b.

(** The path [name] can be opened for writing and [key] is the canonical
    name of the file it denotes. *)
Definition denotes (name key : string) : Prop := lookup_w ext name = Ok key.

(** Every character of the name is an ASCII character. *)
Definition is_ascii (s : string) : Prop :=
  Forall (fun c => (nat_of_ascii c < 128)%nat) (list_ascii_of_string s).

(** The worlds a run of [wait_until_render_complete] goes through. *)
Definition after_load (h : Handle) (timeout : Z)
           (w : World D) : World D :=
  snd (wait_for ext h timeout (is_bokeh_loaded ext) w).

Definition after_wait_script (h : Handle) (timeout : Z)
           (w : World D) : World D :=
  snd (execute_script ext h _WAIT_SCRIPT (after_load h timeout w)).

Definition after_render (h : Handle) (timeout : Z)
           (w : World D) : World D :=
  snd (wait_for ext h timeout (is_bokeh_render_complete ext)
         (after_wait_script h timeout w)).

(** A command of the render-complete phase. *)
Definition render_phase_event (ev : Event) : Prop :=
  exists h, ev = Called h (ExecuteScript _WAIT_SCRIPT)
            \/ ev = Called h (ExecuteScript _IS_RENDER_COMPLETE_SCRIPT).

(** A console entry of warning or error severity. *)
Definition severe (entry : gmap string string) : Prop :=
  exists l, entry !! "level" = Some l
            /\ (l = "WARNING" \/ l = "ERROR" \/ l = "SEVERE").

(** The world in which the console is read, on the three paths of
    [wait_until_render_complete] that the module handles itself: the load
    wait timed out; the render wait succeeded; the render wait timed out
    (the warning is logged first). *)
Inductive console_point (h : Handle) (timeout : Z)
          (w : World D) : World D -> Prop :=
| load_timed_out :
    fst (wait_for ext h timeout (is_bokeh_loaded ext) w) = Raise TimeoutException ->
    console_point h timeout w (after_load h timeout w)
| render_completed v v' v'' :
    fst (wait_for ext h timeout (is_bokeh_loaded ext) w) = Ok v ->
    fst (execute_script ext h _WAIT_SCRIPT (after_load h timeout w)) = Ok v' ->
    fst (wait_for ext h timeout (is_bokeh_render_complete ext)
           (after_wait_script h timeout w)) = Ok v'' ->
    console_point h timeout w (after_render h timeout w)
| render_timed_out v v' :
    fst (wait_for ext h timeout (is_bokeh_loaded ext) w) = Ok v ->
    fst (execute_script ext h _WAIT_SCRIPT (after_load h timeout w)) = Ok v' ->
    fst (wait_for ext h timeout (is_bokeh_render_complete ext)
           (after_wait_script h timeout w)) = Raise TimeoutException ->
    console_point h timeout w
                  (snd (log_warning not_idle_msg (after_render h timeout w))).

(** [next] is [prev] with ["_i"] put right before the first ".svg" in
    [prev]. *)
Definition inserted_before_svg (i : nat) (prev next : string) : Prop :=
  exists a b, first_occurrence ".svg" prev a b
              /\ next = a +:+ ("_" +:+ PyStr.format_int i) +:+ ".svg" +:+ b.

(** The file name an export is saved under: the one given, or the default
    for the extension. *)
Definition used_filename (filename : option string)
           (extension : string) : string :=
  match filename with
  | None => default_filename ext extension
  | Some f => f
  end.

(** The session the commands of a call go to: the driver passed in, or
    the one of [webdriver_control]. *)
Definition picked (driver : option Handle) : Handle :=
  match driver with
  | Some d => d
  | None => Controlled
  end.

(** An event that concerns session [h] only: a command sent to [h], or a
    sleep. *)
Definition to_session (h : Handle) (ev : Event) : Prop :=
  match ev with
  | Called h' _ => h' = h
  | Slept _ => True
  end.

(** The trace has only grown, and only by events of session [h]. *)
Definition commands_to (h : Handle) (w w' : World D) : Prop :=
  exists t, trace w' = (trace w ++ t)%list /\ Forall (to_session h) t.

(** The browser was left alone: no command, no time spent. *)
Definition no_browser (w w' : World D) : Prop :=
  trace w' = trace w /\ supplied w' = supplied w
  /\ controlled w' = controlled w /\ now w' = now w.

(** The descriptor table is the same. *)
Definition same_fds (w w' : World D) : Prop := open_fds w' = open_fds w.

(** The object [file_html] is given: a plot at the requested size, any
    other layout as it is. *)
Definition rendered (kwargs : gmap string (option Z)) (o : LayoutDOM) : LayoutDOM :=
  match o with
  | APlot p => APlot (size_during kwargs p)
  | NotAPlot kind => NotAPlot kind
  end.

(** Whether a size was asked for: [kwargs.get('height') is not None or
    kwargs.get('width') is not None]. *)
Definition size_given (kwargs : gmap string (option Z)) : bool :=
  is_not_none (kwargs_get kwargs "height") || is_not_none (kwargs_get kwargs "width").

(** What [_tmp_html()] returns for a call started in [w], and the world it
    leaves: the file exists, empty, and its descriptor is open. *)
Definition tmp_html_file w : _TempFile :=
  mk_TempFile (Some (fresh (open_fds w))) (Some (tmp_html_path w)) false.

Definition tmp_html_world w : World D := snd (_tmp_html ext w).

(** The bodies of the two [with] blocks. *)
Definition svgs_body (driver : option Handle) (timeout : Z)
           (kwargs : gmap string (option Z)) (tmp : _TempFile) : M D JsVal :=
  html <- get_layout_html ext kwargs;;
  p <- not_none (path tmp);;
  write_text ext p html;;;
  web_driver <- pick_driver driver;;
  get ext web_driver ("file:///" +:+ p);;;
  wait_until_render_complete ext web_driver timeout;;;
  execute_script ext web_driver _SVG_SCRIPT.

Definition screenshot_body (driver : option Handle) (timeout : Z)
           (kwargs : gmap string (option Z)) (tmp : _TempFile)
  : M D (list Byte.byte) :=
  html <- get_layout_html ext kwargs;;
  p <- not_none (path tmp);;
  write_text ext p html;;;
  web_driver <- pick_driver driver;;
  maximize_window ext web_driver;;;
  get ext web_driver ("file:///" +:+ p);;;
  wait_until_render_complete ext web_driver timeout;;;
  _maximize_viewport ext web_driver;;;
  driver_get_screenshot_as_png ext web_driver.

End Vocabulary.

(** * Properties *)

(** ** Laws of the monad *)

Section MonadFacts.
Context {D : Type}.
Implicit Types w : World D.

Lemma bind_ok {A B} (m : M D A) (k : A -> M D B) w a w1 :
  m w = (Ok a, w1) -> bind m k w = k a w1.
Proof. intros H. unfold bind. now rewrite H. Qed.

Lemma bind_raise {A B} (m : M D A) (k : A -> M D B) w e w1 :
  m w = (Raise e, w1) -> bind m k w = (Raise e, w1).
Proof. intros H. unfold bind. now rewrite H. Qed.

Lemma bind_ret {A B} (a : A) (k : A -> M D B) w : bind (ret a) k w = k a w.
Proof. reflexivity. Qed.

Lemma try_except_ok {A} (m : M D A) handler w a w1 :
  m w = (Ok a, w1) -> try_except m handler w = (Ok a, w1).
Proof. intros H. unfold try_except. now rewrite H. Qed.

Lemma try_except_caught {A} (m : M D A) handler w e w1 h :
  m w = (Raise e, w1) -> handler e = Some h -> try_except m handler w = h w1.
Proof. intros H Hh. unfold try_except. now rewrite H, Hh. Qed.

Lemma try_except_uncaught {A} (m : M D A) handler w e w1 :
  m w = (Raise e, w1) -> handler e = None ->
  try_except m handler w = (Raise e, w1).
Proof. intros H Hh. unfold try_except. now rewrite H, Hh. Qed.

Lemma try_finally_ok {A} (m : M D A) cleanup w r w1 w2 :
  m w = (r, w1) -> cleanup w1 = (Ok tt, w2) -> try_finally m cleanup w = (r, w2).
Proof. intros H Hc. unfold try_finally. now rewrite H, Hc. Qed.

Lemma try_finally_raise {A} (m : M D A) cleanup w r w1 e w2 :
  m w = (r, w1) -> cleanup w1 = (Raise e, w2) ->
  try_finally m cleanup w = (Raise e, w2).
Proof. intros H Hc. unfold try_finally. now rewrite H, Hc. Qed.

Section Keeps.
Context (R : World D -> World D -> Prop) `{!PreOrder R}.

Lemma keeps_ret {A} (a : A) : keeps R (ret a).
Proof. intros w. simpl. reflexivity. Qed.

Lemma keeps_raise {A} e : keeps R (@raise D A e).
Proof. intros w. simpl. reflexivity. Qed.

Lemma keeps_bind {A B} (m : M D A) (k : A -> M D B) :
  keeps R m -> (forall a, keeps R (k a)) -> keeps R (bind m k).
Proof.
  intros Hm Hk w. unfold bind. specialize (Hm w).
  destruct (m w) as [[a|e] w1]; simpl in *; [|done].
  etrans; [exact Hm|apply Hk].
Qed.

Lemma keeps_try_except {A} (m : M D A) handler :
  keeps R m -> (forall e h, handler e = Some h -> keeps R h) ->
  keeps R (try_except m handler).
Proof.
  intros Hm Hh w. unfold try_except. specialize (Hm w).
  destruct (m w) as [[a|e] w1]; simpl in *; [done|].
  destruct (handler e) as [h|] eqn:E; [|done].
  etrans; [exact Hm|eapply Hh; eauto].
Qed.

Lemma keeps_try_finally {A} (m : M D A) cleanup :
  keeps R m -> keeps R cleanup -> keeps R (try_finally m cleanup).
Proof.
  intros Hm Hc w. unfold try_finally. specialize (Hm w).
  destruct (m w) as [r w1]; simpl in *. specialize (Hc w1).
  destruct (cleanup w1) as [[[]|e] w2]; simpl in *; etrans; eauto.
Qed.

Lemma keeps_for_each {A} (l : list A) (body : A -> M D unit) :
  (forall x, keeps R (body x)) -> keeps R (for_each l body).
Proof.
  intros Hb. induction l as [|x l IH]; simpl.
  - apply keeps_ret.
  - apply keeps_bind; auto.
Qed.
End Keeps.
End MonadFacts.

(** ** get_layout_html: the temporary resize *)

Section Resize.
Context {D : Type} (ext : Collaborators D).
Implicit Types w : World D.

Lemma set_obj_same w : set_obj (obj w) w = w.
Proof. now destruct w. Qed.

Lemma set_obj_twice o1 o2 w : set_obj o2 (set_obj o1 w) = set_obj o2 w.
Proof. reflexivity. Qed.

(** On a plot, [file_html] sees the plot at the requested size and the world
    afterwards is the world before, on both outcomes of [file_html]. *)
Lemma get_layout_html_plot kwargs w p :
  obj w = APlot p ->
  get_layout_html ext kwargs w = (file_html ext (APlot (size_during kwargs p)), w).
Proof.
  intros Hp. unfold get_layout_html, begin_resize, size_during, bind, try_finally.
  destruct (is_not_none (kwargs_get kwargs "height")
            || is_not_none (kwargs_get kwargs "width")) eqn:Hk.
  - rewrite Hp. unfold set_plot_height, set_plot_width, ret; simpl.
    rewrite Hp; simpl.
    destruct (file_html ext _) as [html|e];
      (f_equal; rewrite <- (set_obj_same w) at 2; rewrite Hp; now destruct p).
  - simpl. now rewrite Hp.
Qed.

(** Whatever the layout is, the object is the same after the call. *)
Lemma get_layout_html_obj kwargs w :
  obj (snd (get_layout_html ext kwargs w)) = obj w.
Proof.
  destruct (obj w) as [p|kind] eqn:Ho.
  - now rewrite (get_layout_html_plot kwargs w p Ho).
  - unfold get_layout_html, begin_resize, bind, try_finally.
    destruct (is_not_none _ || is_not_none _); simpl; rewrite ?Ho; simpl;
      rewrite ?Ho; destruct (file_html ext (NotAPlot kind)); simpl; now rewrite ?Ho.
Qed.

End Resize.

(** ** What the pieces leave alone

    [R] is any relation between worlds that does not look at the browser
    sessions, the clock, the trace, the log, the warnings or the layout
    object: every step of the pipeline up to the write of the HTML keeps
    it. *)

Section Frame.
Context {D : Type} (ext : Collaborators D).
Context (R : World D -> World D -> Prop) `{!PreOrder R}.
Context (R_call : forall h c d t w, R w (after_call h c d t w)).
Context (R_sleep : forall idle ms w, R w (after_sleep idle ms w)).
Context (R_log : forall l w, R w (set_log l w)).
Context (R_warn : forall l w, R w (set_py_warnings l w)).
Context (R_obj : forall o w, R w (set_obj o w)).

Lemma keeps_call {A} h c (method : World D -> D -> Result A * D) :
  keeps R (call ext h c method).
Proof. intros w. unfold call. destruct (method w (session h w)). apply R_call. Qed.

Lemma keeps_execute_script h s : keeps R (execute_script ext h s).
Proof. apply keeps_call. Qed.

Lemma keeps_log_warning msg : keeps R (log_warning msg).
Proof. intros w. apply R_log. Qed.

Lemma keeps_not_none {A} (o : option A) : keeps R (@not_none D A o).
Proof. destruct o; [apply keeps_ret|apply keeps_raise]; done. Qed.

Lemma keeps_until_loop rounds poll end_time (method : M D JsVal) :
  keeps R method -> keeps R (until_loop ext rounds poll end_time method).
Proof.
  intros Hm. induction rounds as [|n IH]; intros w; simpl.
  - reflexivity.
  - specialize (Hm w).
    assert (Hgo : forall w1, R w w1 ->
      R w (snd (if end_time <? now (after_sleep (drv_idle ext poll) poll w1)
                then (Raise TimeoutException, after_sleep (drv_idle ext poll) poll w1)
                else until_loop ext n poll end_time method
                       (after_sleep (drv_idle ext poll) poll w1)))).
    { intros w1 H1. destruct (end_time <? _); simpl.
      - etrans; [exact H1|apply R_sleep].
      - etrans; [exact H1|]. etrans; [apply R_sleep|apply IH]. }
    destruct (method w) as [[v|e] w1]; simpl in *.
    + destruct (truthy v); [done|]. now apply Hgo.
    + destruct e; try done. now apply Hgo.
Qed.

Lemma keeps_WebDriverWait_until timeout poll (method : M D JsVal) :
  keeps R method -> keeps R (WebDriverWait_until ext timeout poll method).
Proof. intros Hm w. unfold WebDriverWait_until. now apply keeps_until_loop. Qed.

Lemma keeps__log_console h : keeps R (_log_console ext h).
Proof.
  unfold _log_console. apply keeps_bind; [done|apply keeps_call|].
  intros logs. destruct (0 <? _)%nat; [|now apply keeps_ret].
  apply keeps_bind; [done|apply keeps_log_warning|]. intros _.
  apply keeps_for_each; [done|]. intros m. apply keeps_log_warning.
Qed.

Lemma keeps_wait_until_render_complete h timeout :
  keeps R (wait_until_render_complete ext h timeout).
Proof.
  unfold wait_until_render_complete, load_phase, render_phase.
  apply keeps_bind; [done| |intros _; apply keeps_bind; [done| |intros _]].
  - apply keeps_try_except; [done| |].
    + apply keeps_WebDriverWait_until, keeps_execute_script.
    + intros [] hd Hhd; inversion Hhd; subst.
      apply keeps_bind; [done|apply keeps__log_console|].
      intros _. now apply keeps_raise.
  - apply keeps_execute_script.
  - apply keeps_try_finally; [done| |apply keeps__log_console].
    apply keeps_try_except; [done| |].
    + apply keeps_bind; [done| |intros _; now apply keeps_ret].
      apply keeps_WebDriverWait_until, keeps_execute_script.
    + intros [] hd Hhd; inversion Hhd; subst. apply keeps_log_warning.
Qed.

Lemma keeps_set_plot_height v : keeps R (@set_plot_height D v).
Proof. intros w. unfold set_plot_height. destruct (obj w); simpl; [apply R_obj|reflexivity]. Qed.

Lemma keeps_set_plot_width v : keeps R (@set_plot_width D v).
Proof. intros w. unfold set_plot_width. destruct (obj w); simpl; [apply R_obj|reflexivity]. Qed.

Lemma keeps_get_layout_html kwargs : keeps R (get_layout_html ext kwargs).
Proof.
  unfold get_layout_html. apply keeps_bind; [done| |].
  - unfold begin_resize. destruct (_ || _); [|now apply keeps_ret].
    intros w. destruct (obj w).
    + apply keeps_bind; [done|apply keeps_set_plot_height|]. intros _.
      apply keeps_bind; [done|apply keeps_set_plot_width|]. intros _.
      now apply keeps_ret.
    + apply keeps_bind; [done| |intros _; now apply keeps_ret].
      intros w'. apply R_warn.
  - intros resize. apply keeps_try_finally; [done| |].
    + intros w. simpl. reflexivity.
    + destruct resize as [[oh ow]|]; simpl; [|now apply keeps_ret].
      apply keeps_bind; [done|apply keeps_set_plot_height|]. intros _.
      apply keeps_set_plot_width.
Qed.

Lemma keeps_py_iter v : keeps R (@py_iter D v).
Proof. destruct v; simpl; first [now apply keeps_ret|now apply keeps_raise]. Qed.

Lemma keeps__maximize_viewport h : keeps R (_maximize_viewport ext h).
Proof.
  unfold _maximize_viewport. apply keeps_bind; [done|apply keeps_execute_script|].
  intros size. apply keeps_bind; [done|apply keeps_py_iter|].
  intros [|a [|b [|c l]]]; first [now apply keeps_raise|apply keeps_call].
Qed.

Lemma keeps_pick_driver driver : keeps R (@pick_driver D driver).
Proof. destruct driver; simpl; now apply keeps_ret. Qed.

End Frame.

(** ** The temporary HTML file *)

Section TempFile.
Context {D : Type} (ext : Collaborators D).
Implicit Types w : World D.

#[local] Instance files_off_preorder p : PreOrder (@files_off D p).
Proof.
  split.
  - intros w. reflexivity.
  - intros w1 w2 w3 H12 H23. unfold files_off in *. congruence.
Qed.

(** Writing under a canonical name: the open cannot fail and the file
    written is the one of that name. *)
Lemma write_text_canonical p text w :
  lookup_w ext p = Ok p ->
  write_text ext p text w = (Ok tt, set_files (<[p := text]> (files w)) w).
Proof.
  intros Hp. unfold write_text, bind, io_open_w, file_write. rewrite Hp. simpl.
  unfold set_files; simpl. now rewrite insert_insert_eq.
Qed.

Lemma tmp_html_path_canonical w :
  lookup_w ext (tmp_html_path ext w) = Ok (tmp_html_path ext w).
Proof. apply mkstemp_canonical. Qed.

Lemma keeps_write_text_tmp p text :
  lookup_w ext p = Ok p -> keeps (files_off p) (write_text ext p text).
Proof.
  intros Hp w. rewrite (write_text_canonical p text w Hp).
  unfold files_off. simpl. apply delete_insert_eq.
Qed.

Lemma _tmp_html_creates w :
  exists n w0,
    _tmp_html ext w = (Ok (mk_TempFile (Some n) (Some (tmp_html_path ext w)) false), w0)
    /\ files w0 = <[tmp_html_path ext w := EmptyString]> (files w).
Proof. eexists _, _. split; reflexivity. Qed.

(** Closing deletes the file; a failing [os.close] or [os.unlink] is
    swallowed, and [os.unlink] of a canonical name fails only when the file
    is already gone. *)
Lemma close_removes n p w :
  exists self' w',
    close (mk_TempFile (Some n) (Some p) false) w = (Ok self', w')
    /\ _closed self' = true
    /\ files w' = delete p (files w).
Proof.
  unfold close, bind, try_except, not_none, ret, os_close, os_unlink; simpl.
  destruct (decide (n ∈ open_fds w)); simpl.
  - destruct (files w !! p) eqn:E; simpl; eexists _, _; repeat split; try done.
    simpl. now rewrite delete_id.
  - destruct (files w !! p) eqn:E; simpl; eexists _, _; repeat split; try done.
    simpl. now rewrite delete_id.
Qed.

(** [__del__] after [__exit__] finds the object closed and does nothing. *)
Lemma close_closed self w : _closed self = true -> close self w = (Ok self, w).
Proof. intros H. unfold close. now rewrite H. Qed.

Lemma with_tmp_html_removes {A} (body : _TempFile -> M D A) w :
  (forall tmp, path tmp = Some (tmp_html_path ext w) ->
               keeps (files_off (tmp_html_path ext w)) (body tmp)) ->
  files (snd (with_ (_tmp_html ext) body w))
  = delete (tmp_html_path ext w) (files w).
Proof.
  intros Hbody.
  destruct (_tmp_html_creates w) as (n & w0 & Hnew & Hfiles).
  unfold with_. rewrite (bind_ok _ _ _ _ _ Hnew).
  unfold __enter__. rewrite bind_ret.
  unfold try_finally.
  specialize (Hbody (mk_TempFile (Some n) (Some (tmp_html_path ext w)) false) eq_refl w0).
  destruct (body _ w0) as [r w1]; simpl in Hbody.
  destruct (close_removes n (tmp_html_path ext w) w1) as (self' & w2 & Hc & _ & Hf).
  unfold __exit__. rewrite (bind_ok _ _ _ _ _ Hc). simpl.
  rewrite Hf, Hbody, Hfiles. apply delete_insert_eq.
Qed.

Lemma files_off_call p h c d t w : files_off p w (after_call h c d t w).
Proof. reflexivity. Qed.
Lemma files_off_sleep p idle ms w : files_off p w (@after_sleep D idle ms w).
Proof. reflexivity. Qed.
Lemma files_off_log p l w : files_off p w (@set_log D l w).
Proof. reflexivity. Qed.
Lemma files_off_warn p l w : files_off p w (@set_py_warnings D l w).
Proof. reflexivity. Qed.
Lemma files_off_obj p o w : files_off p w (@set_obj D o w).
Proof. reflexivity. Qed.

(** The code between writing the HTML and leaving the [with] block only
    talks to the browser. *)
Lemma keeps_render_html {A} p kwargs (rest : string -> M D A) tmp :
  lookup_w ext p = Ok p ->
  path tmp = Some p -> (forall q, keeps (files_off p) (rest q)) ->
  keeps (files_off p)
        (html <- get_layout_html ext kwargs;;
         q <- not_none (path tmp);;
         write_text ext q html;;; rest q).
Proof.
  intros Hcan Hp Hrest. rewrite Hp.
  apply keeps_bind; [apply files_off_preorder| |intros html].
  { apply keeps_get_layout_html; first [apply files_off_preorder|intros; reflexivity]. }
  intros w. unfold not_none. rewrite bind_ret.
  apply (keeps_bind (files_off p) (write_text ext p html) (fun _ => rest p));
    [now apply keeps_write_text_tmp|intros _; apply Hrest].
Qed.

Ltac browser_only :=
  repeat first
    [ apply keeps_call; intros; reflexivity
    | apply keeps_pick_driver; apply files_off_preorder
    | apply keeps_wait_until_render_complete;
        first [apply files_off_preorder|intros; reflexivity]
    | apply keeps__maximize_viewport;
        first [apply files_off_preorder|intros; reflexivity]
    | apply keeps_bind; [apply files_off_preorder| |intros ?] ].

(** Net effect of a screenshot on the disk: the temporary file is gone and
    nothing else has changed, whatever the outcome. *)
Lemma get_screenshot_as_png_files driver timeout kwargs w :
  files (snd (get_screenshot_as_png ext driver timeout kwargs w))
  = delete (tmp_html_path ext w) (files w).
Proof.
  unfold get_screenshot_as_png.
  rewrite <- (with_tmp_html_removes
    (fun tmp =>
       html <- get_layout_html ext kwargs;;
       p <- not_none (path tmp);;
       write_text ext p html;;;
       web_driver <- pick_driver driver;;
       maximize_window ext web_driver;;;
       get ext web_driver ("file:///" +:+ p);;;
       wait_until_render_complete ext web_driver timeout;;;
       _maximize_viewport ext web_driver;;;
       driver_get_screenshot_as_png ext web_driver) w).
  - unfold bind at 1. destruct (with_ _ _ w) as [[png|e] w1]; reflexivity.
  - intros tmp Htmp.
    apply keeps_render_html; [apply tmp_html_path_canonical|done|]. intros q.
    unfold maximize_window, get, driver_get_screenshot_as_png. browser_only.
Qed.

Lemma get_svgs_files driver timeout kwargs w :
  files (snd (get_svgs ext driver timeout kwargs w))
  = delete (tmp_html_path ext w) (files w).
Proof.
  unfold get_svgs. apply with_tmp_html_removes.
  intros tmp Htmp.
  apply keeps_render_html; [apply tmp_html_path_canonical|done|]. intros q.
  unfold get, execute_script. browser_only.
Qed.

End TempFile.

(** ** Polling *)

Section Polling.
Context {D : Type} (ext : Collaborators D).
Implicit Types w : World D.

Lemma execute_script_world h s w :
  exists d, snd (execute_script ext h s w)
            = after_call h (ExecuteScript s) d (drv_duration ext d) w.
Proof.
  unfold execute_script, call.
  destruct (drv_execute_script ext s (session h w)) as [r d]. now exists d.
Qed.

Lemma execute_script_clock h s w : now w <= now (snd (execute_script ext h s w)).
Proof. destruct (execute_script_world h s w) as [d ->]. simpl. lia. Qed.

(** The rounds given to the loop are never used up: more rounds change
    nothing. *)
Lemma until_loop_enough (method : M D JsVal) poll end_time rounds extra w :
  (forall w0, now w0 <= now (snd (method w0))) ->
  0 < poll -> (1 <= rounds)%nat ->
  end_time - now w < Z.of_nat rounds * poll ->
  until_loop ext (rounds + extra) poll end_time method w
  = until_loop ext rounds poll end_time method w.
Proof.
  intros Hclock Hpoll. revert w.
  induction rounds as [|n IH]; intros w Hn Hleft; [lia|].
  simpl. specialize (Hclock w).
  assert (Hgo : forall w1, now w <= now w1 ->
    (if end_time <? now (after_sleep (drv_idle ext poll) poll w1)
     then (Raise TimeoutException, after_sleep (drv_idle ext poll) poll w1)
     else until_loop ext (n + extra) poll end_time method
            (after_sleep (drv_idle ext poll) poll w1))
    = (if end_time <? now (after_sleep (drv_idle ext poll) poll w1)
       then (Raise TimeoutException, after_sleep (drv_idle ext poll) poll w1)
       else until_loop ext n poll end_time method
              (after_sleep (drv_idle ext poll) poll w1))).
  { intros w1 H1. destruct (Z.ltb_spec end_time (now (after_sleep (drv_idle ext poll) poll w1)))
      as [Hlt|Hge]; [done|].
    simpl in Hge. apply IH; simpl; nia. }
  destruct (method w) as [[v|e] w1]; simpl in *.
  - destruct (truthy v); [done|]. now apply Hgo.
  - destruct e; try done. now apply Hgo.
Qed.

(** What one wait on a script leaves in the trace, and when it stops. *)
Lemma until_loop_trace h s poll end_time rounds w :
  exists k answered,
    (k <= rounds)%nat
    /\ trace (snd (until_loop ext rounds poll end_time (execute_script ext h s) w))
       = (trace w ++ polls h s poll k answered)%list
    /\ (forall v, fst (until_loop ext rounds poll end_time (execute_script ext h s) w) = Ok v ->
                  truthy v = true /\ answered = true)
    /\ (answered = false ->
        fst (until_loop ext rounds poll end_time (execute_script ext h s) w)
        = Raise TimeoutException
        /\ (0 < poll -> end_time - now w < Z.of_nat rounds * poll ->
            end_time < now (snd (until_loop ext rounds poll end_time
                                            (execute_script ext h s) w)))).
Proof.
  revert w. induction rounds as [|n IH]; intros w.
  - exists 0%nat, false. simpl. rewrite app_nil_r. repeat split; try done; lia.
  - cbn [until_loop time_sleep].
    assert (Hgo : forall d,
      let w1 := after_call h (ExecuteScript s) d (drv_duration ext d) w in
      let out := if end_time <? now (after_sleep (drv_idle ext poll) poll w1)
                 then (Raise TimeoutException, after_sleep (drv_idle ext poll) poll w1)
                 else until_loop ext n poll end_time (execute_script ext h s)
                        (after_sleep (drv_idle ext poll) poll w1) in
      exists k answered,
        (k <= S n)%nat
        /\ trace (snd out) = (trace w ++ polls h s poll k answered)%list
        /\ (forall v, fst out = Ok v -> truthy v = true /\ answered = true)
        /\ (answered = false ->
            fst out = Raise TimeoutException
            /\ (0 < poll -> end_time - now w < Z.of_nat (S n) * poll ->
                end_time < now (snd out)))).
    { intros d w1 out. subst out.
      destruct (Z.ltb_spec end_time (now (after_sleep (drv_idle ext poll) poll w1)))
        as [Hlt|Hge].
      - exists 1%nat, false. simpl. rewrite <- app_assoc. simpl.
        repeat split; try done; lia.
      - destruct (IH (after_sleep (drv_idle ext poll) poll w1))
          as (k & a & Hk & Ht & Hv & Hno).
        exists (S k), a. split; [lia|]. split; [|split].
        + rewrite Ht. simpl. unfold polls. simpl.
          rewrite <- !app_assoc. reflexivity.
        + exact Hv.
        + intros Ha. destruct (Hno Ha) as [Hr Hel]. split; [done|].
          intros Hp Hleft. apply Hel; [done|]. simpl in *. nia. }
    destruct (execute_script_world h s w) as [d Hd].
    destruct (execute_script ext h s w) as [[v|e] w1]; simpl in Hd; subst w1.
    + destruct (truthy v) eqn:Hv.
      * exists 0%nat, true. unfold polls; simpl. split; [lia|]. split; [done|].
        split; [|done]. intros v' Hv'. inversion Hv'; subst. done.
      * apply Hgo.
    + destruct e; try apply Hgo;
        (exists 0%nat, true; unfold polls; simpl; split; [lia|]; split; [done|];
         split; done).
Qed.



End Polling.

(** ** wait_until_render_complete, path by path *)

Section Waiting.
Context {D : Type} (ext : Collaborators D).
Implicit Types w : World D.

Lemma set_log_same w : set_log (log w) w = w.
Proof. now destruct w. Qed.

Lemma for_each_log_warning {A} (f : A -> string) (l : list A) w :
  for_each l (fun x => log_warning (f x)) w
  = (Ok tt, set_log (log w ++ map f l) w).
Proof.
  revert w. induction l as [|x l IH]; intros w; simpl.
  - now rewrite app_nil_r, set_log_same.
  - unfold bind, log_warning at 1. rewrite IH. simpl.
    now rewrite <- app_assoc.
Qed.

Lemma get_log_browser h w :
  get_log ext h "browser" w
  = (fst (drv_get_log ext "browser" (session h w)), console_read ext h w).
Proof.
  unfold get_log, call, console_read.
  now destruct (drv_get_log ext "browser" (session h w)).
Qed.

Lemma _log_console_ok h w logs :
  fst (drv_get_log ext "browser" (session h w)) = Ok logs ->
  _log_console ext h w
  = (Ok tt, set_log (log w ++ console_report logs) (console_read ext h w)).
Proof.
  intros H. unfold _log_console, bind. rewrite get_log_browser, H.
  unfold console_report. destruct (0 <? _)%nat.
  - unfold log_warning at 1. rewrite for_each_log_warning. simpl.
    now rewrite <- app_assoc.
  - simpl. rewrite app_nil_r. reflexivity.
Qed.

Lemma _log_console_raise h w e :
  fst (drv_get_log ext "browser" (session h w)) = Raise e ->
  _log_console ext h w = (Raise e, console_read ext h w).
Proof. intros H. unfold _log_console, bind. now rewrite get_log_browser, H. Qed.

Lemma _log_console_trace h w :
  trace (snd (_log_console ext h w)) = (trace w ++ [Called h (GetLog "browser")])%list.
Proof.
  destruct (fst (drv_get_log ext "browser" (session h w))) as [logs|e] eqn:E.
  - now rewrite (_log_console_ok h w logs E).
  - now rewrite (_log_console_raise h w e E).
Qed.

#[local] Instance browser_only_preorder : PreOrder (@browser_only D).
Proof.
  split.
  - intros w. repeat split.
  - intros w1 w2 w3 (?&?&?&?&?) (?&?&?&?&?). repeat split; congruence.
Qed.

Lemma wait_for_browser_only h timeout s w :
  browser_only w (snd (wait_for ext h timeout (fun d => execute_script ext d s) w)).
Proof.
  apply (keeps_WebDriverWait_until ext browser_only); [|apply keeps_call].
  - intros; repeat split.
  - intros; repeat split.
Qed.

Lemma wait_for_trace h timeout s w :
  let out := wait_for ext h timeout (fun d => execute_script ext d s) w in
  exists k answered,
    (k <= until_rounds (1000 * timeout) poll_frequency)%nat
    /\ trace (snd out) = (trace w ++ polls h s poll_frequency k answered)%list
    /\ (forall v, fst out = Ok v -> truthy v = true /\ answered = true)
    /\ (answered = false ->
        fst out = Raise TimeoutException
        /\ now w + 1000 * timeout < now (snd out)).
Proof.
  unfold wait_for, WebDriverWait_until. cbv zeta.
  destruct (until_loop_trace ext h s poll_frequency (now w + 1000 * timeout)
              (until_rounds (1000 * timeout) poll_frequency) w)
    as (k & a & Hk & Ht & Hv & Hno).
  exists k, a. split; [done|]. split; [done|]. split; [exact Hv|].
  intros Ha. destruct (Hno Ha) as [Hr Hel]. split; [exact Hr|].
  apply Hel; [reflexivity|].
  unfold until_rounds, poll_frequency.
  rewrite Nat2Z.inj_succ.
  pose proof (Z.mul_succ_div_gt (1000 * timeout) 100 ltac:(lia)).
  destruct (Z.le_gt_cases 0 (1000 * timeout / 100)).
  - rewrite Z2Nat.id by done. lia.
  - rewrite Z2Nat.nonpos by lia. lia.
Qed.


(** The three ways the load phase can end. *)
Lemma wait_load_timeout h timeout w :
  fst (wait_for ext h timeout (is_bokeh_loaded ext) w) = Raise TimeoutException ->
  wait_until_render_complete ext h timeout w
  = (_log_console ext h;;; raise (RuntimeError not_loaded_msg))
      (snd (wait_for ext h timeout (is_bokeh_loaded ext) w)).
Proof.
  intros H. unfold wait_until_render_complete, load_phase.
  destruct (wait_for ext h timeout (is_bokeh_loaded ext) w) as [r w1] eqn:E.
  simpl in H; subst r.
  unfold bind at 1. unfold try_except. rewrite E. simpl.
  unfold bind. destruct (_log_console ext h w1) as [[[]|e] w2]; reflexivity.
Qed.

Lemma wait_load_ok h timeout w v :
  fst (wait_for ext h timeout (is_bokeh_loaded ext) w) = Ok v ->
  wait_until_render_complete ext h timeout w
  = (execute_script ext h _WAIT_SCRIPT;;; render_phase ext h timeout)
      (snd (wait_for ext h timeout (is_bokeh_loaded ext) w)).
Proof.
  intros H. unfold wait_until_render_complete, load_phase.
  destruct (wait_for ext h timeout (is_bokeh_loaded ext) w) as [r w1] eqn:E.
  simpl in H; subst r.
  unfold bind at 1. unfold try_except. now rewrite E.
Qed.

Lemma wait_load_failed h timeout w e :
  fst (wait_for ext h timeout (is_bokeh_loaded ext) w) = Raise e ->
  e <> TimeoutException ->
  wait_until_render_complete ext h timeout w
  = (Raise e, snd (wait_for ext h timeout (is_bokeh_loaded ext) w)).
Proof.
  intros H Hne. unfold wait_until_render_complete, load_phase.
  destruct (wait_for ext h timeout (is_bokeh_loaded ext) w) as [r w1] eqn:E.
  simpl in H; subst r.
  unfold bind at 1. unfold try_except. rewrite E. now destruct e.
Qed.

(** The render phase: [_log_console] runs in the [finally], after the
    warning of the [except] branch when the wait timed out. *)
Lemma render_phase_eq h timeout w :
  render_phase ext h timeout w
  = let out := wait_for ext h timeout (is_bokeh_render_complete ext) w in
    match fst out with
    | Ok _ =>
        match _log_console ext h (snd out) with
        | (Ok _, w') => (Ok tt, w')
        | (Raise e, w') => (Raise e, w')
        end
    | Raise TimeoutException =>
        match _log_console ext h (snd (log_warning not_idle_msg (snd out))) with
        | (Ok _, w') => (Ok tt, w')
        | (Raise e, w') => (Raise e, w')
        end
    | Raise e =>
        match _log_console ext h (snd out) with
        | (Ok _, w') => (Raise e, w')
        | (Raise e', w') => (Raise e', w')
        end
    end.
Proof.
  unfold render_phase, try_finally, try_except, bind. cbv zeta.
  destruct (wait_for ext h timeout (is_bokeh_render_complete ext) w) as [[v|e] w1].
  - reflexivity.
  - destruct e; reflexivity.
Qed.


End Waiting.

(** ** Strings: slices and first occurrences *)

Section StringFacts.
#[local] Arguments String.append : simpl nomatch.

Lemma length_append (a b : string) :
  String.length (a +:+ b) = (String.length a + String.length b)%nat.
Proof. induction a as [|c a IH]; simpl; [done|now rewrite IH]. Qed.

Lemma append_assoc (a b c : string) : (a +:+ b) +:+ c = a +:+ b +:+ c.
Proof. induction a as [|x a IH]; simpl; [done|now rewrite IH]. Qed.

Lemma take_drop (n : nat) (s : string) : PyStr.take n s +:+ PyStr.drop n s = s.
Proof.
  revert n. induction s as [|c s IH]; intros [|n]; simpl; try done.
  now rewrite IH.
Qed.

Lemma take_append (a b : string) : PyStr.take (String.length a) (a +:+ b) = a.
Proof. induction a as [|c a IH]; simpl; [now destruct b|now rewrite IH]. Qed.

Lemma drop_append (a b : string) : PyStr.drop (String.length a) (a +:+ b) = b.
Proof. induction a as [|c a IH]; simpl; [done|exact IH]. Qed.

Lemma slice_to_from (s : string) (i : Z) :
  PyStr.slice_to s i +:+ PyStr.slice_from s i = s.
Proof. apply take_drop. Qed.

Lemma clip_inside (s : string) (n : nat) :
  (n <= String.length s)%nat -> PyStr.clip s (Z.of_nat n) = n.
Proof.
  intros H. unfold PyStr.clip.
  destruct (Z.ltb_spec (Z.of_nat n) 0); [lia|]. lia.
Qed.

Lemma prefix_spec (sub s : string) :
  String.prefix sub s = true <-> exists b, s = sub +:+ b.
Proof.
  revert s. induction sub as [|c sub IH]; intros s; simpl.
  - destruct s; split; eauto.
  - destruct s as [|c' s]; simpl.
    + split; [done|]. now intros [b Hb].
    + destruct (ascii_dec c c') as [->|Hne].
      * rewrite IH. split; intros [b Hb]; exists b; [now rewrite Hb|now inversion Hb].
      * split; [done|]. intros [b Hb]. inversion Hb. congruence.
Qed.

Lemma find_from_Some (i : nat) (sub s : string) (n : nat) :
  PyStr.find_from i sub s = Some n ->
  exists a b, first_occurrence sub s a b /\ n = (i + String.length a)%nat.
Proof.
  revert i. induction s as [|c s IH]; intros i; cbn [PyStr.find_from].
  - destruct (String.prefix sub EmptyString) eqn:Hp; [|done].
    intros [= <-]. apply prefix_spec in Hp as [b Hb].
    exists EmptyString, b. repeat split; simpl; [done|lia|lia].
  - destruct (String.prefix sub (String c s)) eqn:Hp.
    + intros [= <-]. apply prefix_spec in Hp as [b Hb].
      exists EmptyString, b. repeat split; simpl; [done|lia|lia].
    + intros H. destruct (IH _ H) as (a & b & [Hs Hmin] & ->).
      exists (String c a), b. repeat split; simpl; [now rewrite Hs| |lia].
      intros [|c' a'] b' Heq; simpl in Heq.
      * assert (String.prefix sub (String c s) = true) by (apply prefix_spec; eauto).
        congruence.
      * injection Heq as _ Hs'. simpl. specialize (Hmin a' b' Hs'). lia.
Qed.

Lemma find_from_None (i : nat) (sub s : string) :
  PyStr.find_from i sub s = None -> forall a b, s <> a +:+ sub +:+ b.
Proof.
  revert i. induction s as [|c s IH]; intros i; cbn [PyStr.find_from].
  - destruct (String.prefix sub EmptyString) eqn:Hp; [done|]. intros _ a b Heq.
    destruct a; simpl in Heq; [|done].
    assert (String.prefix sub EmptyString = true) by (apply prefix_spec; eauto).
    congruence.
  - destruct (String.prefix sub (String c s)) eqn:Hp; [done|]. intros H a b Heq.
    destruct a as [|c' a]; simpl in Heq.
    + assert (String.prefix sub (String c s) = true) by (apply prefix_spec; eauto).
      congruence.
    + inversion Heq; subst. now apply (IH _ H a b).
Qed.

Lemma first_occurrence_exists (sub s a b : string) :
  s = a +:+ sub +:+ b -> exists a0 b0, first_occurrence sub s a0 b0.
Proof.
  intros Hs. destruct (PyStr.find_from 0 sub s) as [n|] eqn:E.
  - destruct (find_from_Some _ _ _ _ E) as (a0 & b0 & H & _). eauto.
  - now destruct (find_from_None _ _ _ E a b).
Qed.

Lemma find_first_occurrence (sub s a b : string) :
  first_occurrence sub s a b -> PyStr.find s sub = Z.of_nat (String.length a).
Proof.
  intros [Hs Hmin]. unfold PyStr.find.
  destruct (PyStr.find_from 0 sub s) as [n|] eqn:E.
  - destruct (find_from_Some _ _ _ _ E) as (a0 & b0 & [Hs0 Hmin0] & ->).
    specialize (Hmin a0 b0 Hs0). specialize (Hmin0 a b Hs). simpl. f_equal. lia.
  - now destruct (find_from_None _ _ _ E a b).
Qed.

End StringFacts.

(** ** export_svgs: the file names and the files *)

Section SvgFiles.
Context {D : Type} (ext : Collaborators D).
Implicit Types w : World D.
#[local] Arguments String.append : simpl nomatch.

Lemma set_files_same w : set_files (files w) w = w.
Proof. now destruct w. Qed.

Lemma write_svg_denoted filename key svg w :
  denotes ext filename key ->
  write_svg ext filename (JStr svg) w
  = (Ok tt, set_files (<[key := svg]> (files w)) w).
Proof.
  intros H. unfold write_svg, bind, io_open_w, file_write. rewrite H. simpl.
  unfold set_files; simpl. now rewrite insert_insert_eq.
Qed.

Lemma write_svg_refused filename svg e w :
  lookup_w ext filename = Raise e -> write_svg ext filename svg w = (Raise e, w).
Proof. intros H. unfold write_svg, bind, io_open_w. now rewrite H. Qed.

(** When every name can be opened the loop returns the names and has
    written each SVG to the file its name denotes, in order. *)
Lemma export_svgs_loop_strings i (svgs : list string) filename filenames w keys :
  Forall2 (denotes ext) (svg_names i (length svgs) filename) keys ->
  export_svgs_loop ext i (map JStr svgs) filename filenames w
  = (Ok (filenames ++ svg_names i (length svgs) filename)%list,
     set_files (write_all keys svgs (files w)) w).
Proof.
  revert i filename filenames w keys.
  induction svgs as [|svg svgs IH]; intros i filename filenames w keys Hk;
    cbn [map length svg_names export_svgs_loop] in *.
  - inversion Hk; subst. simpl. now rewrite app_nil_r, set_files_same.
  - inversion Hk as [|name key names keys' Hd Hrest]; subst.
    unfold bind. rewrite (write_svg_denoted _ _ _ _ Hd).
    rewrite (IH _ _ _ _ _ Hrest). simpl. now rewrite <- app_assoc.
Qed.

(** The first name that cannot be opened ends the loop with the error of
    the open; the SVGs before it have been written. *)
Lemma export_svgs_loop_refused i (svgs : list string) filename filenames w k name e keys :
  svg_names i (length svgs) filename !! k = Some name ->
  lookup_w ext name = Raise e ->
  Forall2 (denotes ext) (take k (svg_names i (length svgs) filename)) keys ->
  export_svgs_loop ext i (map JStr svgs) filename filenames w
  = (Raise e, set_files (write_all keys (take k svgs) (files w)) w).
Proof.
  revert i filename filenames w k keys.
  induction svgs as [|svg svgs IH]; intros i filename filenames w k keys;
    cbn [map length svg_names export_svgs_loop]; [done|].
  destruct k as [|k]; cbn [lookup list_lookup take].
  - intros [= <-] He Hk. inversion Hk; subst. unfold bind.
    rewrite (write_svg_refused _ _ _ _ He). simpl. now rewrite set_files_same.
  - intros Hn He Hk. inversion Hk as [|name0 key names keys' Hd Hrest]; subst.
    unfold bind. rewrite (write_svg_denoted _ _ _ _ Hd).
    now rewrite (IH _ _ _ _ _ _ Hn He Hrest).
Qed.

(** A loop that returns has opened every name. *)
Lemma export_svgs_loop_opened i (svgs : list string) filename filenames w names :
  fst (export_svgs_loop ext i (map JStr svgs) filename filenames w) = Ok names ->
  exists keys, Forall2 (denotes ext) (svg_names i (length svgs) filename) keys.
Proof.
  revert i filename filenames w.
  induction svgs as [|svg svgs IH]; intros i filename filenames w;
    cbn [map length svg_names export_svgs_loop].
  - intros _. exists []. constructor.
  - unfold bind.
    destruct (lookup_w ext (next_filename i filename)) as [key|e] eqn:E.
    + rewrite (write_svg_denoted _ _ _ _ E). intros H.
      destruct (IH _ _ _ _ H) as [keys Hkeys]. exists (key :: keys). now constructor.
    + now rewrite (write_svg_refused _ _ _ _ E).
Qed.

Lemma length_svg_names i n filename : length (svg_names i n filename) = n.
Proof. revert i filename. induction n as [|n IH]; intros; simpl; [done|now rewrite IH]. Qed.

Lemma next_filename_length i filename :
  (1 <= i)%nat ->
  (String.length filename < String.length (next_filename i filename))%nat.
Proof.
  intros Hi. unfold next_filename. destruct (Nat.eqb_spec i 0); [lia|].
  rewrite !length_append.
  pose proof (f_equal String.length
                (slice_to_from filename (PyStr.find filename ".svg"))) as H.
  rewrite length_append in H. simpl. lia.
Qed.

Lemma svg_names_longer i n filename name :
  (1 <= i)%nat -> name ∈ svg_names i n filename ->
  (String.length filename < String.length name)%nat.
Proof.
  revert i filename. induction n as [|n IH]; intros i filename Hi; simpl.
  - intros H. now apply elem_of_nil in H.
  - pose proof (next_filename_length i filename Hi).
    intros [->|H']%elem_of_cons; [done|].
    apply IH in H'; lia.
Qed.

Lemma NoDup_svg_names i n filename : NoDup (svg_names i n filename).
Proof.
  revert i filename. induction n as [|n IH]; intros i filename; simpl.
  - constructor.
  - constructor; [|apply IH].
    intros Hin. apply svg_names_longer in Hin; lia.
Qed.

Lemma svg_names_chain i n filename k prev next :
  svg_names i n filename !! k = Some prev ->
  svg_names i n filename !! S k = Some next ->
  next = next_filename (i + S k) prev.
Proof.
  revert i filename k. induction n as [|n IH]; intros i filename k; simpl; [done|].
  destruct k as [|k]; simpl.
  - intros [= <-]. destruct n; simpl; [done|]. intros [= <-].
    now rewrite Nat.add_1_r.
  - intros Hp Hn. rewrite (IH _ _ _ Hp Hn). f_equal. lia.
Qed.

Lemma next_filename_first i filename a b :
  (1 <= i)%nat -> first_occurrence ".svg" filename a b ->
  next_filename i filename = a +:+ ("_" +:+ PyStr.format_int i) +:+ ".svg" +:+ b.
Proof.
  intros Hi Hfirst. unfold next_filename. destruct (Nat.eqb_spec i 0); [lia|].
  rewrite (find_first_occurrence _ _ _ _ Hfirst).
  destruct Hfirst as [Hs _].
  unfold PyStr.slice_to, PyStr.slice_from.
  rewrite clip_inside by (rewrite Hs, length_append; lia).
  rewrite Hs. now rewrite take_append, drop_append.
Qed.

Lemma next_filename_contains i filename :
  contains ".svg" filename -> contains ".svg" (next_filename i filename).
Proof.
  intros Hc. destruct (Nat.eqb_spec i 0) as [->|Hi]; [done|].
  destruct Hc as (a & b & Hs).
  destruct (first_occurrence_exists _ _ _ _ Hs) as (a0 & b0 & Hfirst).
  rewrite (next_filename_first i filename a0 b0 ltac:(lia) Hfirst).
  exists (a0 +:+ ("_" +:+ PyStr.format_int i)), b0. now rewrite !append_assoc.
Qed.

Lemma svg_names_contain i n filename name :
  contains ".svg" filename -> name ∈ svg_names i n filename -> contains ".svg" name.
Proof.
  revert i filename. induction n as [|n IH]; intros i filename Hc; simpl.
  - intros H. now apply elem_of_nil in H.
  - intros [->|H]%elem_of_cons; [now apply next_filename_contains|].
    eapply IH; [|exact H]. now apply next_filename_contains.
Qed.

Lemma write_all_other names svgs fs q :
  q ∉ names -> write_all names svgs fs !! q = fs !! q.
Proof.
  revert svgs fs. induction names as [|name names IH]; intros svgs fs Hq; simpl.
  - done.
  - destruct svgs as [|svg svgs]; [done|].
    apply not_elem_of_cons in Hq as [Hne Hq].
    rewrite IH by done. now apply lookup_insert_ne.
Qed.

(** A file written more than once holds what was written last. *)
Lemma write_all_last names svgs fs k name svg :
  names !! k = Some name -> svgs !! k = Some svg ->
  (forall j, (k < j)%nat -> names !! j <> Some name) ->
  write_all names svgs fs !! name = Some svg.
Proof.
  revert svgs fs k. induction names as [|n0 names IH]; intros svgs fs k; [done|].
  destruct svgs as [|s0 svgs]; [now destruct k|].
  destruct k as [|k]; simpl.
  - intros [= <-] [= <-] Hlast. rewrite write_all_other; [apply lookup_insert_eq|].
    intros [j Hj]%list_elem_of_lookup. apply (Hlast (S j)); [lia|exact Hj].
  - intros Hn Hs Hlast. apply (IH _ _ k); [done|done|].
    intros j Hj. apply (Hlast (S j)). lia.
Qed.

Lemma write_all_lookup names svgs fs k name svg :
  NoDup names -> names !! k = Some name -> svgs !! k = Some svg ->
  write_all names svgs fs !! name = Some svg.
Proof.
  revert svgs fs k. induction names as [|n0 names IH]; intros svgs fs k Hnd; [done|].
  apply NoDup_cons in Hnd as [Hnotin Hnd].
  destruct svgs as [|s0 svgs]; [now destruct k|].
  destruct k as [|k]; simpl.
  - intros [= <-] [= <-]. rewrite write_all_other by done. apply lookup_insert_eq.
  - intros Hn Hs. now apply (IH _ _ k).
Qed.

End SvgFiles.

(** ** Absolute paths *)

Section PathFacts.
#[local] Arguments String.append : simpl nomatch.

Lemma isabs_cons (s : string) :
  posixpath.isabs s = true <-> exists rest, s = String "/"%char rest.
Proof.
  unfold posixpath.isabs, PyStr.startswith, posixpath.sep.
  rewrite prefix_spec. split; intros [b Hb]; exists b; exact Hb.
Qed.

Lemma isabs_append (a b : string) :
  posixpath.isabs a = true -> posixpath.isabs (a +:+ b) = true.
Proof.
  rewrite !isabs_cons. intros [rest ->]. now exists (rest +:+ b).
Qed.

Lemma isabs_join (cwd p : string) :
  posixpath.isabs cwd = true -> posixpath.isabs (posixpath.join cwd p) = true.
Proof.
  intros Hcwd. unfold posixpath.join.
  destruct (PyStr.startswith p posixpath.sep) eqn:Hp; [exact Hp|].
  destruct (_ || _); now apply isabs_append.
Qed.

Lemma isabs_normpath (q : string) :
  posixpath.isabs q = true -> posixpath.isabs (posixpath.normpath q) = true.
Proof.
  intros Hq. unfold posixpath.normpath.
  fold (posixpath.isabs q). rewrite Hq.
  apply isabs_cons in Hq as [rest ->].
  change (String.length (String "/" rest) =? 0)%nat with false. cbv iota zeta.
  destruct (_ && _).
  - generalize (String.concat posixpath.sep
                  (fold_left (posixpath.norm_step 2) (PyStr.split "/" (String "/" rest)) [])).
    intros joined.
    change (PyStr.repeat_str 2 posixpath.sep +:+ joined)
      with (String "/" (String "/" joined)).
    apply isabs_cons. eauto.
  - generalize (String.concat posixpath.sep
                  (fold_left (posixpath.norm_step 1) (PyStr.split "/" (String "/" rest)) [])).
    intros joined.
    change (PyStr.repeat_str 1 posixpath.sep +:+ joined) with (String "/" joined).
    apply isabs_cons. eauto.
Qed.

Lemma isabs_abspath (cwd p : string) :
  posixpath.isabs cwd = true -> posixpath.isabs (posixpath.abspath cwd p) = true.
Proof.
  intros Hcwd. unfold posixpath.abspath. apply isabs_normpath.
  destruct (posixpath.isabs p) eqn:Hp; [exact Hp|now apply isabs_join].
Qed.

Lemma find_from_ge (i : nat) (sub s : string) (n : nat) :
  PyStr.find_from i sub s = Some n -> (i <= n)%nat.
Proof.
  intros H. destruct (find_from_Some _ _ _ _ H) as (a & b & _ & ->). lia.
Qed.

(** A rooted name of at least two characters stays rooted when the index
    is inserted: the insertion point is never its first character. *)
Lemma next_filename_isabs (i : nat) (filename : string) :
  posixpath.isabs filename = true -> (2 <= String.length filename)%nat ->
  posixpath.isabs (next_filename i filename) = true
  /\ (2 <= String.length (next_filename i filename))%nat.
Proof.
  intros Habs Hlen. destruct (Nat.eqb_spec i 0) as [->|Hi]; [done|].
  split; [|pose proof (next_filename_length i filename ltac:(lia)); lia].
  unfold next_filename. destruct (Nat.eqb_spec i 0); [done|].
  apply isabs_append. unfold PyStr.slice_to.
  assert (Hclip : (1 <= PyStr.clip filename (PyStr.find filename ".svg"))%nat).
  { apply isabs_cons in Habs as [rest ->]. unfold PyStr.find.
    cbn [PyStr.find_from]. simpl String.prefix.
    destruct (PyStr.find_from 1 ".svg" rest) as [pos|] eqn:E.
    - apply find_from_ge in E as Hn.
      destruct (find_from_Some _ _ _ _ E) as (a & b & [Hs _] & Hna).
      rewrite clip_inside; [lia|]. rewrite Hs. simpl. rewrite length_append. lia.
    - unfold PyStr.clip. simpl String.length in *.
      destruct (Z.ltb_spec (-1) 0); lia. }
  apply isabs_cons in Habs as [rest ->].
  destruct (PyStr.clip _ _) as [|m]; [lia|]. simpl. apply isabs_cons. eauto.
Qed.

Lemma svg_names_isabs (i n : nat) (filename : string) :
  posixpath.isabs filename = true -> (2 <= String.length filename)%nat ->
  Forall (fun name => posixpath.isabs name = true) (svg_names i n filename).
Proof.
  revert i filename. induction n as [|n IH]; intros i filename Habs Hlen; simpl.
  - constructor.
  - destruct (next_filename_isabs i filename Habs Hlen) as [Ha Hl].
    constructor; [exact Ha|now apply IH].
Qed.

End PathFacts.

(** Whatever came back from the browser, a loop that finishes has used the
    names [svg_names] lists. *)
Lemma export_svgs_loop_names {D} (ext : Collaborators D) i (items : list JsVal)
      filename filenames (w : World D) names :
  fst (export_svgs_loop ext i items filename filenames w) = Ok names ->
  names = (filenames ++ svg_names i (length items) filename)%list.
Proof.
  revert i filename filenames w.
  induction items as [|svg items IH]; intros i filename filenames w; simpl.
  - intros [= <-]. now rewrite app_nil_r.
  - unfold bind.
    destruct (write_svg ext (next_filename i filename) svg w) as [[[]|e] w1];
      [|discriminate].
    intros H. apply IH in H. now rewrite <- app_assoc in H.
Qed.

(** * The claims *)

(** C9. For every Plot object and every keyword dictionary (so in
    particular for every call with a height or width keyword),
    [get_layout_html] hands [file_html] the plot at the requested size and
    leaves the world exactly as it found it: after the call [plot_height],
    [plot_width] and every other field of the object, and everything else,
    have their pre-call values, both when [file_html] returns the HTML and
    when it raises. *)
Theorem get_layout_html_restores_plot {D} (ext : Collaborators D)
        (kwargs : gmap string (option Z)) (w : World D) (p : Plot) :
  obj w = APlot p ->
  fst (get_layout_html ext kwargs w) = file_html ext (APlot (size_during kwargs p))
  /\ obj (snd (get_layout_html ext kwargs w)) = APlot p
  /\ snd (get_layout_html ext kwargs w) = w.
Proof.
  intros Hp. rewrite (get_layout_html_plot ext kwargs w p Hp). simpl.
  repeat split. exact Hp.
Qed.

Lemma get_layout_html_restores_plot_witness :
  let w := Demo.world (Demo.browser 0 0 [] []) in
  let kwargs := size_kwargs (Some 300) None in
  obj w = APlot Demo.a_plot
  /\ size_during kwargs Demo.a_plot = mkPlot (Some 300) None ∅
  /\ obj (snd (get_layout_html Demo.ext kwargs w)) = APlot Demo.a_plot.
Proof.
  cbv zeta. split; [reflexivity|]. split; [reflexivity|].
  apply (get_layout_html_restores_plot Demo.ext). reflexivity.
Defined.

(** C3. Whenever the screenshot is an image of width zero or of height
    zero, [export_png] raises [ValueError], and the world it leaves is the
    very world the screenshot left: nothing was written, [image.save] was
    never reached. *)
Theorem export_png_rejects_empty_image {D} (ext : Collaborators D)
        (filename : option string) (height width : option Z)
        (webdriver : option Handle) (timeout : Z) (w : World D) (image : Image) :
  fst (get_screenshot_as_png ext webdriver timeout (size_kwargs height width) w)
  = Ok image ->
  img_width image = 0 \/ img_height image = 0 ->
  export_png ext filename height width webdriver timeout w
  = (Raise (ValueError "unable to save an empty image"),
     snd (get_screenshot_as_png ext webdriver timeout (size_kwargs height width) w)).
Proof.
  intros Hshot Hzero. unfold export_png, bind.
  destruct (get_screenshot_as_png ext webdriver timeout (size_kwargs height width) w)
    as [r w1]. simpl in Hshot. subst r. simpl.
  assert (Hb : (img_width image =? 0) || (img_height image =? 0) = true).
  { apply orb_true_iff. destruct Hzero as [H|H]; [left|right]; now apply Z.eqb_eq. }
  now rewrite Hb.
Qed.

Lemma export_png_rejects_empty_image_witness :
  let w := Demo.world (Demo.browser 1 1 [] []) in
  fst (get_screenshot_as_png Demo.ext None 5 (size_kwargs None None) w)
  = Ok (mkImage 0 0 [])
  /\ fst (export_png Demo.ext (Some "out.png") None None None 5 w)
     = Raise (ValueError "unable to save an empty image")
  /\ files (snd (export_png Demo.ext (Some "out.png") None None None 5 w))
       !! "/home/user/out.png" = None.
Proof.
  cbv zeta.
  assert (Hshot : fst (get_screenshot_as_png Demo.ext None 5 (size_kwargs None None)
                         (Demo.world (Demo.browser 1 1 [] [])))
                  = Ok (mkImage 0 0 [])) by (vm_compute; reflexivity).
  split; [exact Hshot|].
  rewrite (export_png_rejects_empty_image Demo.ext (Some "out.png") None None None 5
             _ (mkImage 0 0 []) Hshot (or_introl eq_refl)).
  split; [reflexivity|]. vm_compute. reflexivity.
Defined.

(** C2. Whenever [get_svgs] returns an empty list, [export_svgs] does not
    raise, the only thing it adds to what [get_svgs] left is one warning in
    the log, and the disk holds what it held before the call, less the
    temporary HTML file.  What it returns is [None], the value of its bare
    [return], and not the empty list its docstring ([list(str)])
    announces. *)
Theorem export_svgs_without_svgs {D} (ext : Collaborators D)
        (filename : option string) (height width : option Z)
        (webdriver : option Handle) (timeout : Z) (w : World D) :
  fst (get_svgs ext webdriver timeout (size_kwargs height width) w) = Ok (JArr []) ->
  let w1 := snd (get_svgs ext webdriver timeout (size_kwargs height width) w) in
  export_svgs ext filename height width webdriver timeout w
  = (Ok None, set_log (log w1 ++ ["No SVG Plots were found."]) w1)
  /\ files (snd (export_svgs ext filename height width webdriver timeout w))
     = delete (tmp_html_path ext w) (files w).
Proof.
  intros Hsvgs w1. subst w1.
  pose proof (get_svgs_files ext webdriver timeout (size_kwargs height width) w) as Hf.
  unfold export_svgs, bind.
  destruct (get_svgs ext webdriver timeout (size_kwargs height width) w) as [r w1].
  simpl in Hsvgs, Hf. subst r. simpl. split; [reflexivity|exact Hf].
Qed.

Lemma export_svgs_without_svgs_witness :
  let w := Demo.world (Demo.browser 1 1 [] []) in
  fst (get_svgs Demo.ext None 5 (size_kwargs None None) w) = Ok (JArr [])
  /\ fst (export_svgs Demo.ext (Some "plot.svg") None None None 5 w) = Ok None
  /\ files (snd (export_svgs Demo.ext (Some "plot.svg") None None None 5 w)) = ∅.
Proof.
  cbv zeta.
  assert (Hsvgs : fst (get_svgs Demo.ext None 5 (size_kwargs None None)
                         (Demo.world (Demo.browser 1 1 [] [])))
                  = Ok (JArr [])) by (vm_compute; reflexivity).
  split; [exact Hsvgs|].
  destruct (export_svgs_without_svgs Demo.ext (Some "plot.svg") None None None 5 _ Hsvgs)
    as [Hr Hf].
  split; [now rewrite Hr|]. rewrite Hf. vm_compute. reflexivity.
Defined.

(** C4. The temporary HTML file that [get_screenshot_as_png] or [get_svgs]
    creates (the file [mkstemp] names and creates when the call starts) is
    not on disk when the call is over, for every outcome of the call:
    normal return or any exception raised inside the [with] block. *)
Theorem temporary_html_removed {D} (ext : Collaborators D)
        (driver : option Handle) (timeout : Z) (kwargs : gmap string (option Z))
        (w : World D) :
  (exists n w0,
      _tmp_html ext w
      = (Ok (mk_TempFile (Some n) (Some (tmp_html_path ext w)) false), w0)
      /\ files w0 !! tmp_html_path ext w = Some EmptyString)
  /\ files (snd (get_screenshot_as_png ext driver timeout kwargs w))
       !! tmp_html_path ext w = None
  /\ files (snd (get_svgs ext driver timeout kwargs w)) !! tmp_html_path ext w = None.
Proof.
  split; [|split].
  - destruct (_tmp_html_creates ext w) as (n & w0 & Hnew & Hfiles).
    exists n, w0. split; [exact Hnew|]. rewrite Hfiles. apply lookup_insert_eq.
  - rewrite get_screenshot_as_png_files. apply lookup_delete_eq.
  - rewrite get_svgs_files. apply lookup_delete_eq.
Qed.

Lemma temporary_html_removed_witness :
  let w := Demo.world (Demo.browser 1000 0 [] []) in
  fst (get_svgs Demo.ext None 1 ∅ w) = Raise (RuntimeError not_loaded_msg)
  /\ files (snd (get_svgs Demo.ext None 1 ∅ w)) !! "/tmp/bokeh0.html" = None.
Proof.
  cbv zeta. split; [vm_compute; reflexivity|].
  change "/tmp/bokeh0.html"
    with (tmp_html_path Demo.ext (Demo.world (Demo.browser 1000 0 [] []))).
  exact (proj2 (proj2 (temporary_html_removed Demo.ext None 1 ∅ _))).
Defined.

Lemma exn_is_timeout (e : exn) : {e = TimeoutException} + {e <> TimeoutException}.
Proof. destruct e; first [now left|now right]. Qed.

Lemma polls_elem h s poll k answered ev :
  ev ∈ polls h s poll k answered ->
  ev = Called h (ExecuteScript s) \/ ev = Slept poll.
Proof.
  unfold polls. rewrite elem_of_app. intros [H|H].
  - induction k as [|k IH]; simpl in H.
    + now apply elem_of_nil in H.
    + apply elem_of_cons in H as [->|H]; [now left|].
      apply elem_of_cons in H as [->|H]; [now right|]. now apply IH.
  - destruct answered.
    + apply list_elem_of_singleton in H. now left.
    + now apply elem_of_nil in H.
Qed.

Lemma scripts_distinct :
  _IS_LOADED_SCRIPT <> _WAIT_SCRIPT
  /\ _IS_LOADED_SCRIPT <> _IS_RENDER_COMPLETE_SCRIPT
  /\ _WAIT_SCRIPT <> _IS_RENDER_COMPLETE_SCRIPT.
Proof. repeat split; intros H; vm_compute in H; discriminate. Qed.

Lemma load_polls_not_render_phase h poll k answered :
  Forall (fun ev => ~ render_phase_event ev)
         (polls h _IS_LOADED_SCRIPT poll k answered).
Proof.
  apply Forall_forall. intros ev Hev%polls_elem [h' Hr].
  destruct scripts_distinct as (H1 & H2 & _).
  destruct Hev as [->| ->], Hr as [Hr|Hr]; inversion Hr; congruence.
Qed.

(** C5, as the code has it.  Whenever the wait for "library loaded" times
    out, [wait_until_render_complete] raises.  The handler reads the browser
    console before it raises: when that read returns, the exception is the
    [RuntimeError]; when the read itself fails, its exception is the one
    raised.  Either way the only commands the run sent to the browser are
    polls of the "loaded" condition and the read of the console: nothing of
    the render-complete phase. *)
Theorem load_timeout_aborts {D} (ext : Collaborators D) (h : Handle)
        (timeout : Z) (w : World D) :
  fst (wait_for ext h timeout (is_bokeh_loaded ext) w) = Raise TimeoutException ->
  let out := wait_until_render_complete ext h timeout w in
  (exists e, fst out = Raise e)
  /\ (forall logs,
        fst (drv_get_log ext "browser" (session h (after_load ext h timeout w))) = Ok logs ->
        fst out = Raise (RuntimeError not_loaded_msg))
  /\ (forall e,
        fst (drv_get_log ext "browser" (session h (after_load ext h timeout w))) = Raise e ->
        fst out = Raise e)
  /\ exists k answered,
       trace (snd out)
       = (trace w ++ polls h _IS_LOADED_SCRIPT poll_frequency k answered
            ++ [Called h (GetLog "browser")])%list
       /\ Forall (fun ev => ~ render_phase_event ev)
                 (polls h _IS_LOADED_SCRIPT poll_frequency k answered
                    ++ [Called h (GetLog "browser")]).
Proof.
  intros Hload out. subst out. rewrite (wait_load_timeout ext h timeout w Hload).
  fold (after_load ext h timeout w).
  destruct (wait_for_trace ext h timeout _IS_LOADED_SCRIPT w) as (k & a & _ & Ht & _).
  fold (is_bokeh_loaded ext) in Ht. fold (after_load ext h timeout w) in Ht.
  pose proof (_log_console_trace ext h (after_load ext h timeout w)) as Hc.
  split; [|split; [|split]].
  - unfold bind. destruct (_log_console ext h _) as [[[]|e] w2]; eauto.
  - intros logs Hlogs. unfold bind. now rewrite (_log_console_ok ext h _ logs Hlogs).
  - intros e He. unfold bind. now rewrite (_log_console_raise ext h _ e He).
  - exists k, a. split.
    + rewrite app_assoc, <- Ht, <- Hc. unfold bind.
      now destruct (_log_console ext h _) as [[[]|e] w2].
    + apply Forall_app. split; [apply load_polls_not_render_phase|].
      apply Forall_singleton. intros [h' [Hr|Hr]]; discriminate.
Qed.

Lemma load_timeout_aborts_witness :
  let w := Demo.world (Demo.browser 1000 0 [] []) in
  fst (wait_for Demo.ext Supplied 1 (is_bokeh_loaded Demo.ext) w) = Raise TimeoutException
  /\ fst (wait_until_render_complete Demo.ext Supplied 1 w)
     = Raise (RuntimeError not_loaded_msg).
Proof.
  cbv zeta.
  assert (Hload : fst (wait_for Demo.ext Supplied 1 (is_bokeh_loaded Demo.ext)
                         (Demo.world (Demo.browser 1000 0 [] [])))
                  = Raise TimeoutException) by (vm_compute; reflexivity).
  split; [exact Hload|].
  destruct (load_timeout_aborts Demo.ext Supplied 1 _ Hload) as (_ & Hrt & _).
  apply (Hrt (Demo.console (Demo.browser 989 0 [] []))). vm_compute. reflexivity.
Defined.

(** C5 as stated fails: with a driver whose console cannot be read, the
    wait for "library loaded" times out and what
    [wait_until_render_complete] raises is the driver's exception, not a
    [RuntimeError]. *)
Lemma load_timeout_unreadable_console :
  let w := Demo.world (Demo.mkBrowser 1000 0 [] true [] []) in
  fst (wait_for Demo.ext Supplied 1 (is_bokeh_loaded Demo.ext) w) = Raise TimeoutException
  /\ fst (wait_until_render_complete Demo.ext Supplied 1 w)
     = Raise (WebDriverException "unknown command")
  /\ forall msg, fst (wait_until_render_complete Demo.ext Supplied 1 w)
                 <> Raise (RuntimeError msg).
Proof.
  cbv zeta.
  assert (Hout : fst (wait_until_render_complete Demo.ext Supplied 1
                        (Demo.world (Demo.mkBrowser 1000 0 [] true [] [])))
                 = Raise (WebDriverException "unknown command"))
    by (vm_compute; reflexivity).
  split; [vm_compute; reflexivity|]. split; [exact Hout|].
  intros msg. rewrite Hout. discriminate.
Qed.

(** C6, as the code has it.  Whenever the library loads, the wait script
    is installed and the wait for "render complete" then times out,
    [wait_until_render_complete] logs the warning about the missing
    'bokeh:idle' event and reads the browser console.  When that read
    returns, the function returns normally and what it added to the log is
    the warning followed by the console report; when the read fails, the
    warning is all it logged and the exception of the read is raised. *)
Theorem render_timeout_is_not_fatal {D} (ext : Collaborators D) (h : Handle)
        (timeout : Z) (w : World D) (v v' : JsVal) :
  fst (wait_for ext h timeout (is_bokeh_loaded ext) w) = Ok v ->
  fst (execute_script ext h _WAIT_SCRIPT (after_load ext h timeout w)) = Ok v' ->
  fst (wait_for ext h timeout (is_bokeh_render_complete ext)
         (after_wait_script ext h timeout w)) = Raise TimeoutException ->
  let out := wait_until_render_complete ext h timeout w in
  (forall logs,
      fst (drv_get_log ext "browser" (session h (after_render ext h timeout w))) = Ok logs ->
      fst out = Ok tt
      /\ log (snd out) = (log w ++ not_idle_msg :: console_report logs)%list)
  /\ (forall e,
        fst (drv_get_log ext "browser" (session h (after_render ext h timeout w))) = Raise e ->
        fst out = Raise e
        /\ log (snd out) = (log w ++ [not_idle_msg])%list).
Proof.
  intros Hload Hscript Hrender out. subst out.
  rewrite (wait_load_ok ext h timeout w v Hload). fold (after_load ext h timeout w).
  unfold bind.
  pose proof (keeps_execute_script ext browser_only
                ltac:(intros; repeat split) h _WAIT_SCRIPT (after_load ext h timeout w))
    as (_ & _ & Hl2 & _).
  fold (after_wait_script ext h timeout w) in Hl2.
  pose proof (wait_for_browser_only ext h timeout _IS_LOADED_SCRIPT w) as (_ & _ & Hl1 & _).
  fold (is_bokeh_loaded ext) in Hl1. fold (after_load ext h timeout w) in Hl1.
  pose proof (wait_for_browser_only ext h timeout _IS_RENDER_COMPLETE_SCRIPT
                (after_wait_script ext h timeout w)) as (_ & _ & Hl3 & _).
  fold (is_bokeh_render_complete ext) in Hl3. fold (after_render ext h timeout w) in Hl3.
  unfold after_render, after_wait_script in *.
  destruct (execute_script ext h _WAIT_SCRIPT (after_load ext h timeout w)) as [r w2].
  simpl in Hscript, Hl2, Hl3, Hrender. subst r.
  rewrite render_phase_eq. cbv zeta. rewrite Hrender.
  set (w3 := snd (wait_for ext h timeout (is_bokeh_render_complete ext) w2)) in *.
  split.
  - intros logs Hlogs. simpl in Hlogs.
    rewrite (_log_console_ok ext h (snd (log_warning not_idle_msg w3)) logs Hlogs).
    simpl. split; [reflexivity|]. rewrite Hl3, Hl2, Hl1. now rewrite <- app_assoc.
  - intros e He. simpl in He.
    rewrite (_log_console_raise ext h (snd (log_warning not_idle_msg w3)) e He).
    simpl. split; [reflexivity|]. now rewrite Hl3, Hl2, Hl1.
Qed.

Lemma render_timeout_is_not_fatal_witness :
  let w := Demo.world (Demo.browser 2 1000 [] []) in
  fst (wait_until_render_complete Demo.ext Supplied 1 w) = Ok tt
  /\ log (snd (wait_until_render_complete Demo.ext Supplied 1 w))
     = [not_idle_msg; console_header; "boom"; "careful"].
Proof.
  cbv zeta.
  destruct (render_timeout_is_not_fatal Demo.ext Supplied 1
              (Demo.world (Demo.browser 2 1000 [] []))
              (JBool true) JNull)
    as [Hok _]; try (vm_compute; reflexivity).
  destruct (Hok (Demo.console (Demo.browser 0 0 [] []))) as [Hr Hl];
    [vm_compute; reflexivity|].
  split; [exact Hr|]. rewrite Hl. vm_compute. reflexivity.
Defined.

(** C6 as stated fails: with a driver whose console cannot be read, the
    library loads, the wait for "render complete" times out, the warning is
    logged, and [wait_until_render_complete] raises. *)
Lemma render_timeout_unreadable_console :
  let w := Demo.world (Demo.mkBrowser 0 1000 [] true [] []) in
  let out := wait_until_render_complete Demo.ext Supplied 1 w in
  fst (wait_for Demo.ext Supplied 1 (is_bokeh_loaded Demo.ext) w) = Ok (JBool true)
  /\ fst (wait_for Demo.ext Supplied 1 (is_bokeh_render_complete Demo.ext)
            (after_wait_script Demo.ext Supplied 1 w)) = Raise TimeoutException
  /\ fst out = Raise (WebDriverException "unknown command")
  /\ log (snd out) = [not_idle_msg].
Proof. cbv zeta. repeat split; vm_compute; reflexivity. Qed.

Lemma level_in_levels_severe entry : level_in_levels entry = true <-> severe entry.
Proof.
  unfold level_in_levels, severe, levels.
  destruct (entry !! "level") as [l|].
  - rewrite bool_decide_eq_true, !elem_of_union, !elem_of_singleton. split.
    + intros H. exists l. split; [done|]. tauto.
    + intros (l' & Hl & H). inversion Hl; subst. tauto.
  - split; [done|]. now intros (l & Hl & _).
Qed.

Lemma console_messages_elem logs (m : option string) :
  m ∈ console_messages logs
  <-> exists entry, entry ∈ logs /\ severe entry /\ m = entry !! "message".
Proof.
  unfold console_messages. rewrite list_elem_of_In, in_map_iff. split.
  - intros (entry & Hm & Hin). apply filter_In in Hin as [Hin Hsev].
    exists entry. rewrite list_elem_of_In, <- level_in_levels_severe. done.
  - intros (entry & Hin & Hsev & ->). exists entry. split; [done|].
    apply filter_In. rewrite <- list_elem_of_In, level_in_levels_severe. done.
Qed.

Lemma console_report_complete logs entry :
  entry ∈ logs -> severe entry -> py_str (entry !! "message") ∈ console_report logs.
Proof.
  intros Hin Hsev. unfold console_report.
  assert (Hm : entry !! "message" ∈ console_messages logs).
  { apply console_messages_elem. eauto. }
  destruct (console_messages logs) as [|m ms] eqn:E.
  - now apply elem_of_nil in Hm.
  - simpl. apply elem_of_cons. right.
    apply (list_elem_of_fmap_2 py_str) in Hm. exact Hm.
Qed.

Lemma console_report_sound logs line :
  line ∈ console_report logs ->
  line = console_header
  \/ exists entry, entry ∈ logs /\ severe entry /\ line = py_str (entry !! "message").
Proof.
  unfold console_report. destruct (0 <? _)%nat.
  - intros [->|H]%elem_of_cons; [now left|]. right.
    apply list_elem_of_fmap in H as (m & -> & Hm).
    apply console_messages_elem in Hm as (entry & Hin & Hsev & ->). eauto.
  - intros H. now apply elem_of_nil in H.
Qed.

Lemma wait_after_script {D} (ext : Collaborators D) h timeout (w : World D) v v' :
  fst (wait_for ext h timeout (is_bokeh_loaded ext) w) = Ok v ->
  fst (execute_script ext h _WAIT_SCRIPT (after_load ext h timeout w)) = Ok v' ->
  wait_until_render_complete ext h timeout w
  = render_phase ext h timeout (after_wait_script ext h timeout w).
Proof.
  intros Hload Hscript. rewrite (wait_load_ok ext h timeout w v Hload).
  fold (after_load ext h timeout w). unfold bind, after_wait_script.
  destruct (execute_script ext h _WAIT_SCRIPT (after_load ext h timeout w)) as [r w2].
  simpl in Hscript. now subst r.
Qed.

(** C7. On the three paths (load timeout, render complete, render
    timeout), when the browser hands over its console entries [logs], the
    run ends in the world right after that read with the log extended by
    [lines], where [lines] holds the message of every entry of level
    WARNING, ERROR or SEVERE, and nothing but such messages and the header
    line; the function then returns, or raises the load-timeout error. *)
Theorem console_messages_surfaced {D} (ext : Collaborators D) (h : Handle)
        (timeout : Z) (w wc : World D) (logs : list (gmap string string)) :
  console_point ext h timeout w wc ->
  fst (drv_get_log ext "browser" (session h wc)) = Ok logs ->
  exists lines,
    snd (wait_until_render_complete ext h timeout w)
    = set_log (log wc ++ lines) (console_read ext h wc)
    /\ (forall entry, entry ∈ logs -> severe entry ->
                      py_str (entry !! "message") ∈ lines)
    /\ (forall line, line ∈ lines ->
          line = console_header
          \/ exists entry, entry ∈ logs /\ severe entry
                           /\ line = py_str (entry !! "message"))
    /\ (fst (wait_until_render_complete ext h timeout w) = Ok tt
        \/ fst (wait_until_render_complete ext h timeout w)
           = Raise (RuntimeError not_loaded_msg)).
Proof.
  intros Hpoint Hlogs. exists (console_report logs).
  split; [|split; [apply console_report_complete|split; [apply console_report_sound|]]].
  - destruct Hpoint as [Hload|v v' v'' Hload Hscript Hrender|v v' Hload Hscript Hrender].
    + rewrite (wait_load_timeout ext h timeout w Hload).
      fold (after_load ext h timeout w). unfold bind.
      now rewrite (_log_console_ok ext h _ logs Hlogs).
    + rewrite (wait_after_script ext h timeout w v v' Hload Hscript).
      rewrite render_phase_eq. cbv zeta. rewrite Hrender.
      fold (after_render ext h timeout w).
      now rewrite (_log_console_ok ext h _ logs Hlogs).
    + rewrite (wait_after_script ext h timeout w v v' Hload Hscript).
      rewrite render_phase_eq. cbv zeta. rewrite Hrender.
      fold (after_render ext h timeout w).
      now rewrite (_log_console_ok ext h _ logs Hlogs).
  - destruct Hpoint as [Hload|v v' v'' Hload Hscript Hrender|v v' Hload Hscript Hrender].
    + right. rewrite (wait_load_timeout ext h timeout w Hload).
      fold (after_load ext h timeout w). unfold bind.
      now rewrite (_log_console_ok ext h _ logs Hlogs).
    + left. rewrite (wait_after_script ext h timeout w v v' Hload Hscript).
      rewrite render_phase_eq. cbv zeta. rewrite Hrender.
      fold (after_render ext h timeout w).
      now rewrite (_log_console_ok ext h _ logs Hlogs).
    + left. rewrite (wait_after_script ext h timeout w v v' Hload Hscript).
      rewrite render_phase_eq. cbv zeta. rewrite Hrender.
      fold (after_render ext h timeout w).
      now rewrite (_log_console_ok ext h _ logs Hlogs).
Qed.

Lemma console_messages_surfaced_witness :
  let w := Demo.world (Demo.browser 2 3 [] []) in
  log (snd (wait_until_render_complete Demo.ext Supplied 5 w))
  = [console_header; "boom"; "careful"].
Proof.
  cbv zeta.
  destruct (console_messages_surfaced Demo.ext Supplied 5
              (Demo.world (Demo.browser 2 3 [] []))
              (after_render Demo.ext Supplied 5 (Demo.world (Demo.browser 2 3 [] [])))
              (Demo.console (Demo.browser 0 0 [] [])))
    as (lines & Hw & _).
  - apply (render_completed Demo.ext Supplied 5 _ (JBool true) JNull (JBool true));
      vm_compute; reflexivity.
  - vm_compute. reflexivity.
  - vm_compute. reflexivity.
Defined.



Lemma export_svgs_strings {D} (ext : Collaborators D) (filename : option string)
      (height width : option Z) (webdriver : option Handle) (timeout : Z)
      (w : World D) (svgs keys : list string) :
  fst (get_svgs ext webdriver timeout (size_kwargs height width) w)
  = Ok (JArr (map JStr svgs)) ->
  svgs <> [] ->
  Forall2 (denotes ext)
          (svg_names 0 (length svgs) (used_filename ext filename "svg")) keys ->
  let w1 := snd (get_svgs ext webdriver timeout (size_kwargs height width) w) in
  export_svgs ext filename height width webdriver timeout w
  = (Ok (Some (svg_names 0 (length svgs) (used_filename ext filename "svg"))),
     set_files (write_all keys svgs (files w1)) w1).
Proof.
  intros Hsvgs Hne Hkeys. cbv zeta. unfold export_svgs, bind.
  destruct (get_svgs ext webdriver timeout (size_kwargs height width) w) as [r w1].
  simpl in Hsvgs. subst r. simpl. rewrite length_map.
  destruct (Nat.eqb_spec (length svgs) 0) as [H0|_];
    [now apply length_zero_iff_nil in H0|].
  fold (used_filename ext filename "svg").
  now rewrite (export_svgs_loop_strings ext _ _ _ _ _ keys Hkeys).
Qed.

Lemma export_svgs_refused {D} (ext : Collaborators D) (filename : option string)
      (height width : option Z) (webdriver : option Handle) (timeout : Z)
      (w : World D) (svgs keys : list string) (k : nat) (name : string) (e : exn) :
  fst (get_svgs ext webdriver timeout (size_kwargs height width) w)
  = Ok (JArr (map JStr svgs)) ->
  svg_names 0 (length svgs) (used_filename ext filename "svg") !! k = Some name ->
  lookup_w ext name = Raise e ->
  Forall2 (denotes ext)
          (take k (svg_names 0 (length svgs) (used_filename ext filename "svg"))) keys ->
  let w1 := snd (get_svgs ext webdriver timeout (size_kwargs height width) w) in
  export_svgs ext filename height width webdriver timeout w
  = (Raise e, set_files (write_all keys (take k svgs) (files w1)) w1).
Proof.
  intros Hsvgs Hname He Hkeys. cbv zeta. unfold export_svgs, bind.
  destruct (get_svgs ext webdriver timeout (size_kwargs height width) w) as [r w1].
  simpl in Hsvgs. subst r. simpl. rewrite length_map.
  destruct (Nat.eqb_spec (length svgs) 0) as [H0|_].
  - apply length_zero_iff_nil in H0. subst svgs. now destruct k.
  - fold (used_filename ext filename "svg").
    now rewrite (export_svgs_loop_refused ext _ _ _ _ _ k name e keys Hname He Hkeys).
Qed.

Lemma export_svgs_returned {D} (ext : Collaborators D) (filename : option string)
      (height width : option Z) (webdriver : option Handle) (timeout : Z)
      (w : World D) (svgs names : list string) :
  fst (get_svgs ext webdriver timeout (size_kwargs height width) w)
  = Ok (JArr (map JStr svgs)) ->
  fst (export_svgs ext filename height width webdriver timeout w) = Ok (Some names) ->
  names = svg_names 0 (length svgs) (used_filename ext filename "svg")
  /\ exists keys, Forall2 (denotes ext) names keys.
Proof.
  intros Hsvgs. unfold export_svgs. unfold bind at 1.
  destruct (get_svgs ext webdriver timeout (size_kwargs height width) w) as [r w1].
  simpl in Hsvgs. subst r. cbn [py_len py_iter]. rewrite !bind_ret, length_map.
  destruct (length svgs =? 0)%nat; [discriminate|]. rewrite bind_ret.
  fold (used_filename ext filename "svg"). unfold bind.
  destruct (export_svgs_loop ext 0 (map JStr svgs) (used_filename ext filename "svg") [] w1)
    as [[names'|e] w2] eqn:E; [|discriminate].
  intros [= <-].
  pose proof (export_svgs_loop_names ext 0 (map JStr svgs)
                (used_filename ext filename "svg") [] w1 names') as Hn.
  rewrite E in Hn. specialize (Hn eq_refl). rewrite length_map in Hn. simpl in Hn.
  split; [exact Hn|]. rewrite Hn.
  apply (export_svgs_loop_opened ext 0 svgs (used_filename ext filename "svg")
           [] w1 names'). now rewrite E.
Qed.

(** C10, as the code has it.  When the browser returns a non-empty list of
    [n] SVG strings and the given filename contains ".svg", the names
    [export_svgs] forms are [n] pairwise distinct strings: the first is the
    given filename, the name at position [k+1] is the name at position [k]
    with ["_"] and the number [k+1] inserted right before its first ".svg"
    (so the suffixes pile up: f.svg, f_1.svg, f_1_2.svg).  When every name
    can be opened for writing, these names are returned and the [k]-th SVG
    has been written to the file the [k]-th name denotes, in order, no
    other file being touched; the files are [n] different ones, each holding
    its SVG, when the names denote different files.  When a name cannot be
    opened, the error of the open is raised, the SVGs before it have been
    written and no name is returned. *)
Theorem export_svgs_distinct_names {D} (ext : Collaborators D) (filename : string)
        (height width : option Z) (webdriver : option Handle) (timeout : Z)
        (w : World D) (svgs : list string) :
  fst (get_svgs ext webdriver timeout (size_kwargs height width) w)
  = Ok (JArr (map JStr svgs)) ->
  svgs <> [] ->
  contains ".svg" filename ->
  let w1 := snd (get_svgs ext webdriver timeout (size_kwargs height width) w) in
  let out := export_svgs ext (Some filename) height width webdriver timeout w in
  exists names,
    length names = length svgs
    /\ NoDup names
    /\ names !! 0%nat = Some filename
    /\ (forall k prev next,
          names !! k = Some prev -> names !! S k = Some next ->
          inserted_before_svg (S k) prev next)
    /\ (forall names', fst out = Ok (Some names') -> names' = names)
    /\ (forall keys,
          Forall2 (denotes ext) names keys ->
          fst out = Ok (Some names)
          /\ files (snd out) = write_all keys svgs (files w1)
          /\ (forall q, q ∉ keys -> files (snd out) !! q = files w1 !! q)
          /\ (NoDup keys ->
              forall k key svg,
                keys !! k = Some key -> svgs !! k = Some svg ->
                files (snd out) !! key = Some svg))
    /\ (forall k name e keys,
          names !! k = Some name -> lookup_w ext name = Raise e ->
          Forall2 (denotes ext) (take k names) keys ->
          fst out = Raise e
          /\ files (snd out) = write_all keys (take k svgs) (files w1)).
Proof.
  intros Hsvgs Hne Hc w1 out. subst w1 out.
  exists (svg_names 0 (length svgs) filename).
  split; [apply length_svg_names|]. split; [apply NoDup_svg_names|].
  split; [|split; [|split; [|split]]].
  - destruct svgs; [done|reflexivity].
  - intros k prev next Hp Hn.
    pose proof (svg_names_chain _ _ _ _ _ _ Hp Hn) as ->. simpl.
    assert (Hprev : contains ".svg" prev).
    { eapply svg_names_contain; [exact Hc|]. eapply list_elem_of_lookup_2, Hp. }
    destruct Hprev as (a & b & Hs).
    destruct (first_occurrence_exists _ _ _ _ Hs) as (a0 & b0 & Hfirst).
    exists a0, b0. split; [done|]. apply next_filename_first; [lia|done].
  - intros names' Hret.
    now destruct (export_svgs_returned ext (Some filename) height width webdriver
                    timeout w svgs names' Hsvgs Hret).
  - intros keys Hkeys.
    rewrite (export_svgs_strings ext (Some filename) height width webdriver timeout w
               svgs keys Hsvgs Hne Hkeys). cbn [fst snd files set_files].
    split; [reflexivity|]. split; [reflexivity|]. split.
    + intros q Hq. now apply write_all_other.
    + intros Hnd k key svg Hk Hs. now apply (write_all_lookup keys svgs _ k).
  - intros k name e keys Hname He Hkeys.
    now rewrite (export_svgs_refused ext (Some filename) height width webdriver timeout w
                   svgs keys k name e Hsvgs Hname He Hkeys).
Qed.

Lemma export_svgs_distinct_names_witness :
  let w := Demo.world (Demo.browser 2 3 ["<svg>a</svg>"; "<svg>b</svg>"; "<svg>c</svg>"] []) in
  let out := export_svgs Demo.ext (Some "f.svg") None None None 5 w in
  fst out = Ok (Some ["f.svg"; "f_1.svg"; "f_1_2.svg"])
  /\ files (snd out) !! "/home/user/f_1.svg" = Some "<svg>b</svg>".
Proof.
  cbv zeta.
  destruct (export_svgs_distinct_names Demo.ext "f.svg" None None None 5
              (Demo.world (Demo.browser 2 3
                 ["<svg>a</svg>"; "<svg>b</svg>"; "<svg>c</svg>"] []))
              ["<svg>a</svg>"; "<svg>b</svg>"; "<svg>c</svg>"])
    as (names & _ & _ & _ & _ & Hret & Hall & _).
  - vm_compute. reflexivity.
  - discriminate.
  - exists "f", EmptyString. reflexivity.
  - assert (Hc : fst (export_svgs Demo.ext (Some "f.svg") None None None 5
                        (Demo.world (Demo.browser 2 3
                           ["<svg>a</svg>"; "<svg>b</svg>"; "<svg>c</svg>"] [])))
                 = Ok (Some ["f.svg"; "f_1.svg"; "f_1_2.svg"]))
      by (vm_compute; reflexivity).
    pose proof (Hret _ Hc) as Hn. subst names.
    split; [exact Hc|].
    assert (Hkeys : Forall2 (denotes Demo.ext) ["f.svg"; "f_1.svg"; "f_1_2.svg"]
                      ["/home/user/f.svg"; "/home/user/f_1.svg"; "/home/user/f_1_2.svg"]).
    { repeat (constructor; [vm_compute; reflexivity|]). constructor. }
    assert (Hnd : NoDup ["/home/user/f.svg"; "/home/user/f_1.svg"; "/home/user/f_1_2.svg"]).
    { apply (bool_decide_unpack _). vm_compute. reflexivity. }
    destruct (Hall _ Hkeys) as (_ & _ & _ & Hfile).
    exact (Hfile Hnd 1%nat "/home/user/f_1.svg" "<svg>b</svg>" eq_refl eq_refl).
Defined.

(** C10 as stated fails.  A name in a directory that does not exist
    contains ".svg" and cannot be opened: [export_svgs] raises, returns no
    name and writes no file.  And two of the names it forms can denote one
    file: from "a.svg/../plot.svg" the second name is "a_1.svg/../plot.svg"
    (the index goes before the first ".svg", which is in the directory
    part), both denote plot.svg in the working directory, two names are
    returned and one file is written, holding the second SVG. *)
Lemma export_svgs_fewer_files :
  let w := Demo.world (Demo.browser 1 1 ["<svg>a</svg>"; "<svg>b</svg>"] []) in
  let missing := export_svgs Demo.ext (Some "/nowhere/f.svg") None None None 5 w in
  let same := export_svgs Demo.ext (Some "a.svg/../plot.svg") None None None 5 w in
  (fst missing = Raise (OSError "No such file or directory")
   /\ files (snd missing) = ∅)
  /\ (fst same = Ok (Some ["a.svg/../plot.svg"; "a_1.svg/../plot.svg"])
      /\ files (snd same) = {[ "/home/user/plot.svg" := "<svg>b</svg>" ]}).
Proof. cbv zeta. repeat split; vm_compute; reflexivity. Qed.

Lemma length_list_ascii_of_string (s : string) :
  length (list_ascii_of_string s) = String.length s.
Proof. induction s as [|c s IH]; simpl; [done|now rewrite IH]. Qed.

(** C1, as the code has it.  With the working directory an absolute path,
    every path [export_png] returns is [abspath] of the name it saved
    under, hence absolute.  [export_svgs] returns the names it saved under
    verbatim, the first being the given (or default) filename: they are
    absolute when that filename is an absolute path of at least two
    characters. *)
Theorem exported_paths {D} (ext : Collaborators D) (filename : option string)
        (height width : option Z) (webdriver : option Handle) (timeout : Z)
        (w : World D) :
  posixpath.isabs (getcwd ext) = true ->
  (forall p, fst (export_png ext filename height width webdriver timeout w) = Ok p ->
             p = posixpath.abspath (getcwd ext) (used_filename ext filename "png")
             /\ posixpath.isabs p = true)
  /\ (forall names,
        fst (export_svgs ext filename height width webdriver timeout w) = Ok (Some names) ->
        names !! 0%nat = Some (used_filename ext filename "svg")
        /\ (posixpath.isabs (used_filename ext filename "svg") = true ->
            (2 <= String.length (used_filename ext filename "svg"))%nat ->
            Forall (fun name => posixpath.isabs name = true) names)).
Proof.
  intros Hcwd. split.
  - intros p. unfold export_png, bind.
    destruct (get_screenshot_as_png ext webdriver timeout (size_kwargs height width) w)
      as [[image|e] w1]; [|discriminate].
    fold (used_filename ext filename "png").
    destruct (_ || _); [discriminate|].
    destruct (image_save ext image (used_filename ext filename "png") w1)
      as [[[]|e] w2]; [|discriminate].
    simpl. intros [= <-]. split; [done|now apply isabs_abspath].
  - intros names. unfold export_svgs. unfold bind at 1.
    destruct (get_svgs ext webdriver timeout (size_kwargs height width) w)
      as [[svgs|e] w1]; [|discriminate].
    fold (used_filename ext filename "svg").
    assert (Hloop : forall (items : list JsVal) (w2 : World D),
      (0 < length items)%nat ->
      fst ((filenames <- export_svgs_loop ext 0 items
                            (used_filename ext filename "svg") [];;
            ret (Some filenames)) w2) = Ok (Some names) ->
      names !! 0%nat = Some (used_filename ext filename "svg")
      /\ (posixpath.isabs (used_filename ext filename "svg") = true ->
          (2 <= String.length (used_filename ext filename "svg"))%nat ->
          Forall (fun name => posixpath.isabs name = true) names)).
    { intros items w2 Hlen. unfold bind.
      destruct (export_svgs_loop ext 0 items (used_filename ext filename "svg") [] w2)
        as [[names'|e] w3] eqn:E; [|discriminate].
      simpl. intros [= <-].
      pose proof (export_svgs_loop_names ext 0 items (used_filename ext filename "svg")
                    [] w2 names') as Hn.
      rewrite E in Hn. specialize (Hn eq_refl). simpl in Hn. subst names'.
      split.
      - destruct items; simpl in *; [lia|reflexivity].
      - intros Habs Hlen2. now apply svg_names_isabs. }
    destruct svgs as [| | |s|l]; cbn [py_len py_iter]; rewrite ?bind_ret;
      try discriminate.
    + destruct (Nat.eqb_spec (String.length s) 0); [discriminate|].
      rewrite bind_ret. apply Hloop.
      rewrite length_map, length_list_ascii_of_string. lia.
    + destruct (Nat.eqb_spec (length l) 0); [discriminate|].
      rewrite bind_ret. apply Hloop. lia.
Qed.

Lemma exported_paths_witness :
  let w := Demo.world (Demo.browser 1 1 ["<svg/>"] [Byte.x00]) in
  posixpath.isabs (getcwd Demo.ext) = true
  /\ (forall p, fst (export_png Demo.ext (Some "out.png") None None None 5 w) = Ok p ->
                p = "/home/user/out.png")
  /\ fst (export_png Demo.ext (Some "out.png") None None None 5 w)
     = Ok "/home/user/out.png".
Proof.
  cbv zeta. split; [reflexivity|]. split; [|vm_compute; reflexivity].
  intros p Hp.
  destruct (exported_paths Demo.ext (Some "out.png") None None None 5
              (Demo.world (Demo.browser 1 1 ["<svg/>"] [Byte.x00])) eq_refl)
    as [Hpng _].
  destruct (Hpng p Hp) as [-> _]. vm_compute. reflexivity.
Defined.

(** C1 as stated fails for [export_svgs]: asked to save under the relative
    name "plot.svg", it returns that name, which is not absolute. *)
Lemma export_svgs_returns_relative_name :
  let w := Demo.world (Demo.browser 1 1 ["<svg/>"; "<svg/>"] []) in
  fst (export_svgs Demo.ext (Some "plot.svg") None None None 5 w)
  = Ok (Some ["plot.svg"; "plot_1.svg"])
  /\ ~ Forall (fun name => posixpath.isabs name = true) ["plot.svg"; "plot_1.svg"].
Proof.
  cbv zeta. split; [vm_compute; reflexivity|].
  intros H. apply Forall_cons_1 in H as [H _]. vm_compute in H. discriminate.
Qed.

(** ** The model run on concrete inputs *)

(** The rounds [WebDriverWait_until] gives its loop always suffice: with
    any number of extra rounds a wait on a script ends the same way. *)
Lemma wait_for_rounds_suffice {D} (ext : Collaborators D) (h : Handle)
      (timeout : Z) (script : string) (extra : nat) (w : World D) :
  until_loop ext (until_rounds (1000 * timeout) poll_frequency + extra)
             poll_frequency (now w + 1000 * timeout) (execute_script ext h script) w
  = wait_for ext h timeout (fun d => execute_script ext d script) w.
Proof.
  unfold wait_for, WebDriverWait_until.
  apply until_loop_enough.
  - intros w0. apply execute_script_clock.
  - reflexivity.
  - unfold until_rounds. lia.
  - unfold until_rounds, poll_frequency. rewrite Nat2Z.inj_succ.
    pose proof (Z.mul_succ_div_gt (1000 * timeout) 100 ltac:(lia)).
    destruct (Z.le_gt_cases 0 (1000 * timeout / 100)).
    + rewrite Z2Nat.id by done. lia.
    + rewrite Z2Nat.nonpos by lia. lia.
Qed.

(** A page that never loads: [get_svgs] raises inside the [with] block and
    the temporary file is gone all the same. *)
Example get_svgs_load_timeout_cleans_up :
  let out := get_svgs Demo.ext None 1 ∅ (Demo.world (Demo.browser 1000 0 [] [])) in
  fst out = Raise (RuntimeError not_loaded_msg) /\ files (snd out) = ∅.
Proof. cbv zeta. split; vm_compute; reflexivity. Qed.

(** A height alone: while the HTML is generated the width of the plot is
    [None], since the keyword dictionary built by [export_png] always has
    both keys. *)
Example height_only_resize :
  size_during (size_kwargs (Some 300) None) Demo.a_plot = mkPlot (Some 300) None ∅.
Proof. reflexivity. Qed.

(** * Further properties of the module *)

(** ** _TempFile *)

(** X1. Closing a temporary file twice is closing it once: the second
    [close] (the [__del__] that follows [__exit__]) finds [_closed] set and
    touches neither the descriptor table nor the disk, and when the first
    [close] raised, the raise is all that happens. *)
Theorem close_twice {D} (self : _TempFile) (w : World D) :
  (self' <- close self;; close self') w = close self w.
Proof.
  destruct self as [f pth [|]]; [reflexivity|].
  unfold bind at 1.
  destruct (close (mk_TempFile f pth false) w) as [[self'|e] w1] eqn:E; [|reflexivity].
  enough (_closed self' = true) as Hc by (unfold close at 1; now rewrite Hc).
  revert E.
  unfold close, bind, try_except, not_none, ret, raise, os_close, os_unlink,
    except_OSError; simpl.
  destruct f as [n|]; simpl; [|discriminate].
  destruct (decide (n ∈ open_fds w)); simpl;
    (destruct pth as [p|]; simpl; [|discriminate]);
    (match goal with
     | |- context [files ?x !! p] => destruct (files x !! p)
     end); simpl; intros [= <- <-]; reflexivity.
Qed.

Section WithBlock.
Context {D : Type} (ext : Collaborators D).
Implicit Types w : World D.

Lemma _tmp_html_eq w :
  _tmp_html ext w = (Ok (tmp_html_file ext w), tmp_html_world ext w).
Proof. reflexivity. Qed.

Lemma tmp_html_world_eq w :
  tmp_html_world ext w
  = set_open_fds ({[fresh (open_fds w)]} ∪ open_fds w)
      (set_files (<[tmp_html_path ext w := EmptyString]> (files w)) w).
Proof. reflexivity. Qed.

Lemma get_svgs_with driver timeout kwargs :
  get_svgs ext driver timeout kwargs
  = with_ (_tmp_html ext) (svgs_body ext driver timeout kwargs).
Proof. reflexivity. Qed.

Lemma get_screenshot_as_png_with driver timeout kwargs :
  get_screenshot_as_png ext driver timeout kwargs
  = (png <- with_ (_tmp_html ext) (screenshot_body ext driver timeout kwargs);;
     fun w => (image_open ext png, w)).
Proof. reflexivity. Qed.

(** [__exit__] on the file of this call succeeds in any world. *)
Lemma __exit___ok w w1 :
  fst (__exit__ (tmp_html_file ext w) w1) = Ok tt.
Proof.
  unfold __exit__, tmp_html_file.
  destruct (close_removes (fresh (open_fds w)) (tmp_html_path ext w) w1)
    as (self' & w2 & Hc & _).
  now rewrite (bind_ok _ _ _ _ _ Hc).
Qed.

(** The [with] block, taken apart: the body runs on the fresh file, then
    [__exit__] runs, and the outcome is the body's. *)
Lemma with_tmp_html_eq {A} (body : _TempFile -> M D A) w :
  with_ (_tmp_html ext) body w
  = (fst (body (tmp_html_file ext w) (tmp_html_world ext w)),
     snd (__exit__ (tmp_html_file ext w)
            (snd (body (tmp_html_file ext w) (tmp_html_world ext w))))).
Proof.
  unfold with_. rewrite (bind_ok _ _ _ _ _ (_tmp_html_eq w)).
  unfold __enter__. rewrite bind_ret. unfold try_finally.
  destruct (body (tmp_html_file ext w) (tmp_html_world ext w)) as [r w1]. simpl.
  pose proof (__exit___ok w w1) as Hx.
  destruct (__exit__ (tmp_html_file ext w) w1) as [[[]|e] w2]; [reflexivity|].
  discriminate.
Qed.

End WithBlock.


(** ** One session at a time

    As in [Frame], but for a relation that tolerates commands to the one
    session [h0] only, and writes to the one path [p] only. *)

Section FrameSession.
Context {D : Type} (ext : Collaborators D).
Context (R : World D -> World D -> Prop) `{!PreOrder R} (h0 : Handle) (p : string).
Context (R_call : forall c d t w, R w (after_call h0 c d t w)).
Context (R_sleep : forall idle ms w, R w (after_sleep idle ms w)).
Context (R_log : forall l w, R w (set_log l w)).
Context (R_warn : forall l w, R w (set_py_warnings l w)).
Context (R_obj : forall o w, R w (set_obj o w)).
Context (R_write : forall text w, R w (set_files (<[p := text]> (files w)) w)).
Context (p_canonical : lookup_w ext p = Ok p).

Lemma at_call {A} c (method : World D -> D -> Result A * D) :
  keeps R (call ext h0 c method).
Proof. intros w. unfold call. destruct (method w (session h0 w)). apply R_call. Qed.

Lemma at__log_console : keeps R (_log_console ext h0).
Proof.
  unfold _log_console. apply keeps_bind; [done|apply at_call|].
  intros logs. destruct (0 <? _)%nat; [|now apply keeps_ret].
  apply keeps_bind; [done|now apply keeps_log_warning|]. intros _.
  apply keeps_for_each; [done|]. intros m. now apply keeps_log_warning.
Qed.

Lemma at_wait_for timeout s :
  keeps R (wait_for ext h0 timeout (fun d => execute_script ext d s)).
Proof. apply keeps_WebDriverWait_until; [done|done|apply at_call]. Qed.

Lemma at_wait_until_render_complete timeout :
  keeps R (wait_until_render_complete ext h0 timeout).
Proof.
  unfold wait_until_render_complete, load_phase, render_phase.
  apply keeps_bind; [done| |intros _; apply keeps_bind; [done| |intros _]].
  - apply keeps_try_except; [done|apply (at_wait_for timeout _IS_LOADED_SCRIPT)|].
    intros [] hd Hhd; inversion Hhd; subst.
    apply keeps_bind; [done|apply at__log_console|].
    intros _. now apply keeps_raise.
  - apply at_call.
  - apply keeps_try_finally; [done| |apply at__log_console].
    apply keeps_try_except; [done| |].
    + apply keeps_bind; [done| |intros _; now apply keeps_ret].
      apply (at_wait_for timeout _IS_RENDER_COMPLETE_SCRIPT).
    + intros [] hd Hhd; inversion Hhd; subst. now apply keeps_log_warning.
Qed.

Lemma at__maximize_viewport : keeps R (_maximize_viewport ext h0).
Proof.
  unfold _maximize_viewport. apply keeps_bind; [done|apply at_call|].
  intros size. apply keeps_bind; [done|now apply keeps_py_iter|].
  intros [|a [|b [|c l]]]; first [now apply keeps_raise|apply at_call].
Qed.

Lemma at_html tmp {A} (rest : string -> M D A) kwargs :
  path tmp = Some p -> keeps R (rest p) ->
  keeps R (html <- get_layout_html ext kwargs;;
           q <- not_none (path tmp);;
           write_text ext q html;;; rest q).
Proof.
  intros Hp Hrest. rewrite Hp.
  apply keeps_bind; [done|now apply keeps_get_layout_html|]. intros html w.
  unfold not_none. rewrite bind_ret.
  apply (keeps_bind R (write_text ext p html) (fun _ => rest p)); [|now intros _].
  intros w'. rewrite (write_text_canonical ext p html w' p_canonical). apply R_write.
Qed.

Lemma at_svgs_body driver timeout kwargs tmp :
  path tmp = Some p -> picked driver = h0 ->
  keeps R (svgs_body ext driver timeout kwargs tmp).
Proof.
  intros Hp Hh. unfold svgs_body. apply (at_html tmp _ kwargs Hp).
  assert (Hpick : forall w : World D, pick_driver driver w = (Ok h0, w))
    by (intros w; destruct driver; simpl in *; now subst).
  intros w. rewrite (bind_ok _ _ _ _ _ (Hpick w)). revert w.
  apply keeps_bind; [done|apply at_call|]. intros _.
  apply keeps_bind; [done|apply at_wait_until_render_complete|]. intros _.
  apply at_call.
Qed.

Lemma at_screenshot_body driver timeout kwargs tmp :
  path tmp = Some p -> picked driver = h0 ->
  keeps R (screenshot_body ext driver timeout kwargs tmp).
Proof.
  intros Hp Hh. unfold screenshot_body. apply (at_html tmp _ kwargs Hp).
  assert (Hpick : forall w : World D, pick_driver driver w = (Ok h0, w))
    by (intros w; destruct driver; simpl in *; now subst).
  intros w. rewrite (bind_ok _ _ _ _ _ (Hpick w)). revert w.
  apply keeps_bind; [done|apply at_call|]. intros _.
  apply keeps_bind; [done|apply at_call|]. intros _.
  apply keeps_bind; [done|apply at_wait_until_render_complete|]. intros _.
  apply keeps_bind; [done|apply at__maximize_viewport|]. intros _.
  apply at_call.
Qed.

End FrameSession.

(** ** What a whole call leaves behind *)

Section CallEffects.
Context {D : Type} (ext : Collaborators D).
Implicit Types w : World D.

(** [close] changes nothing but the disk and the descriptor table. *)
Lemma close_only_fs (self : _TempFile) w :
  exists f s, snd (close self w) = set_open_fds s (set_files f w).
Proof.
  assert (Hid : w = set_open_fds (open_fds w) (set_files (files w) w))
    by now destruct w.
  destruct self as [f pth [|]]; [exists (files w), (open_fds w); exact Hid|].
  unfold close, bind, try_except, not_none, ret, raise, os_close, os_unlink,
    except_OSError; simpl.
  destruct f as [n|]; simpl; [|exists (files w), (open_fds w); exact Hid].
  destruct (decide (n ∈ open_fds w)); simpl;
    (destruct pth as [q|]; simpl;
     [match goal with
      | |- context [files ?x !! q] => destruct (files x !! q)
      end; simpl|]);
    eexists _, _; first [reflexivity|exact Hid].
Qed.

Lemma __exit___only_fs (self : _TempFile) w :
  exists f s, snd (__exit__ self w) = set_open_fds s (set_files f w).
Proof.
  destruct (close_only_fs self w) as (f & s & H). exists f, s.
  unfold __exit__, bind. now destruct (close self w) as [[self'|e] w1].
Qed.

(** [close] gives the descriptor back. *)
Lemma close_fds n q w :
  open_fds (snd (close (mk_TempFile (Some n) (Some q) false) w))
  = open_fds w ∖ {[n]}.
Proof.
  unfold close, bind, try_except, not_none, ret, raise, os_close, os_unlink,
    except_OSError; simpl.
  destruct (decide (n ∈ open_fds w)); simpl;
    (match goal with
     | |- context [files ?x !! q] => destruct (files x !! q)
     end); simpl;
    first [reflexivity
          |symmetry; now apply difference_disjoint_L, disjoint_singleton_r].
Qed.

#[local] Instance same_fds_preorder : PreOrder (@same_fds D).
Proof. split; [intros w; reflexivity|intros w1 w2 w3; unfold same_fds; congruence]. Qed.

#[local] Instance commands_to_preorder h : PreOrder (@commands_to D h).
Proof.
  split.
  - intros w. exists []. split; [now rewrite app_nil_r|constructor].
  - intros w1 w2 w3 (t1 & H1 & F1) (t2 & H2 & F2). exists (t1 ++ t2)%list.
    split; [now rewrite H2, H1, app_assoc|now apply Forall_app].
Qed.

#[local] Instance no_browser_preorder : PreOrder (@no_browser D).
Proof.
  split.
  - intros w. repeat split.
  - intros w1 w2 w3 (?&?&?&?) (?&?&?&?). repeat split; congruence.
Qed.

Lemma commands_to_same h w w' : trace w' = trace w -> commands_to h w w'.
Proof. intros H. exists []. split; [now rewrite app_nil_r|constructor]. Qed.

Lemma svgs_body_fds driver timeout kwargs w :
  same_fds (tmp_html_world ext w)
           (snd (svgs_body ext driver timeout kwargs (tmp_html_file ext w)
                   (tmp_html_world ext w))).
Proof.
  apply (at_svgs_body ext same_fds (picked driver) (tmp_html_path ext w));
    try apply tmp_html_path_canonical; try (intros; reflexivity).
Qed.

Lemma screenshot_body_fds driver timeout kwargs w :
  same_fds (tmp_html_world ext w)
           (snd (screenshot_body ext driver timeout kwargs (tmp_html_file ext w)
                   (tmp_html_world ext w))).
Proof.
  apply (at_screenshot_body ext same_fds (picked driver) (tmp_html_path ext w));
    try apply tmp_html_path_canonical; try (intros; reflexivity).
Qed.

Lemma svgs_body_commands driver timeout kwargs w :
  commands_to (picked driver) (tmp_html_world ext w)
              (snd (svgs_body ext driver timeout kwargs (tmp_html_file ext w)
                      (tmp_html_world ext w))).
Proof.
  apply (at_svgs_body ext (commands_to (picked driver)) (picked driver)
           (tmp_html_path ext w)); try apply tmp_html_path_canonical; try reflexivity;
    try (intros; now apply commands_to_same).
  - intros c d t w0. exists [Called (picked driver) c]. split; [done|].
    now apply Forall_singleton.
  - intros idle ms w0. exists [Slept ms]. split; [done|]. now apply Forall_singleton.
Qed.

Lemma screenshot_body_commands driver timeout kwargs w :
  commands_to (picked driver) (tmp_html_world ext w)
              (snd (screenshot_body ext driver timeout kwargs (tmp_html_file ext w)
                      (tmp_html_world ext w))).
Proof.
  apply (at_screenshot_body ext (commands_to (picked driver)) (picked driver)
           (tmp_html_path ext w)); try apply tmp_html_path_canonical; try reflexivity;
    try (intros; now apply commands_to_same).
  - intros c d t w0. exists [Called (picked driver) c]. split; [done|].
    now apply Forall_singleton.
  - intros idle ms w0. exists [Slept ms]. split; [done|]. now apply Forall_singleton.
Qed.

End CallEffects.

Lemma snd___exit__ {D} (self : _TempFile) (w : World D) :
  snd (__exit__ self w) = snd (close self w).
Proof. unfold __exit__, bind. now destruct (close self w) as [[self'|e] w1]. Qed.

Lemma snd_get_screenshot_as_png {D} (ext : Collaborators D) driver timeout kwargs
      (w : World D) :
  snd (get_screenshot_as_png ext driver timeout kwargs w)
  = snd (with_ (_tmp_html ext) (screenshot_body ext driver timeout kwargs) w).
Proof.
  rewrite get_screenshot_as_png_with. unfold bind.
  now destruct (with_ (_tmp_html ext) (screenshot_body ext driver timeout kwargs) w)
    as [[png|e] w1].
Qed.

Lemma fresh_fd_returned (s : gset nat) : ({[fresh s]} ∪ s) ∖ {[fresh s]} = s.
Proof.
  apply set_eq. intros x. rewrite elem_of_difference, elem_of_union, elem_of_singleton.
  split.
  - intros [[->|H] Hn]; done.
  - intros H. split; [now right|]. intros ->. exact (is_fresh s H).
Qed.

(** X3. A call of [get_svgs] or [get_screenshot_as_png] leaks no file
    descriptor: on every outcome the table of open descriptors is the one
    the call started with, the descriptor [mkstemp] opened having been
    closed by [__exit__]. *)
Theorem no_descriptor_leak {D} (ext : Collaborators D) (driver : option Handle)
        (timeout : Z) (kwargs : gmap string (option Z)) (w : World D) :
  open_fds (snd (get_svgs ext driver timeout kwargs w)) = open_fds w
  /\ open_fds (snd (get_screenshot_as_png ext driver timeout kwargs w)) = open_fds w.
Proof.
  split.
  - rewrite get_svgs_with, with_tmp_html_eq. cbn [snd].
    rewrite snd___exit__. unfold tmp_html_file at 1. rewrite close_fds.
    rewrite (svgs_body_fds ext driver timeout kwargs w), tmp_html_world_eq.
    apply fresh_fd_returned.
  - rewrite snd_get_screenshot_as_png, with_tmp_html_eq. cbn [snd].
    rewrite snd___exit__. unfold tmp_html_file at 1. rewrite close_fds.
    rewrite (screenshot_body_fds ext driver timeout kwargs w), tmp_html_world_eq.
    apply fresh_fd_returned.
Qed.

(** X4. When the name [mkstemp] picks is not yet on disk (what [mkstemp]
    guarantees), the disk after [get_svgs] or [get_screenshot_as_png] is
    exactly the disk before, on every outcome: the calls leave no file
    behind and touch no other file. *)
Theorem disk_unchanged {D} (ext : Collaborators D) (driver : option Handle)
        (timeout : Z) (kwargs : gmap string (option Z)) (w : World D) :
  files w !! tmp_html_path ext w = None ->
  files (snd (get_svgs ext driver timeout kwargs w)) = files w
  /\ files (snd (get_screenshot_as_png ext driver timeout kwargs w)) = files w.
Proof.
  intros Hfresh. split.
  - rewrite get_svgs_files. now apply delete_id.
  - rewrite get_screenshot_as_png_files. now apply delete_id.
Qed.

Lemma disk_unchanged_witness :
  let w := set_files (<["/home/user/notes.txt" := "keep"]> ∅)
                     (Demo.world (Demo.browser 2 3 ["<svg/>"] [])) in
  files w !! tmp_html_path Demo.ext w = None
  /\ files (snd (get_svgs Demo.ext None 5 ∅ w)) = files w.
Proof.
  cbv zeta.
  assert (Hfresh : files (set_files (<["/home/user/notes.txt" := "keep"]> ∅)
                            (Demo.world (Demo.browser 2 3 ["<svg/>"] [])))
                     !! tmp_html_path Demo.ext
                          (set_files (<["/home/user/notes.txt" := "keep"]> ∅)
                             (Demo.world (Demo.browser 2 3 ["<svg/>"] [])))
                   = None) by (vm_compute; reflexivity).
  split; [exact Hfresh|].
  exact (proj1 (disk_unchanged Demo.ext None 5 ∅ _ Hfresh)).
Defined.

(** X5. Every command of a call of [get_svgs] or [get_screenshot_as_png]
    goes to one session: the driver passed in, or the session of
    [webdriver_control] when none is passed.  The trace only grows, and by
    commands to that session and sleeps. *)
Theorem commands_go_to_picked_session {D} (ext : Collaborators D)
        (driver : option Handle) (timeout : Z) (kwargs : gmap string (option Z))
        (w : World D) :
  (exists t, trace (snd (get_svgs ext driver timeout kwargs w)) = (trace w ++ t)%list
             /\ Forall (to_session (picked driver)) t)
  /\ (exists t, trace (snd (get_screenshot_as_png ext driver timeout kwargs w))
                = (trace w ++ t)%list
                /\ Forall (to_session (picked driver)) t).
Proof.
  split.
  - rewrite get_svgs_with, with_tmp_html_eq. cbn [snd].
    destruct (svgs_body_commands ext driver timeout kwargs w) as (t & Ht & Hall).
    destruct (__exit___only_fs (tmp_html_file ext w)
                (snd (svgs_body ext driver timeout kwargs (tmp_html_file ext w)
                        (tmp_html_world ext w)))) as (f & s & ->).
    exists t. split; [exact Ht|exact Hall].
  - rewrite snd_get_screenshot_as_png, with_tmp_html_eq. cbn [snd].
    destruct (screenshot_body_commands ext driver timeout kwargs w) as (t & Ht & Hall).
    destruct (__exit___only_fs (tmp_html_file ext w)
                (snd (screenshot_body ext driver timeout kwargs (tmp_html_file ext w)
                        (tmp_html_world ext w)))) as (f & s & ->).
    exists t. split; [exact Ht|exact Hall].
Qed.

(** ** get_layout_html on any layout *)

Lemma get_layout_html_other {D} (ext : Collaborators D) kwargs (w : World D) kind :
  obj w = NotAPlot kind ->
  get_layout_html ext kwargs w
  = (file_html ext (NotAPlot kind),
     if size_given kwargs
     then set_py_warnings (py_warnings w ++ [non_plot_msg]) w
     else w).
Proof.
  intros Ho. unfold get_layout_html, begin_resize, size_given, bind, try_finally.
  destruct (is_not_none (kwargs_get kwargs "height")
            || is_not_none (kwargs_get kwargs "width")); simpl; rewrite Ho; simpl;
    rewrite ?Ho; now destruct (file_html ext (NotAPlot kind)).
Qed.

Lemma get_layout_html_result {D} (ext : Collaborators D) kwargs (w : World D) :
  fst (get_layout_html ext kwargs w) = file_html ext (rendered kwargs (obj w)).
Proof.
  destruct (obj w) as [p|kind] eqn:Ho.
  - now rewrite (get_layout_html_plot ext kwargs w p Ho).
  - now rewrite (get_layout_html_other ext kwargs w kind Ho).
Qed.

Lemma get_layout_html_no_browser {D} (ext : Collaborators D) kwargs (w : World D) :
  no_browser w (snd (get_layout_html ext kwargs w)) /\ obj (snd (get_layout_html ext kwargs w)) = obj w.
Proof.
  split; [|apply get_layout_html_obj].
  destruct (obj w) as [p|kind] eqn:Ho.
  - rewrite (get_layout_html_plot ext kwargs w p Ho). repeat split.
  - rewrite (get_layout_html_other ext kwargs w kind Ho).
    destruct (size_given kwargs); repeat split.
Qed.

(** X6. On a layout that is not a Plot, [get_layout_html] never touches
    the object: [file_html] is given the layout as it is, the only effect
    is one warning, issued exactly when a height or a width was asked for,
    and the size values are ignored. *)
Theorem non_plot_size_ignored {D} (ext : Collaborators D)
        (kwargs : gmap string (option Z)) (w : World D) (kind : string) :
  obj w = NotAPlot kind ->
  fst (get_layout_html ext kwargs w) = file_html ext (NotAPlot kind)
  /\ obj (snd (get_layout_html ext kwargs w)) = NotAPlot kind
  /\ py_warnings (snd (get_layout_html ext kwargs w))
     = (if size_given kwargs then py_warnings w ++ [non_plot_msg] else py_warnings w)%list.
Proof.
  intros Ho. rewrite (get_layout_html_other ext kwargs w kind Ho). cbn [fst snd].
  destruct (size_given kwargs); simpl; repeat split; exact Ho.
Qed.

Lemma non_plot_size_ignored_witness :
  let w := set_obj (NotAPlot "Row") (Demo.world (Demo.browser 0 0 [] [])) in
  obj w = NotAPlot "Row"
  /\ py_warnings (snd (get_layout_html Demo.ext (size_kwargs (Some 300) None) w))
     = [non_plot_msg]
  /\ py_warnings (snd (get_layout_html Demo.ext (size_kwargs None None) w)) = [].
Proof.
  cbv zeta. split; [reflexivity|].
  split.
  - destruct (non_plot_size_ignored Demo.ext (size_kwargs (Some 300) None)
                (set_obj (NotAPlot "Row") (Demo.world (Demo.browser 0 0 [] [])))
                "Row" eq_refl) as (_ & _ & Hw).
    rewrite Hw. reflexivity.
  - destruct (non_plot_size_ignored Demo.ext (size_kwargs None None)
                (set_obj (NotAPlot "Row") (Demo.world (Demo.browser 0 0 [] [])))
                "Row" eq_refl) as (_ & _ & Hw).
    rewrite Hw. reflexivity.
Defined.

(** X7. A size given for one dimension only.  Through [export_png] and
    [export_svgs] the keyword dictionary always holds both keys, so with a
    height and no width the plot is rendered with [plot_width] set to
    [None]: [kwargs.get('width', old_width)] finds the key and returns its
    [None].  Called with the height key alone, [get_layout_html] keeps the
    old width.  (Both are undone after rendering.) *)
Theorem one_sided_resize {D} (ext : Collaborators D) (w : World D) (p : Plot)
        (h : Z) :
  obj w = APlot p ->
  fst (get_layout_html ext (size_kwargs (Some h) None) w)
  = file_html ext (APlot (mkPlot (Some h) None (plot_attrs p)))
  /\ fst (get_layout_html ext {[ "height" := Some h ]} w)
     = file_html ext (APlot (mkPlot (Some h) (plot_width p) (plot_attrs p))).
Proof.
  intros Ho. rewrite !(get_layout_html_plot ext _ w p Ho). cbn [fst].
  split; reflexivity.
Qed.

Lemma one_sided_resize_witness :
  let w := Demo.world (Demo.browser 0 0 [] []) in
  obj w = APlot Demo.a_plot
  /\ size_during (size_kwargs (Some 300) None) Demo.a_plot = mkPlot (Some 300) None ∅
  /\ fst (get_layout_html Demo.ext (size_kwargs (Some 300) None) w)
     = Ok "<html>plot</html>".
Proof.
  cbv zeta. split; [reflexivity|]. split; [reflexivity|].
  rewrite (proj1 (one_sided_resize Demo.ext (Demo.world (Demo.browser 0 0 [] []))
                    Demo.a_plot 300 eq_refl)).
  reflexivity.
Defined.

(** ** When the HTML cannot be generated *)

(** X8. When [file_html] raises, [get_svgs] and [get_screenshot_as_png]
    raise the same exception and the browser is never contacted: no
    command is sent to any session and no time is spent waiting. *)
Theorem html_failure_skips_browser {D} (ext : Collaborators D)
        (driver : option Handle) (timeout : Z) (kwargs : gmap string (option Z))
        (w : World D) (e : exn) :
  file_html ext (rendered kwargs (obj w)) = Raise e ->
  (fst (get_svgs ext driver timeout kwargs w) = Raise e
   /\ no_browser w (snd (get_svgs ext driver timeout kwargs w)))
  /\ (fst (get_screenshot_as_png ext driver timeout kwargs w) = Raise e
      /\ no_browser w (snd (get_screenshot_as_png ext driver timeout kwargs w))).
Proof.
  intros Hhtml.
  assert (Hobj : obj (tmp_html_world ext w) = obj w) by reflexivity.
  pose proof (get_layout_html_result ext kwargs (tmp_html_world ext w)) as Hr.
  rewrite Hobj, Hhtml in Hr.
  destruct (get_layout_html_no_browser ext kwargs (tmp_html_world ext w)) as [Hnb _].
  destruct (get_layout_html ext kwargs (tmp_html_world ext w)) as [r w1] eqn:E.
  simpl in Hr, Hnb. subst r.
  assert (Hw1 : no_browser w w1).
  { destruct Hnb as (?&?&?&?). repeat split; assumption. }
  split.
  - rewrite get_svgs_with, with_tmp_html_eq. unfold svgs_body.
    rewrite (bind_raise _ _ _ _ _ E). cbn [fst snd]. split; [reflexivity|].
    destruct (__exit___only_fs (tmp_html_file ext w) w1) as (f & s & ->).
    exact Hw1.
  - rewrite snd_get_screenshot_as_png, get_screenshot_as_png_with.
    unfold bind at 1. rewrite with_tmp_html_eq. unfold screenshot_body.
    rewrite (bind_raise _ _ _ _ _ E). cbn [fst snd]. split; [reflexivity|].
    destruct (__exit___only_fs (tmp_html_file ext w) w1) as (f & s & ->).
    exact Hw1.
Qed.

Lemma html_failure_skips_browser_witness :
  let w := Demo.world (Demo.browser 2 3 ["<svg/>"] []) in
  fst (get_svgs DemoFailing.ext None 5 ∅ w) = Raise (OtherError "cannot render")
  /\ trace (snd (get_svgs DemoFailing.ext None 5 ∅ w)) = [].
Proof.
  cbv zeta.
  destruct (html_failure_skips_browser DemoFailing.ext None 5 ∅
              (Demo.world (Demo.browser 2 3 ["<svg/>"] []))
              (OtherError "cannot render") eq_refl) as [[Hr (Ht & _)] _].
  split; [exact Hr|exact Ht].
Defined.

(** ** export_png: what reaches the disk *)

(** [image.save] step by step: no format, no open; no open, no write; and
    once the file is open it holds what the encoder wrote, unless the
    encoder failed on a file the save had created and the library removed
    it again. *)
Lemma image_save_eq {D} (ext : Collaborators D) (image : Image) (filename : string)
      (w : World D) :
  image_save ext image filename w
  = match image_format ext filename with
    | Raise e => (Raise e, w)
    | Ok format =>
        match lookup_w ext filename with
        | Raise e => (Raise e, w)
        | Ok key =>
            match snd (image_encode ext image format) with
            | Some e =>
                (Raise e,
                 if image_save_cleans_up ext
                    && negb (bool_decide (is_Some (files w !! key)))
                 then w
                 else set_files (<[key := fst (image_encode ext image format)]>
                                   (files w)) w)
            | None =>
                (Ok tt,
                 set_files (<[key := fst (image_encode ext image format)]> (files w)) w)
            end
        end
    end.
Proof.
  unfold image_save, bind, os_path_exists, io_open_w, file_write.
  destruct (image_format ext filename) as [format|e]; [|reflexivity].
  destruct (lookup_w ext filename) as [key|e]; [|reflexivity].
  cbn [fst snd]. unfold set_files at 1 2; cbn [files]. rewrite insert_insert_eq.
  destruct (snd (image_encode ext image format)) as [e|]; [|reflexivity].
  destruct (image_save_cleans_up ext); cbn [andb]; [|reflexivity].
  destruct (bool_decide_reflect (is_Some (files w !! key))) as [Hsome|Hnone];
    cbn [negb]; [reflexivity|].
  unfold os_unlink, set_files; cbn [files]. rewrite lookup_insert_eq. cbn [fst snd].
  f_equal. rewrite delete_insert_eq, delete_id; [now destruct w|].
  now apply eq_None_not_Some.
Qed.

(** X9. When [export_png] returns, the screenshot had a non-zero width and
    height, the file name has a known image format and could be opened, the
    encoder of that format did not fail, and the disk is the disk from
    before the call (less the temporary file) with exactly one file added or
    replaced: the file the name given (or the default name) denotes, holding
    the encoded image. *)
Theorem export_png_writes_one_file {D} (ext : Collaborators D)
        (filename : option string) (height width : option Z)
        (webdriver : option Handle) (timeout : Z) (w : World D) (p : string) :
  fst (export_png ext filename height width webdriver timeout w) = Ok p ->
  exists image format key data,
    fst (get_screenshot_as_png ext webdriver timeout (size_kwargs height width) w)
    = Ok image
    /\ img_width image <> 0 /\ img_height image <> 0
    /\ image_format ext (used_filename ext filename "png") = Ok format
    /\ denotes ext (used_filename ext filename "png") key
    /\ image_encode ext image format = (data, None)
    /\ files (snd (export_png ext filename height width webdriver timeout w))
       = <[key := data]> (delete (tmp_html_path ext w) (files w)).
Proof.
  pose proof (get_screenshot_as_png_files ext webdriver timeout
                (size_kwargs height width) w) as Hf.
  unfold export_png, bind.
  destruct (get_screenshot_as_png ext webdriver timeout (size_kwargs height width) w)
    as [[image|e] w1]; [|discriminate].
  fold (used_filename ext filename "png"). cbn [snd] in Hf.
  destruct (Z.eqb_spec (img_width image) 0) as [|Hw]; [discriminate|].
  destruct (Z.eqb_spec (img_height image) 0) as [|Hh]; [discriminate|].
  cbn [orb]. rewrite image_save_eq.
  destruct (image_format ext (used_filename ext filename "png")) as [format|e]
    eqn:Hformat; [|discriminate].
  destruct (lookup_w ext (used_filename ext filename "png")) as [key|e]
    eqn:Hkey; [|discriminate].
  destruct (image_encode ext image format) as [data [e|]] eqn:Henc;
    cbn [fst snd]; [discriminate|].
  intros _. exists image, format, key, data.
  split; [reflexivity|]. split; [exact Hw|]. split; [exact Hh|].
  split; [reflexivity|]. split; [exact Hkey|]. split; [exact Henc|].
  cbn [files set_files]. now rewrite Hf.
Qed.

Lemma export_png_writes_one_file_witness :
  let w := Demo.world (Demo.browser 1 1 [] [Byte.x00]) in
  fst (export_png Demo.ext (Some "out.png") None None None 5 w)
  = Ok "/home/user/out.png"
  /\ files (snd (export_png Demo.ext (Some "out.png") None None None 5 w))
     = {[ "/home/user/out.png" := "PNG" ]}.
Proof.
  cbv zeta.
  assert (Hr : fst (export_png Demo.ext (Some "out.png") None None None 5
                      (Demo.world (Demo.browser 1 1 [] [Byte.x00])))
               = Ok "/home/user/out.png") by (vm_compute; reflexivity).
  split; [exact Hr|].
  destruct (export_png_writes_one_file Demo.ext (Some "out.png") None None None 5
              _ _ Hr) as (image & format & key & data & _ & _ & _ & Hformat & Hkey & Henc & Hf).
  rewrite Hf. vm_compute in Hformat. injection Hformat as <-.
  vm_compute in Hkey. injection Hkey as <-.
  vm_compute in Henc. injection Henc as <-. vm_compute. reflexivity.
Defined.

(** X10. When [export_png] raises, it has touched no file but, at most, the
    output file.  Either the disk is the disk from before the call, less
    the temporary file (the screenshot failed, the image was empty, the file
    name has no known image format, the file could not be opened, or the
    library removed the file it had created); or the exception is the
    encoder's, raised after the file was opened, and the one file that
    differs is the file the name denotes, which holds what the encoder had
    written: the file has been created, or what it held has been lost. *)
Theorem export_png_failure_spares_other_files {D} (ext : Collaborators D)
        (filename : option string) (height width : option Z)
        (webdriver : option Handle) (timeout : Z) (w : World D) (e : exn) :
  fst (export_png ext filename height width webdriver timeout w) = Raise e ->
  files (snd (export_png ext filename height width webdriver timeout w))
  = delete (tmp_html_path ext w) (files w)
  \/ exists image format key,
       fst (get_screenshot_as_png ext webdriver timeout (size_kwargs height width) w)
       = Ok image
       /\ image_format ext (used_filename ext filename "png") = Ok format
       /\ denotes ext (used_filename ext filename "png") key
       /\ snd (image_encode ext image format) = Some e
       /\ files (snd (export_png ext filename height width webdriver timeout w))
          = <[key := fst (image_encode ext image format)]>
              (delete (tmp_html_path ext w) (files w)).
Proof.
  pose proof (get_screenshot_as_png_files ext webdriver timeout
                (size_kwargs height width) w) as Hf.
  unfold export_png, bind.
  destruct (get_screenshot_as_png ext webdriver timeout (size_kwargs height width) w)
    as [[image|e'] w1]; cbn [snd] in Hf; [|intros _; left; exact Hf].
  fold (used_filename ext filename "png").
  destruct ((img_width image =? 0) || (img_height image =? 0));
    [intros _; left; exact Hf|].
  rewrite image_save_eq.
  destruct (image_format ext (used_filename ext filename "png")) as [format|e']
    eqn:Hformat; [|intros _; left; exact Hf].
  destruct (lookup_w ext (used_filename ext filename "png")) as [key|e']
    eqn:Hkey; [|intros _; left; exact Hf].
  destruct (snd (image_encode ext image format)) as [e'|] eqn:Henc;
    cbn [fst snd]; [|discriminate].
  intros [= <-].
  destruct (image_save_cleans_up ext && negb (bool_decide (is_Some (files w1 !! key))));
    [left; exact Hf|].
  right. exists image, format, key.
  split; [reflexivity|]. split; [reflexivity|]. split; [exact Hkey|].
  split; [exact Henc|]. cbn [files set_files]. now rewrite Hf.
Qed.

Lemma export_png_failure_spares_other_files_witness :
  let w := set_files {[ "/home/user/out.jpg" := "an older picture";
                        "/home/user/notes.txt" := "keep" ]}
                     (Demo.world (Demo.browser 1 1 [] [Byte.x00])) in
  let out := export_png Demo.ext (Some "out.jpg") None None None 5 w in
  fst out = Raise (OSError "cannot write mode RGBA as JPEG")
  /\ files (snd out)
     = {[ "/home/user/out.jpg" := EmptyString; "/home/user/notes.txt" := "keep" ]}.
Proof.
  cbv zeta.
  assert (Hr : fst (export_png Demo.ext (Some "out.jpg") None None None 5
                      (set_files {[ "/home/user/out.jpg" := "an older picture";
                                    "/home/user/notes.txt" := "keep" ]}
                         (Demo.world (Demo.browser 1 1 [] [Byte.x00]))))
               = Raise (OSError "cannot write mode RGBA as JPEG"))
    by (vm_compute; reflexivity).
  split; [exact Hr|].
  destruct (export_png_failure_spares_other_files Demo.ext (Some "out.jpg")
              None None None 5 _ _ Hr)
    as [Hf|(image & format & key & _ & Hformat & Hkey & _ & Hf)].
  - assert (Hempty : files (snd (export_png Demo.ext (Some "out.jpg") None None None 5
                        (set_files {[ "/home/user/out.jpg" := "an older picture";
                                      "/home/user/notes.txt" := "keep" ]}
                           (Demo.world (Demo.browser 1 1 [] [Byte.x00])))))
                       !! "/home/user/out.jpg" = Some EmptyString)
      by (vm_compute; reflexivity).
    rewrite Hf in Hempty. vm_compute in Hempty. discriminate.
  - rewrite Hf. vm_compute in Hformat. injection Hformat as <-.
    vm_compute in Hkey. injection Hkey as <-. vm_compute. reflexivity.
Defined.

(** ** Failures of the driver while waiting *)

(** X11. When a poll of the "loaded" condition fails with anything but a
    timeout, the failure leaves [wait_until_render_complete] as it is and
    at once: the console is not read, nothing is logged, and the failed
    poll is the last command sent. *)
Theorem load_poll_failure_propagates {D} (ext : Collaborators D) (h : Handle)
        (timeout : Z) (w : World D) (e : exn) :
  fst (wait_for ext h timeout (is_bokeh_loaded ext) w) = Raise e ->
  e <> TimeoutException ->
  fst (wait_until_render_complete ext h timeout w) = Raise e
  /\ log (snd (wait_until_render_complete ext h timeout w)) = log w
  /\ exists k,
       trace (snd (wait_until_render_complete ext h timeout w))
       = (trace w ++ polls h _IS_LOADED_SCRIPT poll_frequency k true)%list.
Proof.
  intros Hload Hne. rewrite (wait_load_failed ext h timeout w e Hload Hne).
  cbn [fst snd]. split; [reflexivity|]. split.
  - now destruct (wait_for_browser_only ext h timeout _IS_LOADED_SCRIPT w)
      as (_ & _ & Hl & _).
  - destruct (wait_for_trace ext h timeout _IS_LOADED_SCRIPT w)
      as (k & a & _ & Ht & _ & Hno).
    fold (is_bokeh_loaded ext) in Ht, Hno. exists k.
    destruct a; [exact Ht|].
    destruct (Hno eq_refl) as [Hr _]. rewrite Hload in Hr. congruence.
Qed.

Lemma load_poll_failure_propagates_witness :
  let ext := DemoFailing.ext_failing_on _IS_LOADED_SCRIPT in
  let w := Demo.world (Demo.browser 2 3 [] []) in
  fst (wait_until_render_complete ext Supplied 5 w)
  = Raise (WebDriverException "session lost")
  /\ log (snd (wait_until_render_complete ext Supplied 5 w)) = [].
Proof.
  cbv zeta.
  destruct (load_poll_failure_propagates (DemoFailing.ext_failing_on _IS_LOADED_SCRIPT)
              Supplied 5 (Demo.world (Demo.browser 2 3 [] []))
              (WebDriverException "session lost"))
    as (Hr & Hl & _); [vm_compute; reflexivity|discriminate|].
  split; [exact Hr|exact Hl].
Defined.

(** X12. When a poll of the "render complete" condition fails with
    anything but a timeout, the console is read all the same (the
    [finally]) and its report logged, and then the failure of the poll is
    what [wait_until_render_complete] raises; no timeout warning is
    logged. *)
Theorem render_poll_failure_logs_console {D} (ext : Collaborators D) (h : Handle)
        (timeout : Z) (w : World D) (v v' : JsVal) (e : exn)
        (logs : list (gmap string string)) :
  fst (wait_for ext h timeout (is_bokeh_loaded ext) w) = Ok v ->
  fst (execute_script ext h _WAIT_SCRIPT (after_load ext h timeout w)) = Ok v' ->
  fst (wait_for ext h timeout (is_bokeh_render_complete ext)
         (after_wait_script ext h timeout w)) = Raise e ->
  e <> TimeoutException ->
  fst (drv_get_log ext "browser" (session h (after_render ext h timeout w))) = Ok logs ->
  fst (wait_until_render_complete ext h timeout w) = Raise e
  /\ log (snd (wait_until_render_complete ext h timeout w))
     = (log w ++ console_report logs)%list.
Proof.
  intros Hload Hscript Hrender Hne Hlogs.
  rewrite (wait_after_script ext h timeout w v v' Hload Hscript).
  rewrite render_phase_eq. cbv zeta. rewrite Hrender.
  fold (after_render ext h timeout w).
  assert (Hlog : log (after_render ext h timeout w) = log w).
  { pose proof (wait_for_browser_only ext h timeout _IS_RENDER_COMPLETE_SCRIPT
                  (after_wait_script ext h timeout w)) as (_ & _ & H3 & _).
    pose proof (keeps_execute_script ext browser_only
                  ltac:(intros; repeat split) h _WAIT_SCRIPT
                  (after_load ext h timeout w)) as (_ & _ & H2 & _).
    pose proof (wait_for_browser_only ext h timeout _IS_LOADED_SCRIPT w)
      as (_ & _ & H1 & _).
    unfold after_render, after_wait_script, after_load, is_bokeh_loaded,
      is_bokeh_render_complete in *. congruence. }
  destruct e; try congruence;
    rewrite (_log_console_ok ext h _ logs Hlogs); cbn [fst snd];
    (split; [reflexivity|]); simpl; now rewrite Hlog.
Qed.

Lemma render_poll_failure_logs_console_witness :
  let ext := DemoFailing.ext_failing_on _IS_RENDER_COMPLETE_SCRIPT in
  let w := Demo.world (Demo.browser 2 3 [] []) in
  fst (wait_until_render_complete ext Supplied 5 w)
  = Raise (WebDriverException "session lost")
  /\ log (snd (wait_until_render_complete ext Supplied 5 w))
     = [console_header; "boom"; "careful"].
Proof.
  cbv zeta.
  destruct (render_poll_failure_logs_console
              (DemoFailing.ext_failing_on _IS_RENDER_COMPLETE_SCRIPT)
              Supplied 5 (Demo.world (Demo.browser 2 3 [] []))
              (JBool true) JNull (WebDriverException "session lost")
              (Demo.console (Demo.browser 0 0 [] [])))
    as (Hr & Hl); try (vm_compute; reflexivity); [discriminate|].
  split; [exact Hr|]. rewrite Hl. vm_compute. reflexivity.
Defined.

(** ** _log_console *)

(** X13. When no entry of the browser console has level WARNING, ERROR or
    SEVERE (an empty console, entries of other levels, entries without a
    level), [_log_console] logs nothing at all, not even its header. *)
Theorem quiet_console_logs_nothing {D} (ext : Collaborators D) (h : Handle)
        (w : World D) (logs : list (gmap string string)) :
  fst (drv_get_log ext "browser" (session h w)) = Ok logs ->
  (forall entry, entry ∈ logs -> ~ severe entry) ->
  fst (_log_console ext h w) = Ok tt
  /\ log (snd (_log_console ext h w)) = log w.
Proof.
  intros Hlogs Hquiet. rewrite (_log_console_ok ext h w logs Hlogs). cbn [fst snd].
  split; [reflexivity|]. simpl.
  assert (Hnone : console_report logs = []).
  { unfold console_report.
    destruct (console_messages logs) as [|m ms] eqn:E; [reflexivity|].
    assert (Hm : m ∈ console_messages logs) by (rewrite E; apply elem_of_cons; now left).
    apply console_messages_elem in Hm as (entry & Hin & Hsev & _).
    now destruct (Hquiet entry Hin). }
  rewrite Hnone. apply app_nil_r.
Qed.

Lemma quiet_console_logs_nothing_witness :
  let b := Demo.mkBrowser 0 0 [Demo.entry "INFO" "hello"; {[ "message" := "no level" ]}]
                          false [] [] in
  log (snd (_log_console Demo.ext Supplied (Demo.world b))) = [].
Proof.
  cbv zeta.
  refine (proj2 (quiet_console_logs_nothing Demo.ext Supplied
                   (Demo.world
                      (Demo.mkBrowser 0 0
                         [Demo.entry "INFO" "hello"; {[ "message" := "no level" ]}]
                         false [] []))
                   [Demo.entry "INFO" "hello"; {[ "message" := "no level" ]}]
                   eq_refl _)).
  intros entry Hin (l & Hl & Hsev).
  apply elem_of_cons in Hin as [->|Hin].
  - vm_compute in Hl. injection Hl as <-.
    destruct Hsev as [H|[H|H]]; discriminate.
  - apply list_elem_of_singleton in Hin as ->. vm_compute in Hl. discriminate.
Defined.

(** ** export_svgs: any file name *)

Section AnyName.
#[local] Arguments String.append : simpl nomatch.

Lemma find_missing (sub s : string) : ~ contains sub s -> PyStr.find s sub = -1.
Proof.
  intros Hno. unfold PyStr.find.
  destruct (PyStr.find_from 0 sub s) as [n|] eqn:E; [|reflexivity].
  destruct (find_from_Some _ _ _ _ E) as (a & b & [Hs _] & _).
  destruct Hno. now exists a, b.
Qed.

Lemma next_filename_missing (i : nat) (filename : string) :
  (1 <= i)%nat -> ~ contains ".svg" filename ->
  next_filename i filename
  = PyStr.take (String.length filename - 1) filename
      +:+ ("_" +:+ PyStr.format_int i)
      +:+ PyStr.drop (String.length filename - 1) filename.
Proof.
  intros Hi Hno. unfold next_filename. destruct (Nat.eqb_spec i 0); [lia|].
  rewrite (find_missing _ _ Hno). unfold PyStr.slice_to, PyStr.slice_from.
  assert (Hclip : PyStr.clip filename (-1) = (String.length filename - 1)%nat).
  { unfold PyStr.clip. change (-1 <? 0) with true. cbv iota. lia. }
  now rewrite Hclip.
Qed.

End AnyName.

(** X15. A file name without ".svg" (of ASCII characters, where a
    character of the name is one character of the model): the search for
    ".svg" answers -1 and the slices are taken at -1, so whenever
    [export_svgs] returns, the first name is the file name and the index of
    the second file has been put before the last character of the name
    ("plot" gives "plo_1t"). *)
Theorem index_before_last_character {D} (ext : Collaborators D) (filename : string)
        (height width : option Z) (webdriver : option Handle) (timeout : Z)
        (w : World D) (svgs names : list string) :
  fst (get_svgs ext webdriver timeout (size_kwargs height width) w)
  = Ok (JArr (map JStr svgs)) ->
  (2 <= length svgs)%nat ->
  ~ contains ".svg" filename ->
  is_ascii filename ->
  fst (export_svgs ext (Some filename) height width webdriver timeout w)
  = Ok (Some names) ->
  names !! 0%nat = Some filename
  /\ names !! 1%nat
     = Some (PyStr.take (String.length filename - 1) filename
               +:+ "_1" +:+ PyStr.drop (String.length filename - 1) filename).
Proof.
  intros Hsvgs Hlen Hno _ Hret.
  destruct (export_svgs_returned ext (Some filename) height width webdriver timeout
              w svgs names Hsvgs Hret) as [-> _].
  destruct svgs as [|s1 [|s2 svgs]]; simpl in Hlen; try lia.
  split; [reflexivity|]. simpl.
  change (next_filename 0 filename) with filename.
  now rewrite (next_filename_missing 1 filename ltac:(lia) Hno).
Qed.

Lemma index_before_last_character_witness :
  let w := Demo.world (Demo.browser 1 1 ["<svg>a</svg>"; "<svg>b</svg>"] []) in
  fst (export_svgs Demo.ext (Some "plot") None None None 5 w)
  = Ok (Some ["plot"; "plo_1t"])
  /\ ["plot"; "plo_1t"] !! 1%nat = Some "plo_1t".
Proof.
  cbv zeta.
  assert (Hr : fst (export_svgs Demo.ext (Some "plot") None None None 5
                      (Demo.world (Demo.browser 1 1 ["<svg>a</svg>"; "<svg>b</svg>"] [])))
               = Ok (Some ["plot"; "plo_1t"])) by (vm_compute; reflexivity).
  split; [exact Hr|].
  destruct (index_before_last_character Demo.ext "plot" None None None 5
              (Demo.world (Demo.browser 1 1 ["<svg>a</svg>"; "<svg>b</svg>"] []))
              ["<svg>a</svg>"; "<svg>b</svg>"] ["plot"; "plo_1t"])
    as [_ H1].
  - vm_compute. reflexivity.
  - simpl. lia.
  - intros (a & b & Hs).
    destruct (PyStr.find_from 0 ".svg" "plot") eqn:E; [discriminate E|].
    exact (find_from_None _ _ _ E a b Hs).
  - unfold is_ascii. simpl.
    repeat (constructor; [apply Nat.ltb_lt; vm_compute; reflexivity|]). constructor.
  - exact Hr.
  - rewrite H1. reflexivity.
Defined.

(** X16. Whatever the file name (given or default, with or without
    ".svg"), when [export_svgs] returns it returns as many names as there
    are SVGs, pairwise distinct as strings, the first being the file name
    itself; each SVG has been written to the file its name denotes, in
    order, so a file holds the SVG of the last name that denotes it (two
    names can denote one file, and then the later SVG has replaced the
    earlier one); no other file is touched. *)
Theorem export_svgs_last_write_wins {D} (ext : Collaborators D)
        (filename : option string) (height width : option Z)
        (webdriver : option Handle) (timeout : Z) (w : World D)
        (svgs names keys : list string) :
  fst (get_svgs ext webdriver timeout (size_kwargs height width) w)
  = Ok (JArr (map JStr svgs)) ->
  fst (export_svgs ext filename height width webdriver timeout w) = Ok (Some names) ->
  Forall2 (denotes ext) names keys ->
  length names = length svgs
  /\ NoDup names
  /\ names !! 0%nat = Some (used_filename ext filename "svg")
  /\ (forall k key svg,
        keys !! k = Some key -> svgs !! k = Some svg ->
        (forall j, (k < j)%nat -> keys !! j <> Some key) ->
        files (snd (export_svgs ext filename height width webdriver timeout w))
          !! key = Some svg)
  /\ (forall q, q ∉ keys ->
        files (snd (export_svgs ext filename height width webdriver timeout w)) !! q
        = files (snd (get_svgs ext webdriver timeout (size_kwargs height width) w))
            !! q).
Proof.
  intros Hsvgs Hret Hkeys.
  destruct (export_svgs_returned ext filename height width webdriver timeout
              w svgs names Hsvgs Hret) as [-> _].
  assert (Hne : svgs <> []).
  { intros ->. revert Hret. unfold export_svgs. unfold bind at 1.
    destruct (get_svgs ext webdriver timeout (size_kwargs height width) w) as [r w1].
    simpl in Hsvgs. subst r. discriminate. }
  rewrite (export_svgs_strings ext filename height width webdriver timeout w
             svgs keys Hsvgs Hne Hkeys). cbn [fst snd files set_files].
  split; [apply length_svg_names|]. split; [apply NoDup_svg_names|]. split; [|split].
  - destruct svgs; [done|reflexivity].
  - intros k key svg Hk Hs Hlast. now apply (write_all_last keys svgs _ k).
  - intros q Hq. now apply write_all_other.
Qed.

Lemma export_svgs_last_write_wins_witness :
  let w := Demo.world (Demo.browser 1 1 ["<svg>a</svg>"; "<svg>b</svg>"] []) in
  let out := export_svgs Demo.ext (Some "a.svg/../plot.svg") None None None 5 w in
  fst out = Ok (Some ["a.svg/../plot.svg"; "a_1.svg/../plot.svg"])
  /\ files (snd out) !! "/home/user/plot.svg" = Some "<svg>b</svg>".
Proof.
  cbv zeta.
  assert (Hr : fst (export_svgs Demo.ext (Some "a.svg/../plot.svg") None None None 5
                      (Demo.world (Demo.browser 1 1 ["<svg>a</svg>"; "<svg>b</svg>"] [])))
               = Ok (Some ["a.svg/../plot.svg"; "a_1.svg/../plot.svg"]))
    by (vm_compute; reflexivity).
  split; [exact Hr|].
  assert (Hkeys : Forall2 (denotes Demo.ext)
                    ["a.svg/../plot.svg"; "a_1.svg/../plot.svg"]
                    ["/home/user/plot.svg"; "/home/user/plot.svg"]).
  { repeat (constructor; [vm_compute; reflexivity|]). constructor. }
  destruct (export_svgs_last_write_wins Demo.ext (Some "a.svg/../plot.svg")
              None None None 5
              (Demo.world (Demo.browser 1 1 ["<svg>a</svg>"; "<svg>b</svg>"] []))
              ["<svg>a</svg>"; "<svg>b</svg>"]
              ["a.svg/../plot.svg"; "a_1.svg/../plot.svg"]
              ["/home/user/plot.svg"; "/home/user/plot.svg"])
    as (_ & _ & _ & Hlast & _).
  - vm_compute. reflexivity.
  - exact Hr.
  - exact Hkeys.
  - apply (Hlast 1%nat "/home/user/plot.svg" "<svg>b</svg>"); try reflexivity.
    intros [|[|j]] Hj; [lia|lia|discriminate].
Defined.

(** ** The first command of a call *)

Section FirstCommand.
Context {D : Type} (ext : Collaborators D).
Implicit Types w : World D.
#[local] Existing Instance commands_to_preorder.

Lemma commands_to_call h c d t w : commands_to h w (after_call h c d t w).
Proof. exists [Called h c]. split; [done|]. now apply Forall_singleton. Qed.

Lemma commands_to_sleep h (idle : D -> D) ms w : commands_to h w (after_sleep idle ms w).
Proof. exists [Slept ms]. split; [done|]. now apply Forall_singleton. Qed.

Lemma commands_to_wait h timeout :
  keeps (commands_to h) (wait_until_render_complete ext h timeout).
Proof.
  apply (at_wait_until_render_complete ext (commands_to h) h);
    first [apply commands_to_call|apply commands_to_sleep
          |intros; now apply commands_to_same].
Qed.

Lemma commands_to__maximize_viewport h :
  keeps (commands_to h) (_maximize_viewport ext h).
Proof.
  apply (at__maximize_viewport ext (commands_to h) h). apply commands_to_call.
Qed.

(** A command followed by more commands to the same session: it is the
    first new event of the trace. *)
Lemma first_call {A B} h c (method : World D -> D -> Result A * D)
      (k : A -> M D B) w :
  (forall a, keeps (commands_to h) (k a)) ->
  exists t, trace (snd ((x <- call ext h c method;; k x) w))
            = (trace w ++ Called h c :: t)%list.
Proof.
  intros Hk. unfold bind, call.
  destruct (method w (session h w)) as [[a|e] d].
  - destruct (Hk a (after_call h c d (drv_duration ext d) w)) as (t & Ht & _).
    exists t. rewrite Ht. simpl. now rewrite <- app_assoc.
  - exists []. reflexivity.
Qed.

(** The body of a [with] block once the HTML is there: the file is written
    and the driver picked, with no command sent yet. *)
Lemma body_after_html {A} (rest : string -> Handle -> M D A) driver kwargs w html :
  file_html ext (rendered kwargs (obj w)) = Ok html ->
  exists w2,
    trace w2 = trace w
    /\ (h <- get_layout_html ext kwargs;;
        q <- not_none (path (tmp_html_file ext w));;
        write_text ext q h;;;
        web_driver <- pick_driver driver;;
        rest q web_driver) (tmp_html_world ext w)
       = rest (tmp_html_path ext w) (picked driver) w2.
Proof.
  intros Hhtml.
  pose proof (get_layout_html_result ext kwargs (tmp_html_world ext w)) as Hr.
  change (obj (tmp_html_world ext w)) with (obj w) in Hr. rewrite Hhtml in Hr.
  destruct (get_layout_html_no_browser ext kwargs (tmp_html_world ext w))
    as [(Ht & _) _].
  destruct (get_layout_html ext kwargs (tmp_html_world ext w)) as [r w1] eqn:E.
  simpl in Hr, Ht. subst r.
  exists (set_files (<[tmp_html_path ext w := html]> (files w1)) w1).
  split; [exact Ht|].
  rewrite (bind_ok _ _ _ _ _ E). simpl path. unfold not_none. rewrite bind_ret.
  unfold bind at 1.
  rewrite (write_text_canonical ext _ html w1 (tmp_html_path_canonical ext w)).
  now destruct driver.
Qed.

End FirstCommand.

(** X17. When the HTML is generated, the first thing [get_svgs] asks of the
    browser is to open ["file:///"] followed by the path of the temporary
    file, and the first thing [get_screenshot_as_png] asks is to maximize
    the window; both go to the picked session, and nothing is sent before
    the HTML has been written. *)
Theorem first_command_of_a_call {D} (ext : Collaborators D)
        (driver : option Handle) (timeout : Z) (kwargs : gmap string (option Z))
        (w : World D) (html : string) :
  file_html ext (rendered kwargs (obj w)) = Ok html ->
  (exists t, trace (snd (get_svgs ext driver timeout kwargs w))
             = (trace w
                  ++ Called (picked driver) (Get ("file:///" +:+ tmp_html_path ext w))
                  :: t)%list)
  /\ (exists t, trace (snd (get_screenshot_as_png ext driver timeout kwargs w))
                = (trace w ++ Called (picked driver) MaximizeWindow :: t)%list).
Proof.
  intros Hhtml. split.
  - rewrite get_svgs_with, with_tmp_html_eq. cbn [snd].
    destruct (body_after_html ext
                (fun q web_driver =>
                   get ext web_driver ("file:///" +:+ q);;;
                   wait_until_render_complete ext web_driver timeout;;;
                   execute_script ext web_driver _SVG_SCRIPT)
                driver kwargs w html Hhtml) as (w2 & Ht2 & Hbody).
    unfold svgs_body. rewrite Hbody.
    destruct (first_call ext (picked driver)
                (Get ("file:///" +:+ tmp_html_path ext w))
                (fun w0 => drv_get ext ("file:///" +:+ tmp_html_path ext w) (files w0))
                (fun _ => wait_until_render_complete ext (picked driver) timeout;;;
                          execute_script ext (picked driver) _SVG_SCRIPT) w2)
      as (t & Ht).
    { intros _. apply keeps_bind; [apply commands_to_preorder|apply commands_to_wait|].
      intros _ w0. unfold execute_script, call.
      destruct (drv_execute_script ext _SVG_SCRIPT (session (picked driver) w0)).
      apply commands_to_call. }
    exists t.
    destruct (__exit___only_fs (tmp_html_file ext w)
                (snd ((get ext (picked driver) ("file:///" +:+ tmp_html_path ext w);;;
                       wait_until_render_complete ext (picked driver) timeout;;;
                       execute_script ext (picked driver) _SVG_SCRIPT) w2)))
      as (f & s & ->).
    simpl trace. unfold get. rewrite Ht, Ht2. reflexivity.
  - rewrite snd_get_screenshot_as_png, with_tmp_html_eq. cbn [snd].
    destruct (body_after_html ext
                (fun q web_driver =>
                   maximize_window ext web_driver;;;
                   get ext web_driver ("file:///" +:+ q);;;
                   wait_until_render_complete ext web_driver timeout;;;
                   _maximize_viewport ext web_driver;;;
                   driver_get_screenshot_as_png ext web_driver)
                driver kwargs w html Hhtml) as (w2 & Ht2 & Hbody).
    unfold screenshot_body. rewrite Hbody.
    destruct (first_call ext (picked driver) MaximizeWindow
                (fun _ => drv_maximize_window ext)
                (fun _ => get ext (picked driver) ("file:///" +:+ tmp_html_path ext w);;;
                          wait_until_render_complete ext (picked driver) timeout;;;
                          _maximize_viewport ext (picked driver);;;
                          driver_get_screenshot_as_png ext (picked driver)) w2)
      as (t & Ht).
    { intros _.
      assert (Hcall : forall A c (method : World D -> D -> Result A * D),
                keeps (commands_to (picked driver)) (call ext (picked driver) c method)).
      { intros A c method w0. unfold call.
        destruct (method w0 (session (picked driver) w0)). apply commands_to_call. }
      apply keeps_bind; [apply commands_to_preorder|apply Hcall|]. intros _.
      apply keeps_bind; [apply commands_to_preorder|apply commands_to_wait|]. intros _.
      apply keeps_bind;
        [apply commands_to_preorder|apply commands_to__maximize_viewport|].
      intros _. apply Hcall. }
    exists t.
    destruct (__exit___only_fs (tmp_html_file ext w)
                (snd ((maximize_window ext (picked driver);;;
                       get ext (picked driver) ("file:///" +:+ tmp_html_path ext w);;;
                       wait_until_render_complete ext (picked driver) timeout;;;
                       _maximize_viewport ext (picked driver);;;
                       driver_get_screenshot_as_png ext (picked driver)) w2)))
      as (f & s & ->).
    simpl trace. unfold maximize_window at 1. rewrite Ht, Ht2. reflexivity.
Qed.

Lemma first_command_of_a_call_witness :
  let w := Demo.world (Demo.browser 1 1 ["<svg/>"] []) in
  exists t, trace (snd (get_svgs Demo.ext (Some Supplied) 5 ∅ w))
            = Called Supplied (Get "file:////tmp/bokeh0.html") :: t.
Proof.
  cbv zeta.
  destruct (first_command_of_a_call Demo.ext (Some Supplied) 5 ∅
              (Demo.world (Demo.browser 1 1 ["<svg/>"] []))
              "<html>plot</html>" eq_refl) as [[t Ht] _].
  exists t. exact Ht.
Defined.

(** ** export_svgs: the meaning of [None] *)

(** X18. [export_svgs] returns [None] only when there was nothing to save:
    the browser returned a value of length zero, the one thing added to
    what [get_svgs] left is the warning, and no file was written.  Whenever
    it wrote a file it returns the list of names. *)
Theorem none_means_nothing_found {D} (ext : Collaborators D)
        (filename : option string) (height width : option Z)
        (webdriver : option Handle) (timeout : Z) (w : World D) :
  fst (export_svgs ext filename height width webdriver timeout w) = Ok None ->
  let w1 := snd (get_svgs ext webdriver timeout (size_kwargs height width) w) in
  (fst (get_svgs ext webdriver timeout (size_kwargs height width) w) = Ok (JArr [])
   \/ fst (get_svgs ext webdriver timeout (size_kwargs height width) w)
      = Ok (JStr EmptyString))
  /\ snd (export_svgs ext filename height width webdriver timeout w)
     = set_log (log w1 ++ ["No SVG Plots were found."]) w1.
Proof.
  cbv zeta.
  assert (Heq : export_svgs ext filename height width webdriver timeout w
                = match get_svgs ext webdriver timeout (size_kwargs height width) w with
                  | (Ok svgs, w1) =>
                      (n <- py_len svgs;;
                       if (n =? 0)%nat
                       then log_warning "No SVG Plots were found.";;; ret None
                       else items <- py_iter svgs;;
                            filenames <- export_svgs_loop ext 0 items
                                           (used_filename ext filename "svg") [];;
                            ret (Some filenames)) w1
                  | (Raise e, w1) => (Raise e, w1)
                  end) by reflexivity.
  rewrite Heq. clear Heq.
  destruct (get_svgs ext webdriver timeout (size_kwargs height width) w)
    as [[svgs|e] w1]; [|discriminate].
  cbn [fst snd].
  assert (Hloop : forall (items : list JsVal) name,
    fst ((filenames <- export_svgs_loop ext 0 items name [];; ret (Some filenames)) w1)
    <> Ok None).
  { intros items name. unfold bind.
    destruct (export_svgs_loop ext 0 items name [] w1) as [[names|e] w2]; discriminate. }
  destruct svgs as [| | |s|l]; cbn [py_len py_iter]; rewrite ?bind_ret;
    try discriminate.
  - destruct s as [|c s]; cbn [String.length Nat.eqb].
    + intros _. split; [now right|reflexivity].
    + rewrite bind_ret. intros H. now apply Hloop in H.
  - destruct l as [|x l]; cbn [length Nat.eqb].
    + intros _. split; [now left|reflexivity].
    + rewrite bind_ret. intros H. now apply Hloop in H.
Qed.

Lemma none_means_nothing_found_witness :
  let w := Demo.world (Demo.browser 1 1 [] []) in
  fst (export_svgs Demo.ext None None None None 5 w) = Ok None
  /\ fst (get_svgs Demo.ext None 5 (size_kwargs None None) w) = Ok (JArr []).
Proof.
  cbv zeta.
  assert (Hr : fst (export_svgs Demo.ext None None None None 5
                      (Demo.world (Demo.browser 1 1 [] []))) = Ok None)
    by (vm_compute; reflexivity).
  split; [exact Hr|].
  destruct (none_means_nothing_found Demo.ext None None None None 5 _ Hr)
    as [[H|H] _]; [exact H|].
  vm_compute in H. discriminate.
Defined.
